(** * Tab/window reconciliation model of tabli (src/js/components/WindowHeader.js)

    A shallow embedding of the [TabItem] / [TabWindow] records, the merge
    engine [mergeSavedOpenTabs] and the lifecycle operations built on it.

    Conventions of the embedding:
    - an Immutable.js [Record] is a Rocq record; [rec.remove(k)] resets the
      field [k] to the default value given in the record declaration;
    - an [Immutable.List] is a [list]; [Immutable.Map] keyed by URL is a
      [gmap string _]; [Immutable.Set] of URLs is a [gset string];
    - JavaScript numbers used as identifiers and indices are [Z];
    - a JavaScript exception ([throw], or a [TypeError] on a [null]
      receiver) is the [Throw] case of [result];
    - console diagnostics have no effect on the returned value and are
      left out. *)

From stdpp Require Import base option list gmap strings pretty.
From Stdlib Require Import ZArith Lia Ascii Sorted Permutation.

Local Open Scope Z_scope.

(** ** Exceptions *)

Inductive result (A : Type) : Type :=
  | Ok (a : A)
  | Throw (msg : string).
Arguments Ok {A} a.
Arguments Throw {A} msg.

Definition rbind {A B} (m : result A) (k : A → result B) : result B :=
  match m with
  | Ok a => k a
  | Throw e => Throw e
  end.

Notation "x ←! m ; k" := (rbind m (λ x, k))
  (at level 20, m at level 100, k at level 200, right associativity,
   format "x  ←!  m ;  '/' k").

(** [list.map f] of an Immutable.List when [f] may throw: elements are
    visited left to right and the first exception aborts the map. *)
Fixpoint mapR {A B} (f : A → result B) (l : list A) : result (list B) :=
  match l with
  | [] => Ok []
  | x :: l' => y ←! f x; ys ←! mapR f l'; Ok (y :: ys)
  end.

Definition isOk {A} (r : result A) : bool :=
  match r with Ok _ => true | Throw _ => false end.

(** ** Immutable.js collection primitives *)

(** [resolveBegin(index, size)]: a negative index counts from the end,
    and the outcome is clamped to [0 .. size]. *)
Definition resolveBegin (index : Z) (size : nat) : nat :=
  if index <? 0 then Z.to_nat (Z.max 0 (Z.of_nat size + index))
  else Nat.min size (Z.to_nat index).

(** [list.splice(index, removeNum, ...values)] *)
Definition splice {A} (l : list A) (index : Z) (removeNum : nat)
    (values : list A) : list A :=
  let i := resolveBegin index (length l) in
  take i l ++ values ++ drop (i + removeNum)%nat l.

(** [list.findEntry(pred)]: first [(index, value)] whose value satisfies
    the predicate, [None] standing for [undefined]. *)
Fixpoint findEntryFrom {A} (pred : A → bool) (i : nat) (l : list A)
    : option (nat * A) :=
  match l with
  | [] => None
  | x :: l' => if pred x then Some (i, x) else findEntryFrom pred (S i) l'
  end.

Definition findEntry {A} (pred : A → bool) (l : list A) : option (nat * A) :=
  findEntryFrom pred 0 l.

(** [findEntry] with a predicate that may throw. *)
Fixpoint findEntryFromR {A} (pred : A → result bool) (i : nat) (l : list A)
    : result (option (nat * A)) :=
  match l with
  | [] => Ok None
  | x :: l' =>
      b ←! pred x;
      if b : bool then Ok (Some (i, x)) else findEntryFromR pred (S i) l'
  end.

Definition findEntryR {A} (pred : A → result bool) (l : list A)
    : result (option (nat * A)) :=
  findEntryFromR pred 0 l.

(** [list.indexOf(target)]: index of the first element equal (by value,
    [Immutable.is]) to the target, or [-1]. *)
Fixpoint indexOfFrom {A} `{EqDecision A} (target : A) (i : Z) (l : list A) : Z :=
  match l with
  | [] => -1
  | x :: l' => if decide (x = target) then i else indexOfFrom target (i + 1) l'
  end.

Definition listIndexOf {A} `{EqDecision A} (target : A) (l : list A) : Z :=
  indexOfFrom target 0 l.

(** [Immutable.Map(entries)]: entries are inserted left to right, so on a
    repeated key the last entry wins. *)
Definition ImmutableMap {V} (entries : list (string * V)) : gmap string V :=
  foldl (λ m kv, <[kv.1 := kv.2]> m) ∅ entries.

(** [Immutable.Set(values)] *)
Definition ImmutableSet (values : list string) : gset string :=
  list_to_set values.

(** ** Records *)

Module SavedTabState.
Record t : Type := mk {
  bookmarkId : string;
  bookmarkIndex : Z;
  title : string;
  url : string
}.
#[global] Instance eq_dec : EqDecision t.
Proof. solve_decision. Defined.

Definition set_title (v : string) (s : t) : t :=
  mk (bookmarkId s) (bookmarkIndex s) v (url s).
Definition set_url (v : string) (s : t) : t :=
  mk (bookmarkId s) (bookmarkIndex s) (title s) v.
Definition set_bookmarkId (v : string) (s : t) : t :=
  mk v (bookmarkIndex s) (title s) (url s).
Definition set_bookmarkIndex (v : Z) (s : t) : t :=
  mk (bookmarkId s) v (title s) (url s).

(** field names, in declaration order ([_.keys(state.toJS())]) *)
Definition keys : list string :=
  ["bookmarkId"; "bookmarkIndex"; "title"; "url"]%string.
End SavedTabState.

Module OpenTabState.
Record t : Type := mk {
  url : string;
  openTabId : Z;
  active : bool;
  openTabIndex : Z;
  favIconUrl : string;
  title : string;
  audible : bool;
  pinned : bool
}.
#[global] Instance eq_dec : EqDecision t.
Proof. solve_decision. Defined.

Definition set_url (v : string) (s : t) : t :=
  mk v (openTabId s) (active s) (openTabIndex s) (favIconUrl s) (title s)
     (audible s) (pinned s).
Definition set_openTabId (v : Z) (s : t) : t :=
  mk (url s) v (active s) (openTabIndex s) (favIconUrl s) (title s)
     (audible s) (pinned s).
Definition set_active (v : bool) (s : t) : t :=
  mk (url s) (openTabId s) v (openTabIndex s) (favIconUrl s) (title s)
     (audible s) (pinned s).
Definition set_openTabIndex (v : Z) (s : t) : t :=
  mk (url s) (openTabId s) (active s) v (favIconUrl s) (title s)
     (audible s) (pinned s).
Definition set_favIconUrl (v : string) (s : t) : t :=
  mk (url s) (openTabId s) (active s) (openTabIndex s) v (title s)
     (audible s) (pinned s).
Definition set_title (v : string) (s : t) : t :=
  mk (url s) (openTabId s) (active s) (openTabIndex s) (favIconUrl s) v
     (audible s) (pinned s).
Definition set_audible (v : bool) (s : t) : t :=
  mk (url s) (openTabId s) (active s) (openTabIndex s) (favIconUrl s)
     (title s) v (pinned s).
Definition set_pinned (v : bool) (s : t) : t :=
  mk (url s) (openTabId s) (active s) (openTabIndex s) (favIconUrl s)
     (title s) (audible s) v.

(** [os.remove('openTabId')], [os.remove('active')]: back to the
    record's defaults [-1] and [false]. *)
Definition remove_openTabId : t → t := set_openTabId (-1).
Definition remove_active : t → t := set_active false.

Definition keys : list string :=
  ["url"; "openTabId"; "active"; "openTabIndex"; "favIconUrl"; "title";
   "audible"; "pinned"]%string.
End OpenTabState.

Module TabItem.
Record t : Type := mk {
  saved : bool;
  savedState : option SavedTabState.t;
  open : bool;
  openState : option OpenTabState.t
}.
#[global] Instance eq_dec : EqDecision t.
Proof. solve_decision. Defined.

Definition set_saved (v : bool) (ti : t) : t :=
  mk v (savedState ti) (open ti) (openState ti).
Definition set_savedState (v : option SavedTabState.t) (ti : t) : t :=
  mk (saved ti) v (open ti) (openState ti).
Definition set_open (v : bool) (ti : t) : t :=
  mk (saved ti) (savedState ti) v (openState ti).
Definition set_openState (v : option OpenTabState.t) (ti : t) : t :=
  mk (saved ti) (savedState ti) (open ti) v.

Definition title (ti : t) : string :=
  match open ti, openState ti with
  | true, Some os => OpenTabState.title os
  | _, _ =>
      match savedState ti with
      | Some ss => SavedTabState.title ss
      | None => ""
      end
  end.

Definition url (ti : t) : string :=
  match open ti, openState ti with
  | true, Some os => OpenTabState.url os
  | _, _ =>
      match savedState ti with
      | Some ss => SavedTabState.url ss
      | None => ""
      end
  end.

Definition pinned (ti : t) : bool :=
  match open ti, openState ti with
  | true, Some os => OpenTabState.pinned os
  | _, _ => false
  end.

Definition safeSavedState (ti : t) : result SavedTabState.t :=
  match saved ti, savedState ti with
  | true, Some ss => Ok ss
  | _, _ => Throw "Unexpected access of savedState on unsaved tab"
  end.

Definition safeOpenState (ti : t) : result OpenTabState.t :=
  match open ti, openState ti with
  | true, Some os => Ok os
  | _, _ => Throw "Unexpected access of openState on non-open tab"
  end.
End TabItem.

(** ** Browser-side shapes consumed by the model *)

(** A live tab; [url] and [title] are read with [_.get(tab, k, default)],
    so they may be absent. *)
Module ChromeTab.
Record t : Type := mk {
  url : option string;
  id : Z;
  index : Z;
  active : bool;
  pinned : bool;
  audible : bool;
  favIconUrl : string;
  title : option string
}.
End ChromeTab.

(** A bookmark node. *)
Module Bookmark.
Record t : Type := mk {
  id : string;
  index : Z;
  url : option string;
  title : option string
}.
End Bookmark.

(** A live window snapshot; [tabs] may be missing. *)
Module ChromeWindow.
Record t : Type := mk {
  id : Z;
  type : string;
  width : Z;
  height : Z;
  tabs : option (list ChromeTab.t)
}.
End ChromeWindow.

(** ** Tab item constructors and projections *)

Definition makeSavedTabState (bm : Bookmark.t) : SavedTabState.t :=
  let url := default "" (Bookmark.url bm) in
  {| SavedTabState.url := url;
     SavedTabState.title := default url (Bookmark.title bm);
     SavedTabState.bookmarkId := Bookmark.id bm;
     SavedTabState.bookmarkIndex := Bookmark.index bm |}.

Definition makeBookmarkedTabItem (bm : Bookmark.t) : TabItem.t :=
  {| TabItem.saved := true;
     TabItem.savedState := Some (makeSavedTabState bm);
     TabItem.open := false;
     TabItem.openState := None |}.

Definition makeOpenTabState (tab : ChromeTab.t) : OpenTabState.t :=
  let url := default "" (ChromeTab.url tab) in
  {| OpenTabState.url := url;
     OpenTabState.audible := ChromeTab.audible tab;
     OpenTabState.favIconUrl := ChromeTab.favIconUrl tab;
     OpenTabState.title := default url (ChromeTab.title tab);
     OpenTabState.openTabId := ChromeTab.id tab;
     OpenTabState.active := ChromeTab.active tab;
     OpenTabState.openTabIndex := ChromeTab.index tab;
     OpenTabState.pinned := ChromeTab.pinned tab |}.

Definition makeOpenTabItem (tab : ChromeTab.t) : TabItem.t :=
  {| TabItem.saved := false;
     TabItem.savedState := None;
     TabItem.open := true;
     TabItem.openState := Some (makeOpenTabState tab) |}.

(** [ti.remove('open').remove('openState')] *)
Definition resetSavedItem (ti : TabItem.t) : TabItem.t :=
  TabItem.set_openState None (TabItem.set_open false ti).

(** [ti.update('openState', os => os.remove('openTabId'))]; the updater
    dereferences [os], so a missing open state on an open item throws. *)
Definition cleanOpenState (ti : TabItem.t) : result TabItem.t :=
  if negb (TabItem.open ti) then Ok ti
  else
    match TabItem.openState ti with
    | Some os =>
        Ok (TabItem.set_openState (Some (OpenTabState.remove_openTabId os)) ti)
    | None => Throw "TypeError: Cannot read property 'remove' of null"
    end.

(** [ti.remove('saved').remove('savedState')] *)
Definition resetOpenItem (ti : TabItem.t) : TabItem.t :=
  TabItem.set_savedState None (TabItem.set_saved false ti).

(** ** Merge engine *)

Definition mergeSavedOpenTabs (savedItems openItems : list TabItem.t)
    : result (list TabItem.t) :=
  let openUrlSet := ImmutableSet (map TabItem.url openItems) in
  entries ←! mapR (λ ti, ss ←! TabItem.safeSavedState ti;
                         Ok (SavedTabState.url ss, ti)) savedItems;
  let savedUrlMap := ImmutableMap entries in
  let openTabItems :=
    map (λ openItem,
           let savedItem :=
             match TabItem.openState openItem with
             | Some os => savedUrlMap !! OpenTabState.url os
             | None => None
             end in
           match savedItem with
           | Some si =>
               TabItem.set_savedState (TabItem.savedState si)
                 (TabItem.set_saved true openItem)
           | None => openItem
           end) openItems in
  let closedTabItems :=
    List.filter (λ savedItem,
                   match TabItem.savedState savedItem with
                   | Some ss =>
                       negb (bool_decide (SavedTabState.url ss ∈ openUrlSet))
                   | None => false
                   end) savedItems in
  Ok (openTabItems ++ closedTabItems).

(** ** Tab windows *)

Module TabWindow.
Record t : Type := mk {
  saved : bool;
  savedTitle : string;
  savedFolderId : string;
  open : bool;
  openWindowId : Z;
  windowType : string;
  width : Z;
  height : Z;
  tabItems : list TabItem.t;
  snapshot : bool;
  chromeSessionId : option string;
  expanded : option bool
}.

Definition set_tabItems (v : list TabItem.t) (w : t) : t :=
  mk (saved w) (savedTitle w) (savedFolderId w) (open w) (openWindowId w)
     (windowType w) (width w) (height w) v (snapshot w)
     (chromeSessionId w) (expanded w).
Definition set_saved (v : bool) (w : t) : t :=
  mk v (savedTitle w) (savedFolderId w) (open w) (openWindowId w)
     (windowType w) (width w) (height w) (tabItems w) (snapshot w)
     (chromeSessionId w) (expanded w).
Definition set_savedTitle (v : string) (w : t) : t :=
  mk (saved w) v (savedFolderId w) (open w) (openWindowId w)
     (windowType w) (width w) (height w) (tabItems w) (snapshot w)
     (chromeSessionId w) (expanded w).
Definition set_savedFolderId (v : string) (w : t) : t :=
  mk (saved w) (savedTitle w) v (open w) (openWindowId w)
     (windowType w) (width w) (height w) (tabItems w) (snapshot w)
     (chromeSessionId w) (expanded w).
Definition set_open (v : bool) (w : t) : t :=
  mk (saved w) (savedTitle w) (savedFolderId w) v (openWindowId w)
     (windowType w) (width w) (height w) (tabItems w) (snapshot w)
     (chromeSessionId w) (expanded w).
Definition set_openWindowId (v : Z) (w : t) : t :=
  mk (saved w) (savedTitle w) (savedFolderId w) (open w) v
     (windowType w) (width w) (height w) (tabItems w) (snapshot w)
     (chromeSessionId w) (expanded w).
Definition set_windowType (v : string) (w : t) : t :=
  mk (saved w) (savedTitle w) (savedFolderId w) (open w) (openWindowId w)
     v (width w) (height w) (tabItems w) (snapshot w)
     (chromeSessionId w) (expanded w).
Definition set_width (v : Z) (w : t) : t :=
  mk (saved w) (savedTitle w) (savedFolderId w) (open w) (openWindowId w)
     (windowType w) v (height w) (tabItems w) (snapshot w)
     (chromeSessionId w) (expanded w).
Definition set_height (v : Z) (w : t) : t :=
  mk (saved w) (savedTitle w) (savedFolderId w) (open w) (openWindowId w)
     (windowType w) (width w) v (tabItems w) (snapshot w)
     (chromeSessionId w) (expanded w).
Definition set_snapshot (v : bool) (w : t) : t :=
  mk (saved w) (savedTitle w) (savedFolderId w) (open w) (openWindowId w)
     (windowType w) (width w) (height w) (tabItems w) v
     (chromeSessionId w) (expanded w).
Definition set_chromeSessionId (v : option string) (w : t) : t :=
  mk (saved w) (savedTitle w) (savedFolderId w) (open w) (openWindowId w)
     (windowType w) (width w) (height w) (tabItems w) (snapshot w)
     v (expanded w).

(** [get id]: the memoised value is computed once per (immutable)
    instance from [saved], [savedFolderId] and [openWindowId], so it is
    this function of the record; the number is rendered in decimal. *)
Definition id (w : t) : string :=
  if saved w then "_saved" +:+ savedFolderId w
  else "_open" +:+ pretty (openWindowId w).

Definition openTabCount (w : t) : nat :=
  length (List.filter TabItem.open (tabItems w)).

Definition findChromeTabId (tabId : Z) (w : t) : option (nat * TabItem.t) :=
  findEntry (λ ti,
               TabItem.open ti &&
               match TabItem.openState ti with
               | Some os => bool_decide (OpenTabState.openTabId os = tabId)
               | None => false
               end) (tabItems w).

Definition findChromeBookmarkId (bookmarkId : string) (w : t)
    : option (nat * TabItem.t) :=
  findEntry (λ ti,
               TabItem.saved ti &&
               match TabItem.savedState ti with
               | Some ss =>
                   bool_decide (SavedTabState.bookmarkId ss = bookmarkId)
               | None => false
               end) (tabItems w).

Definition setTabItems (nextItems : list TabItem.t) (w : t) : t :=
  set_tabItems nextItems w.

Definition indexOf (target : TabItem.t) (w : t) : Z :=
  listIndexOf target (tabItems w).
End TabWindow.

(** ** Closing a window *)

Definition removeOpenWindowState (tabWindow : TabWindow.t) (snapshot : bool)
    : result TabWindow.t :=
  let tabItems := TabWindow.tabItems tabWindow in
  updTabItems ←!
    (if negb snapshot then
       let savedTabItems := List.filter TabItem.saved tabItems in
       Ok (map resetSavedItem savedTabItems)
     else mapR cleanOpenState tabItems);
  Ok (TabWindow.set_snapshot true
        (TabWindow.set_tabItems updTabItems
           (TabWindow.set_height 0
              (TabWindow.set_width 0
                 (TabWindow.set_windowType ""
                    (TabWindow.set_openWindowId (-1)
                       (TabWindow.set_open false tabWindow))))))).

Definition removeSavedWindowState (tabWindow : TabWindow.t) : TabWindow.t :=
  TabWindow.set_savedTitle ""
    (TabWindow.set_savedFolderId ""
       (TabWindow.set_saved false tabWindow)).

(** ** Re-merging a window *)

(** [openTabs.map(...)] dereferences [openTabs]: a window snapshot
    without a [tabs] array throws. *)
Definition mergeOpenTabs (tabItems : list TabItem.t)
    (openTabs : option (list ChromeTab.t)) : result (list TabItem.t) :=
  let baseSavedItems := map resetSavedItem (List.filter TabItem.saved tabItems) in
  match openTabs with
  | None => Throw "TypeError: Cannot read property 'map' of undefined"
  | Some tabs =>
      let chromeOpenTabItems := map makeOpenTabItem tabs in
      mergeSavedOpenTabs baseSavedItems chromeOpenTabItems
  end.

Definition mergeTabWindowTabItems (tabWindow : TabWindow.t)
    (optChromeTab : option ChromeTab.t) (optBookmark : option Bookmark.t)
    : result TabWindow.t :=
  let tabItems := TabWindow.tabItems tabWindow in
  let baseSavedItems := map resetSavedItem (List.filter TabItem.saved tabItems) in
  let baseOpenItems := map resetOpenItem (List.filter TabItem.open tabItems) in
  let updOpenItems :=
    match optChromeTab with
    | Some tab => splice baseOpenItems (ChromeTab.index tab) 0 [makeOpenTabItem tab]
    | None => baseOpenItems
    end in
  let updSavedItems :=
    match optBookmark with
    | Some bm => baseSavedItems ++ [makeBookmarkedTabItem bm]
    | None => baseSavedItems
    end in
  mergedItems ←! mergeSavedOpenTabs updSavedItems updOpenItems;
  Ok (TabWindow.setTabItems mergedItems tabWindow).

Definition createTab (tabWindow : TabWindow.t) (tab : ChromeTab.t)
    : result TabWindow.t :=
  mergeTabWindowTabItems tabWindow (Some tab) None.

Definition createSavedTab (tabWindow : TabWindow.t) (tab : ChromeTab.t)
    (bmNode : Bookmark.t) : result TabWindow.t :=
  mergeTabWindowTabItems tabWindow (Some tab) (Some bmNode).

Definition createBookmark (tabWindow : TabWindow.t) (bm : Bookmark.t)
    : result TabWindow.t :=
  mergeTabWindowTabItems tabWindow None (Some bm).

Definition updateWindow (tabWindow : TabWindow.t) (chromeWindow : ChromeWindow.t)
    : result TabWindow.t :=
  mergedTabItems ←!
    mergeOpenTabs (TabWindow.tabItems tabWindow) (ChromeWindow.tabs chromeWindow);
  Ok (TabWindow.set_chromeSessionId None
        (TabWindow.set_snapshot false
           (TabWindow.set_openWindowId (ChromeWindow.id chromeWindow)
              (TabWindow.set_open true
                 (TabWindow.set_windowType (ChromeWindow.type chromeWindow)
                    (TabWindow.setTabItems mergedTabItems tabWindow)))))).

(** ** Tab lifecycle *)

Definition closeTab (tabWindow : TabWindow.t) (tabId : Z) : TabWindow.t :=
  match TabWindow.findChromeTabId tabId tabWindow with
  | None => tabWindow
  | Some (index, tabItem) =>
      let updItems :=
        if TabItem.saved tabItem then
          let updTabItem := resetSavedItem tabItem in
          splice (TabWindow.tabItems tabWindow) (Z.of_nat index) 1 [updTabItem]
        else splice (TabWindow.tabItems tabWindow) (Z.of_nat index) 1 [] in
      TabWindow.setTabItems updItems tabWindow
  end.

(** [new SavedTabState(tabNode)]: the record constructor reads only its
    own field names from the node, which has [title] and [url] but neither
    [bookmarkId] nor [bookmarkIndex]. *)
Definition newSavedTabState (tabNode : Bookmark.t) : SavedTabState.t :=
  {| SavedTabState.bookmarkId := "";
     SavedTabState.bookmarkIndex := 0;
     SavedTabState.title := default "" (Bookmark.title tabNode);
     SavedTabState.url := default "" (Bookmark.url tabNode) |}.

Definition saveTab (tabWindow : TabWindow.t) (tabItem : TabItem.t)
    (tabNode : Bookmark.t) : result TabWindow.t :=
  os ←! TabItem.safeOpenState tabItem;
  match TabWindow.findChromeTabId (OpenTabState.openTabId os) tabWindow with
  | None => Ok tabWindow
  | Some (index, _) =>
      let savedState := newSavedTabState tabNode in
      let updTabItem :=
        TabItem.set_savedState (Some savedState) (TabItem.set_saved true tabItem) in
      let updItems :=
        splice (TabWindow.tabItems tabWindow) (Z.of_nat index) 1 [updTabItem] in
      Ok (TabWindow.setTabItems updItems tabWindow)
  end.

Definition unsaveTab (tabWindow : TabWindow.t) (tabItem : TabItem.t)
    : result TabWindow.t :=
  entry ←!
    findEntryR (λ ti,
                  if TabItem.saved ti then
                    a ←! TabItem.safeSavedState ti;
                    b ←! TabItem.safeSavedState tabItem;
                    Ok (bool_decide (SavedTabState.bookmarkId a
                                     = SavedTabState.bookmarkId b))
                  else Ok false) (TabWindow.tabItems tabWindow);
  match entry with
  | None => Ok tabWindow
  | Some (index, sourceTabItem) =>
      let updTabItem := resetOpenItem sourceTabItem in
      let updItems :=
        if TabItem.open updTabItem then
          splice (TabWindow.tabItems tabWindow) (Z.of_nat index) 1 [updTabItem]
        else splice (TabWindow.tabItems tabWindow) (Z.of_nat index) 1 [] in
      Ok (TabWindow.setTabItems updItems tabWindow)
  end.

(** [tabItem.active]: [TabItem] declares the fields [saved], [savedState],
    [open], [openState] and no getter of that name, so the property read
    yields [undefined], which is falsy. *)
Definition TabItem_active (ti : TabItem.t) : bool := false.

Definition tabItemRemoveActive (ti : TabItem.t) : result TabItem.t :=
  if TabItem.open ti then
    os ←! TabItem.safeOpenState ti;
    Ok (TabItem.set_openState (Some (OpenTabState.remove_active os)) ti)
  else Ok ti.

Definition setActiveTab (tabWindow : TabWindow.t) (tabId : Z)
    : result TabWindow.t :=
  match TabWindow.findChromeTabId tabId tabWindow with
  | None => Ok tabWindow
  | Some (index, tabItem) =>
      if TabItem_active tabItem then Ok tabWindow
      else
        nonActiveItems ←! mapR tabItemRemoveActive (TabWindow.tabItems tabWindow);
        os ←! TabItem.safeOpenState tabItem;
        let updOpenState := OpenTabState.set_active true os in
        let updActiveTab := TabItem.set_openState (Some updOpenState) tabItem in
        let updItems := splice nonActiveItems (Z.of_nat index) 1 [updActiveTab] in
        Ok (TabWindow.setTabItems updItems tabWindow)
  end.

(** ** Attribute changes *)

(** A change-info payload: a partial mapping from field names to values.
    Each field the two state records know is an optional, well-typed
    entry; [status] stands for a key that belongs to neither record. *)
Module ChangeInfo.
Record t : Type := mk {
  url : option string;
  title : option string;
  active : option bool;
  pinned : option bool;
  audible : option bool;
  favIconUrl : option string;
  openTabId : option Z;
  openTabIndex : option Z;
  bookmarkId : option string;
  bookmarkIndex : option Z;
  status : option string
}.

Definition key {A} (name : string) (o : option A) : list string :=
  match o with Some _ => [name] | None => [] end.

(** [_.keys(changeInfo)] *)
Definition keys (ci : t) : list string :=
  key "url" (url ci) ++ key "title" (title ci) ++ key "active" (active ci)
  ++ key "pinned" (pinned ci) ++ key "audible" (audible ci)
  ++ key "favIconUrl" (favIconUrl ci) ++ key "openTabId" (openTabId ci)
  ++ key "openTabIndex" (openTabIndex ci) ++ key "bookmarkId" (bookmarkId ci)
  ++ key "bookmarkIndex" (bookmarkIndex ci) ++ key "status" (status ci).

(** [_.has(changeInfo, name)] *)
Definition has (ci : t) (name : string) : bool :=
  bool_decide (name ∈ keys ci).
End ChangeInfo.

(** [_.intersection(a, b)]: the values of [a] that also occur in [b], in
    the order of [a]. *)
Definition intersection (a b : list string) : list string :=
  List.filter (λ k, bool_decide (k ∈ b)) a.

Definition upd {A S} (o : option A) (set : A → S → S) (s : S) : S :=
  match o with Some v => set v s | None => s end.

(** [acc.set(k, changeInfo[k])] on an open state *)
Definition setOpenField (changeInfo : ChangeInfo.t) (acc : OpenTabState.t)
    (k : string) : OpenTabState.t :=
  if String.eqb k "url" then upd (ChangeInfo.url changeInfo) OpenTabState.set_url acc
  else if String.eqb k "openTabId" then
    upd (ChangeInfo.openTabId changeInfo) OpenTabState.set_openTabId acc
  else if String.eqb k "active" then
    upd (ChangeInfo.active changeInfo) OpenTabState.set_active acc
  else if String.eqb k "openTabIndex" then
    upd (ChangeInfo.openTabIndex changeInfo) OpenTabState.set_openTabIndex acc
  else if String.eqb k "favIconUrl" then
    upd (ChangeInfo.favIconUrl changeInfo) OpenTabState.set_favIconUrl acc
  else if String.eqb k "title" then
    upd (ChangeInfo.title changeInfo) OpenTabState.set_title acc
  else if String.eqb k "audible" then
    upd (ChangeInfo.audible changeInfo) OpenTabState.set_audible acc
  else if String.eqb k "pinned" then
    upd (ChangeInfo.pinned changeInfo) OpenTabState.set_pinned acc
  else acc.

(** [acc.set(k, changeInfo[k])] on a saved state *)
Definition setSavedField (changeInfo : ChangeInfo.t) (acc : SavedTabState.t)
    (k : string) : SavedTabState.t :=
  if String.eqb k "bookmarkId" then
    upd (ChangeInfo.bookmarkId changeInfo) SavedTabState.set_bookmarkId acc
  else if String.eqb k "bookmarkIndex" then
    upd (ChangeInfo.bookmarkIndex changeInfo) SavedTabState.set_bookmarkIndex acc
  else if String.eqb k "title" then
    upd (ChangeInfo.title changeInfo) SavedTabState.set_title acc
  else if String.eqb k "url" then
    upd (ChangeInfo.url changeInfo) SavedTabState.set_url acc
  else acc.

Definition updateTabItem (tabWindow : TabWindow.t) (tabId : Z)
    (changeInfo : ChangeInfo.t) : result TabWindow.t :=
  match TabWindow.findChromeTabId tabId tabWindow with
  | None => Ok tabWindow
  | Some (index, prevTabItem) =>
      match TabItem.openState prevTabItem with
      | None => Ok tabWindow
      | Some prevOpenState =>
          let updKeys := intersection OpenTabState.keys (ChangeInfo.keys changeInfo) in
          if (length updKeys =? 0)%nat then Ok tabWindow
          else
            let updOpenState := foldl (setOpenField changeInfo) prevOpenState updKeys in
            let updTabItem :=
              if (0 <? length updKeys)%nat
              then TabItem.set_openState (Some updOpenState) prevTabItem
              else prevTabItem in
            let updItems :=
              splice (TabWindow.tabItems tabWindow) (Z.of_nat index) 1 [updTabItem] in
            let updWindow := TabWindow.setTabItems updItems tabWindow in
            if ChangeInfo.has changeInfo "url"
            then mergeTabWindowTabItems updWindow None None
            else Ok updWindow
      end
  end.

(** [!index] on a number: true exactly for [0] (the other falsy numbers
    are not produced by [indexOf]). *)
Definition jsNot (index : Z) : bool := index =? 0.

Definition updateTabBookmark (tabWindow : TabWindow.t) (tabItem : TabItem.t)
    (changeInfo : ChangeInfo.t) : result TabWindow.t :=
  let index := TabWindow.indexOf tabItem tabWindow in
  if jsNot index then Ok tabWindow
  else
    let prevTabItem := tabItem in
    match TabItem.savedState tabItem with
    | None => Ok tabWindow
    | Some prevSavedState =>
        let updKeys := intersection SavedTabState.keys (ChangeInfo.keys changeInfo) in
        if (length updKeys =? 0)%nat then Ok tabWindow
        else
          let updSavedState := foldl (setSavedField changeInfo) prevSavedState updKeys in
          let updTabItem :=
            if (0 <? length updKeys)%nat
            then TabItem.set_savedState (Some updSavedState) prevTabItem
            else prevTabItem in
          let updItems := splice (TabWindow.tabItems tabWindow) index 1 [updTabItem] in
          let updWindow := TabWindow.setTabItems updItems tabWindow in
          if ChangeInfo.has changeInfo "url"
          then mergeTabWindowTabItems updWindow None None
          else Ok updWindow
    end.

(** ** Initial ordering and construction *)

(** [tabItemCompare]: a negative, zero or positive number. *)
Definition tabItemCompare (tiA tiB : TabItem.t) : Z :=
  if negb (Bool.eqb (TabItem.open tiA) (TabItem.open tiB)) then
    if TabItem.open tiA then -1 else 1
  else
    match TabItem.open tiA, TabItem.openState tiA, TabItem.openState tiB with
    | true, Some osA, Some osB =>
        OpenTabState.openTabIndex osA - OpenTabState.openTabIndex osB
    | _, _, _ =>
        match TabItem.savedState tiA, TabItem.savedState tiB with
        | Some ssA, Some ssB =>
            SavedTabState.bookmarkIndex ssA - SavedTabState.bookmarkIndex ssB
        | _, _ => 0
        end
    end.

(** [list.sort(comparator)]: Immutable.js sorts the entries with the
    comparator and breaks its ties by original position, so the sort is
    stable; for a comparator that is a total preorder on the elements the
    outcome is the one stable ordering, computed here by insertion. *)
Fixpoint insertBy {A} (cmp : A → A → Z) (x : A) (l : list A) : list A :=
  match l with
  | [] => [x]
  | y :: l' => if cmp x y <=? 0 then x :: y :: l' else y :: insertBy cmp x l'
  end.

Definition sortBy {A} (cmp : A → A → Z) (l : list A) : list A :=
  foldr (insertBy cmp) [] l.

(** A bookmark folder; [title] and [children] may be missing. *)
Module BookmarkFolder.
Record t : Type := mk {
  id : string;
  title : option string;
  children : option (list Bookmark.t)
}.
End BookmarkFolder.

(** ['url' in node] *)
Definition hasUrl (node : Bookmark.t) : bool :=
  match Bookmark.url node with Some _ => true | None => false end.

Definition makeFolderTabWindow (bookmarkFolder : BookmarkFolder.t) : TabWindow.t :=
  let itemChildren :=
    match BookmarkFolder.children bookmarkFolder with
    | Some bmChildren => List.filter hasUrl bmChildren
    | None => []
    end in
  let tabItems := map makeBookmarkedTabItem itemChildren in
  let fallbackTitle :=
    match BookmarkFolder.title bookmarkFolder with
    | None =>
        match tabItems with
        | ti :: _ => TabItem.title ti
        | [] => ""
        end
    | Some _ => ""
    end in
  {| TabWindow.saved := true;
     TabWindow.savedTitle := default fallbackTitle (BookmarkFolder.title bookmarkFolder);
     TabWindow.savedFolderId := BookmarkFolder.id bookmarkFolder;
     TabWindow.open := false;
     TabWindow.openWindowId := -1;
     TabWindow.windowType := "";
     TabWindow.width := 0;
     TabWindow.height := 0;
     TabWindow.tabItems := sortBy tabItemCompare tabItems;
     TabWindow.snapshot := false;
     TabWindow.chromeSessionId := None;
     TabWindow.expanded := None |}.

Definition makeChromeTabWindow (chromeWindow : ChromeWindow.t) : TabWindow.t :=
  let chromeTabs := default [] (ChromeWindow.tabs chromeWindow) in
  let tabItems := map makeOpenTabItem chromeTabs in
  {| TabWindow.saved := false;
     TabWindow.savedTitle := "";
     TabWindow.savedFolderId := "";
     TabWindow.open := true;
     TabWindow.openWindowId := ChromeWindow.id chromeWindow;
     TabWindow.windowType := ChromeWindow.type chromeWindow;
     TabWindow.width := ChromeWindow.width chromeWindow;
     TabWindow.height := ChromeWindow.height chromeWindow;
     TabWindow.tabItems := sortBy tabItemCompare tabItems;
     TabWindow.snapshot := false;
     TabWindow.chromeSessionId := None;
     TabWindow.expanded := None |}.

(** ** Titles, active tab and export *)

(** [list.find(pred)] with a predicate that may throw. *)
Definition findR {A} (pred : A → result bool) (l : list A) : result (option A) :=
  entry ←! findEntryR pred l; Ok (snd <$> entry).

(** [(t) => t.open && t.openState.active]; the property read on a missing
    open state throws. *)
Definition isActiveTab (t : TabItem.t) : result bool :=
  if TabItem.open t then
    match TabItem.openState t with
    | Some os => Ok (OpenTabState.active os)
    | None => Throw "TypeError: Cannot read property 'active' of null"
    end
  else Ok false.

(** [computeTitle]; the memoised [title] getter returns its value, the
    cache being dropped with the instance on every update. *)
Definition computeTitle (w : TabWindow.t) : result string :=
  if TabWindow.saved w then Ok (TabWindow.savedTitle w)
  else
    activeTab ←! findR isActiveTab (TabWindow.tabItems w);
    match activeTab with
    | None =>
        match findEntry TabItem.open (TabWindow.tabItems w) with
        | None => Ok ""
        | Some (_, openTabItem) => Ok (TabItem.title openTabItem)
        end
    | Some t => Ok (TabItem.title t)
    end.

Definition updateSavedTitle (title : string) (w : TabWindow.t) : TabWindow.t :=
  TabWindow.set_savedTitle title w.

(** [getActiveTabId]; [None] stands for [undefined]. *)
Definition getActiveTabId (w : TabWindow.t) : result (option Z) :=
  activeTab ←! findR isActiveTab (TabWindow.tabItems w);
  Ok (match activeTab with
      | Some t => OpenTabState.openTabId <$> TabItem.openState t
      | None => None
      end).

(** [isExpanded(winStore)], from the store's [expandAll] flag. *)
Definition isExpanded (expandAll : bool) (w : TabWindow.t) : bool :=
  match TabWindow.expanded w with
  | None => expandAll && TabWindow.open w
  | Some b => b
  end.

Definition pipe : Ascii.ascii := "|"%char.
Definition dash : Ascii.ascii := "-"%char.

(** [s.indexOf('|')] for the one-character needle: position of the first
    occurrence, or [-1]. *)
Fixpoint indexOfChar (c : Ascii.ascii) (s : string) : Z :=
  match s with
  | EmptyString => -1
  | String a s' =>
      if Ascii.eqb a c then 0
      else let i := indexOfChar c s' in if i <? 0 then -1 else i + 1
  end.

(** [s.replace(/\|/g, '-')] *)
Fixpoint replacePipes (s : string) : string :=
  match s with
  | EmptyString => EmptyString
  | String a s' => String (if Ascii.eqb a pipe then dash else a) (replacePipes s')
  end.

(** [escapeTableCell]; [None] stands for [null] or [undefined], and the
    empty string is falsy. *)
Definition escapeTableCell (s : option string) : string :=
  match s with
  | Some str =>
      if negb (String.eqb str "") && (0 <=? indexOfChar pipe str)
      then replacePipes str
      else str
  | None => ""
  end.

Definition newline : string := String "010"%char EmptyString.

Definition fmtTabItem (ti : TabItem.t) : string :=
  let urls := TabItem.url ti in
  escapeTableCell (Some (TabItem.title ti)) +:+ " | " +:+ urls +:+ newline.

Definition headerStr : string :=
  newline +:+ "Title                                  | URL" +:+ newline
  +:+ "---------------------------------------|-----------" +:+ newline.

Definition exportStr (w : TabWindow.t) : result string :=
  title ←! computeTitle w;
  let titleStr := "### " +:+ title in
  let s0 := titleStr +:+ newline +:+ headerStr in
  Ok (foldl (λ rs ti, rs +:+ fmtTabItem ti) s0 (TabWindow.tabItems w)).

(** ** Vocabulary of the statements *)

(** An element of the saved input of the merge: flagged [saved] and
    carrying its saved state. *)
Definition isSavedItem (ti : TabItem.t) : Prop :=
  TabItem.saved ti = true ∧ is_Some (TabItem.savedState ti).

(** An element of the open input of the merge: flagged [open] and
    carrying its open state. *)
Definition isOpenItem (ti : TabItem.t) : Prop :=
  TabItem.open ti = true ∧ is_Some (TabItem.openState ti).

(** The URL a saved item is matched on ([savedItem.savedState.url]); it is
    the item's [url] whenever the item is not open. *)
Definition savedUrl (ti : TabItem.t) : string :=
  match TabItem.savedState ti with
  | Some ss => SavedTabState.url ss
  | None => ""
  end.

(** The item the merge yields for an open item [o] matched with the saved
    item [s]. *)
Definition mergedItem (s o : TabItem.t) : TabItem.t :=
  TabItem.mk true (TabItem.savedState s) (TabItem.open o) (TabItem.openState o).

(** The open part of the merge result: an open item enriched with the
    saved state of the saved item the URL map holds for its URL. *)
Definition enrich (m : gmap string TabItem.t) (o : TabItem.t) : TabItem.t :=
  match
    match TabItem.openState o with
    | Some os => m !! OpenTabState.url os
    | None => None
    end
  with
  | Some si => TabItem.set_savedState (TabItem.savedState si) (TabItem.set_saved true o)
  | None => o
  end.

(** The URL map of the merge, for saved items that carry their state. *)
Definition savedUrlMapOf (S : list TabItem.t) : gmap string TabItem.t :=
  ImmutableMap (map (λ s, (savedUrl s, s)) S).

(** The saved items kept as closed: those whose URL no open item has. *)
Definition isClosedOf (O : list TabItem.t) (s : TabItem.t) : bool :=
  bool_decide (savedUrl s ∉ map TabItem.url O).

(** The item invariant of the data model, one direction per state: an
    open item carries its open state, a saved item its saved state. *)
Definition openItemsHaveState (items : list TabItem.t) : Prop :=
  Forall (λ ti, TabItem.open ti = true → is_Some (TabItem.openState ti)) items.

Definition savedItemsHaveState (items : list TabItem.t) : Prop :=
  Forall (λ ti, TabItem.saved ti = true → is_Some (TabItem.savedState ti)) items.

(** [t.open && t.openState.active] on an item that carries its state. *)
Definition isActiveOpen (ti : TabItem.t) : bool :=
  TabItem.open ti &&
  match TabItem.openState ti with
  | Some os => OpenTabState.active os
  | None => false
  end.

(** What [cleanOpenState] computes when it does not throw. *)
Definition stripOpenTabId (ti : TabItem.t) : TabItem.t :=
  if TabItem.open ti
  then TabItem.set_openState (OpenTabState.remove_openTabId <$> TabItem.openState ti) ti
  else ti.

(** What [tabItemRemoveActive] computes when it does not throw. *)
Definition clearActive (ti : TabItem.t) : TabItem.t :=
  if TabItem.open ti
  then TabItem.set_openState (OpenTabState.remove_active <$> TabItem.openState ti) ti
  else ti.

(** An open item and a live tab showing the same page with the same
    active flag. *)
Definition sameLiveTab (ti : TabItem.t) (tab : ChromeTab.t) : Prop :=
  ∃ os, TabItem.openState ti = Some os
        ∧ OpenTabState.url os = default "" (ChromeTab.url tab)
        ∧ OpenTabState.active os = ChromeTab.active tab.

(** The open state [updateTabItem] computes: the fields named by the
    change, among those of the open state, are overwritten. *)
Definition applyOpenChanges (ci : ChangeInfo.t) (os : OpenTabState.t)
    : OpenTabState.t :=
  foldl (setOpenField ci) os (intersection OpenTabState.keys (ChangeInfo.keys ci)).

(** The saved state [updateTabBookmark] computes. *)
Definition applySavedChanges (ci : ChangeInfo.t) (ss : SavedTabState.t)
    : SavedTabState.t :=
  foldl (setSavedField ci) ss (intersection SavedTabState.keys (ChangeInfo.keys ci)).

(** The lookup of [unsaveTab], for an argument that carries the saved
    state [ss]: an item it matches, and an item it passes over. *)
Definition sameBookmark (ss : SavedTabState.t) (x : TabItem.t) : Prop :=
  TabItem.saved x = true
  ∧ ∃ xs, TabItem.savedState x = Some xs
          ∧ SavedTabState.bookmarkId xs = SavedTabState.bookmarkId ss.

Definition otherBookmark (ss : SavedTabState.t) (x : TabItem.t) : Prop :=
  TabItem.saved x = true →
  ∃ xs, TabItem.savedState x = Some xs
        ∧ SavedTabState.bookmarkId xs ≠ SavedTabState.bookmarkId ss.

(** The sort keys of the initial ordering. *)
Definition bookmarkIndexOf (ti : TabItem.t) : Z :=
  match TabItem.savedState ti with
  | Some ss => SavedTabState.bookmarkIndex ss
  | None => 0
  end.

Definition openTabIndexOf (ti : TabItem.t) : Z :=
  match TabItem.openState ti with
  | Some os => OpenTabState.openTabIndex os
  | None => 0
  end.

(** Number of occurrences of a character in a string. *)
Fixpoint countChar (c : Ascii.ascii) (s : string) : nat :=
  match s with
  | EmptyString => 0%nat
  | String a s' => ((if Ascii.eqb a c then 1 else 0) + countChar c s')%nat
  end.

(** The item invariant on a whole window. *)
Definition wellFormed (w : TabWindow.t) : Prop :=
  openItemsHaveState (TabWindow.tabItems w)
  ∧ savedItemsHaveState (TabWindow.tabItems w).

(** ** Sample data *)

(** The scenario of the merge: bookmarks for a.com and b.com, live tabs
    on b.com (active) and c.com. *)
Definition bmA : Bookmark.t := Bookmark.mk "1" 0 (Some "a.com") (Some "A").
Definition bmB : Bookmark.t := Bookmark.mk "2" 1 (Some "b.com") (Some "B").
Definition bmD : Bookmark.t := Bookmark.mk "4" 3 (Some "d.com") (Some "D").
Definition tabB : ChromeTab.t :=
  ChromeTab.mk (Some "b.com") 10 0 true false false "" (Some "B").
Definition tabC : ChromeTab.t :=
  ChromeTab.mk (Some "c.com") 11 1 false false false "" (Some "C").
Definition tabD : ChromeTab.t :=
  ChromeTab.mk (Some "d.com") 13 1 false false false "" (Some "D").
Definition tabB' : ChromeTab.t :=
  ChromeTab.mk (Some "b.com") 12 1 false false false "" (Some "B").

Definition savedA : TabItem.t := makeBookmarkedTabItem bmA.
Definition savedB : TabItem.t := makeBookmarkedTabItem bmB.
Definition savedD : TabItem.t := makeBookmarkedTabItem bmD.
(** A second bookmark of the page b.com. *)
Definition bmB' : Bookmark.t := Bookmark.mk "5" 4 (Some "b.com") (Some "B again").
Definition savedB' : TabItem.t := makeBookmarkedTabItem bmB'.
Definition openB : TabItem.t := makeOpenTabItem tabB.
Definition openC : TabItem.t := makeOpenTabItem tabC.
Definition openB' : TabItem.t := makeOpenTabItem tabB'.

(** A saved window, open with the two live tabs merged in. *)
Definition winOpen : TabWindow.t :=
  TabWindow.mk true "Work" "42" true 7 "normal" 800 600
    [mergedItem savedB openB; openC; savedA] false None None.

(** The same saved window before it is opened. *)
Definition winClosed : TabWindow.t :=
  TabWindow.mk true "Work" "42" false (-1) "" 0 0
    [savedA; savedB] false None None.

(** A saved window with two live tabs on the bookmarked page b.com. *)
Definition winTwice : TabWindow.t :=
  TabWindow.mk true "Work" "42" true 7 "normal" 800 600
    [mergedItem savedB openB; mergedItem savedB openB'] false None None.

(** The items of the sample window before any merge: two bookmarks and
    two live tabs side by side. *)
Definition winUnmerged : TabWindow.t :=
  TabWindow.mk true "Work" "42" true 7 "normal" 800 600
    [savedA; savedB; openB; openC] false None None.

(** An open window that is not saved: tabs b.com (active) and c.com. *)
Definition winLive : TabWindow.t :=
  TabWindow.mk false "" "" true 7 "normal" 800 600
    [openB; openC] false None None.

Definition liveWindow : ChromeWindow.t :=
  ChromeWindow.mk 8 "normal" 800 600 (Some [tabB; tabC]).

Definition titleChange : ChangeInfo.t :=
  ChangeInfo.mk None (Some "T"%string) None None None None None None None None None.
Definition urlChange : ChangeInfo.t :=
  ChangeInfo.mk (Some "new.com"%string) None None None None None None None None None
    (Some "loading"%string).

(** * Properties *)

(** Unfolds the field setters of a window so that projections reduce. *)
Ltac simpl_window :=
  unfold TabWindow.setTabItems, TabWindow.set_tabItems, TabWindow.set_saved,
    TabWindow.set_savedTitle, TabWindow.set_savedFolderId, TabWindow.set_open,
    TabWindow.set_openWindowId, TabWindow.set_windowType, TabWindow.set_width,
    TabWindow.set_height, TabWindow.set_snapshot, TabWindow.set_chromeSessionId;
  simpl.

(** ** Collection primitives *)

Section Primitives.
Context {A B : Type}.

Lemma mapR_Ok (f : A → result B) (g : A → B) (l : list A) :
  Forall (λ x, f x = Ok (g x)) l → mapR f l = Ok (map g l).
Proof.
  induction 1 as [|x l Hx _ IH]; simpl; [done|].
  by rewrite Hx; simpl; rewrite IH.
Qed.

Lemma mapR_Throw (f : A → result B) (l : list A) :
  Exists (λ x, isOk (f x) = false) l → isOk (mapR f l) = false.
Proof.
  induction 1 as [x l Hx|x l _ IH]; simpl.
  - by destruct (f x).
  - destruct (f x); simpl; [|done]. by destruct (mapR f l).
Qed.
End Primitives.

Section ImmutableMapFacts.
Context {V : Type}.
Implicit Types (entries : list (string * V)) (k : string) (v : V).

Lemma ImmutableMap_snoc entries k v :
  ImmutableMap (entries ++ [(k, v)]) = <[k := v]> (ImmutableMap entries).
Proof. unfold ImmutableMap. by rewrite foldl_app. Qed.

Lemma ImmutableMap_lookup_Some entries k v :
  ImmutableMap entries !! k = Some v → (k, v) ∈ entries.
Proof.
  induction entries as [|[k' v'] entries IH] using rev_ind; [done|].
  rewrite ImmutableMap_snoc. intros H. apply elem_of_app.
  destruct (decide (k' = k)) as [->|Hne].
  - rewrite lookup_insert_eq in H. injection H as ->.
    right. by apply list_elem_of_singleton.
  - rewrite lookup_insert_ne in H by done. left. by apply IH.
Qed.

Lemma ImmutableMap_lookup_None entries k :
  ImmutableMap entries !! k = None ↔ k ∉ map fst entries.
Proof.
  induction entries as [|[k' v'] entries IH] using rev_ind.
  - split; [intros _; apply not_elem_of_nil|done].
  - rewrite ImmutableMap_snoc, map_app, elem_of_app. simpl.
    rewrite list_elem_of_singleton.
    destruct (decide (k' = k)) as [->|Hne].
    + rewrite lookup_insert_eq. split; [done|]. intros H. destruct H. by right.
    + rewrite lookup_insert_ne by done. rewrite IH. split.
      * intros H [?|?]; [done|congruence].
      * intros H ?. apply H. by left.
Qed.
End ImmutableMapFacts.

(** ** The merge engine *)

Section Merge.
Implicit Types (S O : list TabItem.t) (s o r : TabItem.t) (u : string).

Lemma url_open o : isOpenItem o →
  ∃ os, TabItem.openState o = Some os ∧ TabItem.url o = OpenTabState.url os.
Proof.
  intros [Ho [os Hos]]. exists os. split; [done|].
  unfold TabItem.url. by rewrite Ho, Hos.
Qed.

Lemma url_closed s : TabItem.open s = false → TabItem.url s = savedUrl s.
Proof. intros H. unfold TabItem.url, savedUrl. by rewrite H. Qed.

Lemma safeSavedState_Ok s :
  isSavedItem s →
  rbind (TabItem.safeSavedState s) (λ ss, Ok (SavedTabState.url ss, s))
  = Ok (savedUrl s, s).
Proof.
  intros [Hs [ss Hss]]. unfold TabItem.safeSavedState, savedUrl.
  by rewrite Hs, Hss.
Qed.

Lemma safeSavedState_Throw s :
  ¬ isSavedItem s ↔ isOk (TabItem.safeSavedState s) = false.
Proof.
  unfold isSavedItem, TabItem.safeSavedState.
  destruct (TabItem.saved s), (TabItem.savedState s); simpl; split; intros H;
    try done;
    try (exfalso; apply H; by eauto);
    try (intros [? [? ?]]; done).
Qed.

Lemma merge_unfold S O :
  Forall isSavedItem S →
  mergeSavedOpenTabs S O
  = Ok (map (enrich (savedUrlMapOf S)) O ++ List.filter (isClosedOf O) S).
Proof.
  intros HS. unfold mergeSavedOpenTabs.
  rewrite (mapR_Ok _ (λ s, (savedUrl s, s))).
  2:{ eapply Forall_impl; [exact HS|]. intros s Hs. by apply safeSavedState_Ok. }
  simpl. do 2 f_equal.
  apply filter_ext_in. intros s Hin.
  rewrite Forall_forall in HS. destruct (HS s) as [_ [ss Hss]].
  { by apply list_elem_of_In. }
  unfold isClosedOf, savedUrl, ImmutableSet. rewrite Hss.
  rewrite <- bool_decide_not. apply bool_decide_ext.
  by rewrite elem_of_list_to_set.
Qed.

Lemma savedUrlMapOf_Some S u s :
  savedUrlMapOf S !! u = Some s → s ∈ S ∧ savedUrl s = u.
Proof.
  intros H. apply ImmutableMap_lookup_Some in H.
  apply list_elem_of_In, in_map_iff in H as (s' & [= <- <-] & Hin).
  split; [by apply list_elem_of_In|done].
Qed.

Lemma savedUrlMapOf_None S u :
  savedUrlMapOf S !! u = None ↔ u ∉ map savedUrl S.
Proof.
  unfold savedUrlMapOf. rewrite ImmutableMap_lookup_None.
  by rewrite map_map.
Qed.

Lemma enrich_cases S o :
  isOpenItem o →
  ((TabItem.url o ∉ map savedUrl S) ∧ enrich (savedUrlMapOf S) o = o)
  ∨ (∃ s, s ∈ S ∧ savedUrl s = TabItem.url o
          ∧ enrich (savedUrlMapOf S) o = mergedItem s o).
Proof.
  intros Ho. destruct (url_open o Ho) as (os & Hos & Hu).
  unfold enrich. rewrite Hos, <- Hu.
  destruct (savedUrlMapOf S !! TabItem.url o) as [s|] eqn:E.
  - right. exists s. apply savedUrlMapOf_Some in E as [? ?]. done.
  - left. by apply savedUrlMapOf_None in E.
Qed.

Lemma enrich_open m o :
  TabItem.open (enrich m o) = TabItem.open o
  ∧ TabItem.openState (enrich m o) = TabItem.openState o.
Proof. unfold enrich. by repeat case_match. Qed.

Lemma enrich_url m o :
  TabItem.open o = true → TabItem.url (enrich m o) = TabItem.url o.
Proof.
  intros Ho. unfold enrich. repeat case_match; try done.
  unfold TabItem.url; simpl. rewrite Ho. by repeat case_match.
Qed.
End Merge.

Section MergeTheorems.
Implicit Types (S O : list TabItem.t) (s o r : TabItem.t) (u : string).

Lemma filter_nil_forall {A} (p : A → bool) (l : list A) :
  (∀ x, x ∈ l → p x = false) → List.filter p l = [].
Proof.
  induction l as [|x l IH]; intros H; simpl; [done|].
  rewrite (H x) by apply list_elem_of_here. apply IH.
  intros y Hy. apply H. by apply list_elem_of_further.
Qed.

Lemma isClosedOf_true O s :
  isClosedOf O s = true ↔ savedUrl s ∉ map TabItem.url O.
Proof. unfold isClosedOf. by rewrite bool_decide_eq_true. Qed.

(** C10: the merge reads [safeSavedState] of every element of
    [savedItems]; it throws as soon as one element is not saved or has
    no saved state, and returns a list when every element is saved and
    carries its saved state. *)
Theorem mergeSavedOpenTabs_safe_accessor S O :
  (Exists (λ s, TabItem.saved s = false ∨ TabItem.savedState s = None) S →
     ∃ msg, mergeSavedOpenTabs S O = Throw msg)
  ∧ (Forall (λ s, TabItem.saved s = true ∧ TabItem.savedState s ≠ None) S →
     ∃ merged, mergeSavedOpenTabs S O = Ok merged).
Proof.
  split.
  - intros HE. unfold mergeSavedOpenTabs.
    match goal with |- ∃ _, rbind ?m _ = _ => assert (isOk m = false) as Hm end.
    { apply mapR_Throw. eapply Exists_impl; [exact HE|].
      intros s Hs. simpl in Hs. unfold TabItem.safeSavedState.
      destruct Hs as [-> | ->]; [done|]. by destruct (TabItem.saved s). }
    match type of Hm with isOk ?m = _ => destruct m as [?|msg] end; [done|].
    by exists msg.
  - intros HS. eexists. apply merge_unfold.
    eapply Forall_impl; [exact HS|]. intros s [? Hne]. split; [done|].
    by destruct (TabItem.savedState s); [eexists|].
Qed.

(** C2: the merge result is the items derived from [O], position by
    position in the order of [O] (each open item either unchanged or
    enriched with the saved state of a saved item with the same URL),
    followed by the saved items of [S] whose URL no item of [O] has, in
    the order of [S]. *)
Theorem mergeSavedOpenTabs_order S O :
  Forall isSavedItem S → Forall isOpenItem O →
  ∃ openPart,
    mergeSavedOpenTabs S O
    = Ok (openPart
          ++ List.filter (λ s, bool_decide (savedUrl s ∉ map TabItem.url O)) S)
    ∧ Forall2 (λ o r,
                 ((TabItem.url o ∉ map savedUrl S) ∧ r = o)
                 ∨ (∃ s, s ∈ S ∧ savedUrl s = TabItem.url o
                         ∧ r = mergedItem s o))
              O openPart.
Proof.
  intros HS HO. exists (map (enrich (savedUrlMapOf S)) O). split.
  - by apply merge_unfold.
  - clear HS. induction HO as [|o O Ho _ IH]; simpl; constructor; [|done].
    destruct (enrich_cases S o Ho) as [[? ->]|(s & ? & ? & ->)]; [by left|].
    right. by exists s.
Qed.

(** C1: for saved (closed) items [S] and open items [O], the merge has
    [|O| + |{s ∈ S : s.url ∉ O.urls}|] items; every URL of [O] is on an
    open item of the result, and only on open items; every saved URL
    that is not open is on a closed saved item; and a URL of [S] that one
    item [o] of [O] has is on exactly one item of the result, the merge
    of [o] with a saved item of that URL. *)
Theorem mergeSavedOpenTabs_identity S O :
  Forall isSavedItem S → Forall (λ s, TabItem.open s = false) S →
  Forall isOpenItem O →
  ∃ merged,
    mergeSavedOpenTabs S O = Ok merged
    ∧ length merged
      = (length O
         + length (List.filter
                     (λ s, bool_decide (TabItem.url s ∉ map TabItem.url O)) S))%nat
    ∧ (∀ o, o ∈ O →
         ∃ r, r ∈ merged ∧ TabItem.url r = TabItem.url o ∧ TabItem.open r = true)
    ∧ (∀ r, r ∈ merged → TabItem.url r ∈ map TabItem.url O → TabItem.open r = true)
    ∧ (∀ s, s ∈ S → TabItem.url s ∉ map TabItem.url O →
         ∃ r, r ∈ merged ∧ TabItem.url r = TabItem.url s
              ∧ TabItem.open r = false ∧ TabItem.saved r = true)
    ∧ (∀ u o, u ∈ map TabItem.url S →
         List.filter (λ x, bool_decide (TabItem.url x = u)) O = [o] →
         ∃ s, s ∈ S ∧ TabItem.url s = u
              ∧ List.filter (λ x, bool_decide (TabItem.url x = u)) merged
                = [mergedItem s o]).
Proof.
  intros HS HC HO. eexists. split; [by apply merge_unfold|].
  rewrite Forall_forall in HS, HC, HO.
  assert (Hclosed : ∀ s, s ∈ S → isClosedOf O s
            = bool_decide (TabItem.url s ∉ map TabItem.url O)).
  { intros s Hs. unfold isClosedOf. by rewrite url_closed by auto. }
  assert (Hin : ∀ r, r ∈ List.filter (isClosedOf O) S →
            r ∈ S ∧ TabItem.url r ∉ map TabItem.url O).
  { intros r Hr. apply list_elem_of_In, filter_In in Hr as [Hr Hp].
    apply list_elem_of_In in Hr. split; [done|].
    rewrite Hclosed in Hp by done. by apply bool_decide_eq_true in Hp. }
  repeat split.
  - rewrite length_app, length_map. f_equal. f_equal.
    apply filter_ext_in. intros s Hs. apply Hclosed. by apply list_elem_of_In.
  - intros o Ho. exists (enrich (savedUrlMapOf S) o). split; [|split].
    + apply elem_of_app. left. apply list_elem_of_In, in_map.
      by apply list_elem_of_In.
    + apply enrich_url. by apply HO.
    + rewrite (proj1 (enrich_open _ o)). by apply HO.
  - intros r Hr Hu. apply elem_of_app in Hr as [Hr|Hr].
    + apply list_elem_of_In, in_map_iff in Hr as (o & <- & Ho).
      rewrite (proj1 (enrich_open _ o)). by apply HO, list_elem_of_In.
    + by apply Hin in Hr as [_ ?].
  - intros s Hs Hu. exists s. repeat split; [|by auto|by apply HS].
    apply elem_of_app. right. apply list_elem_of_In, filter_In.
    split; [by apply list_elem_of_In|]. rewrite Hclosed by done.
    by apply bool_decide_eq_true.
  - intros u o Hu Hf.
    assert (Ho : o ∈ O ∧ TabItem.url o = u).
    { assert (In o (List.filter (λ x, bool_decide (TabItem.url x = u)) O)) as Hi
        by (rewrite Hf; by left).
      apply filter_In in Hi as [Hi Hp]. apply bool_decide_eq_true in Hp.
      split; [by apply list_elem_of_In|done]. }
    destruct Ho as [Ho Huo].
    destruct (enrich_cases S o (HO o Ho)) as [[Hn _]|(s & Hs & Hsu & He)].
    { exfalso. apply Hn. rewrite Huo.
      apply list_elem_of_In, in_map_iff in Hu as (s & <- & Hs).
      apply list_elem_of_In, in_map_iff. exists s. split; [|done].
      symmetry. apply url_closed, HC. by apply list_elem_of_In. }
    exists s. split; [done|]. split.
    { rewrite url_closed by auto. congruence. }
    rewrite List.filter_app, filter_map_swap.
    rewrite (filter_ext_in _ (λ x, bool_decide (TabItem.url x = u))).
    2:{ intros x Hx. simpl. rewrite enrich_url; [done|].
        by apply HO, list_elem_of_In. }
    rewrite Hf. simpl. rewrite He.
    rewrite filter_nil_forall; [done|].
    intros r Hr. apply Hin in Hr as [_ Hr]. apply bool_decide_eq_false.
    intros E. apply Hr. rewrite E, <- Huo.
    apply list_elem_of_In, in_map. by apply list_elem_of_In.
Qed.
End MergeTheorems.

(** ** Closing a window *)

Section CloseWindow.
Implicit Types (w : TabWindow.t) (ti : TabItem.t) (items : list TabItem.t).

Lemma cleanOpenState_Ok items :
  openItemsHaveState items →
  mapR cleanOpenState items = Ok (map stripOpenTabId items).
Proof.
  intros H. apply mapR_Ok. eapply Forall_impl; [exact H|].
  intros ti Hti. simpl in Hti. unfold cleanOpenState, stripOpenTabId.
  destruct (TabItem.open ti); simpl; [|done].
  by destruct Hti as [os ->].
Qed.

(** The snapshot variant: every item is kept, in place, and an open
    item only loses its [openTabId]. *)
Lemma removeOpenWindowState_snapshot w :
  openItemsHaveState (TabWindow.tabItems w) →
  removeOpenWindowState w true
  = Ok (TabWindow.mk (TabWindow.saved w) (TabWindow.savedTitle w)
          (TabWindow.savedFolderId w) false (-1) "" 0 0
          (map stripOpenTabId (TabWindow.tabItems w)) true
          (TabWindow.chromeSessionId w) (TabWindow.expanded w)).
Proof.
  intros H. unfold removeOpenWindowState. simpl.
  by rewrite cleanOpenState_Ok.
Qed.

Lemma stripOpenTabId_fields ti :
  TabItem.saved (stripOpenTabId ti) = TabItem.saved ti
  ∧ TabItem.savedState (stripOpenTabId ti) = TabItem.savedState ti
  ∧ TabItem.open (stripOpenTabId ti) = TabItem.open ti
  ∧ TabItem.url (stripOpenTabId ti) = TabItem.url ti
  ∧ TabItem.pinned (stripOpenTabId ti) = TabItem.pinned ti
  ∧ isActiveOpen (stripOpenTabId ti) = isActiveOpen ti.
Proof.
  unfold stripOpenTabId, TabItem.url, TabItem.pinned, isActiveOpen.
  destruct (TabItem.open ti) eqn:E; simpl; rewrite ?E; [|done].
  by destruct (TabItem.openState ti).
Qed.

(** C3: without a snapshot request the window keeps exactly its saved
    items, each reset to its saved-only form, and loses [open],
    [openWindowId], [windowType], [width] and [height]; the result is
    nevertheless marked as a snapshot, as in the snapshot variant
    ([removeOpenWindowState_snapshot]). *)
Theorem removeOpenWindowState_revert_marks_snapshot w :
  removeOpenWindowState w false
  = Ok (TabWindow.mk (TabWindow.saved w) (TabWindow.savedTitle w)
          (TabWindow.savedFolderId w) false (-1) "" 0 0
          (map resetSavedItem (List.filter TabItem.saved (TabWindow.tabItems w)))
          true
          (TabWindow.chromeSessionId w) (TabWindow.expanded w))
  ∧ ∃ w', removeOpenWindowState w false = Ok w' ∧ TabWindow.snapshot w' = true.
Proof. split; [done|]. by eexists. Qed.

(** C7: the identifier is ["_saved" + savedFolderId] for a saved window
    and ["_open" + openWindowId] otherwise, and closing a saved window,
    with or without snapshot, leaves its identifier unchanged. *)
Theorem id_stable_across_close w :
  TabWindow.id w
  = (if TabWindow.saved w then "_saved" +:+ TabWindow.savedFolderId w
     else "_open" +:+ pretty (TabWindow.openWindowId w))
  ∧ ∀ snapshot,
      TabWindow.saved w = true →
      (snapshot = true → openItemsHaveState (TabWindow.tabItems w)) →
      ∃ w', removeOpenWindowState w snapshot = Ok w'
            ∧ TabWindow.id w' = TabWindow.id w.
Proof.
  split; [done|]. intros [|] Hs Hwf.
  - rewrite removeOpenWindowState_snapshot by auto. eexists. split; [done|].
    unfold TabWindow.id. simpl. by rewrite Hs.
  - eexists. split; [done|]. unfold TabWindow.id. simpl. by rewrite Hs.
Qed.
End CloseWindow.

(** ** Lookups and in-place replacement *)

Section Lookup.
Context {A : Type}.
Implicit Types (pred : A → bool) (l : list A) (x : A).

Lemma lookup_map {B} (f : A → B) l (i : nat) : map f l !! i = f <$> (l !! i).
Proof. revert i. induction l as [|y l IH]; intros [|i]; simpl; auto. Qed.

Lemma findEntryFrom_Some pred l (i j : nat) x :
  findEntryFrom pred i l = Some (j, x) →
  ∃ k : nat, j = (i + k)%nat ∧ l !! k = Some x ∧ pred x = true
    ∧ ∀ (k' : nat) y, (k' < k)%nat → l !! k' = Some y → pred y = false.
Proof.
  revert i. induction l as [|y l IH]; intros i; simpl; [done|].
  destruct (pred y) eqn:E.
  - intros [= <- <-]. exists 0%nat.
    split; [lia|]. split; [done|]. split; [done|].
    intros k' z Hk. lia.
  - intros H. apply IH in H as (k & -> & Hk & Hp & Hlt).
    exists (Datatypes.S k).
    split; [lia|]. split; [done|]. split; [done|].
    intros [|k'] z Hk' Hz; simpl in Hz; [by injection Hz as <-|].
    apply (Hlt k'); [lia|done].
Qed.

Lemma findEntry_Some pred l (j : nat) x :
  findEntry pred l = Some (j, x) →
  l !! j = Some x ∧ pred x = true
  ∧ ∀ (k : nat) y, (k < j)%nat → l !! k = Some y → pred y = false.
Proof.
  intros H. apply findEntryFrom_Some in H as (k & -> & ? & ? & ?). done.
Qed.

Lemma findEntryFrom_None pred l (i : nat) :
  findEntryFrom pred i l = None ↔ Forall (λ x, pred x = false) l.
Proof.
  revert i. induction l as [|y l IH]; intros i; simpl.
  - split; [constructor|done].
  - destruct (pred y) eqn:E.
    + split; [done|]. intros H. apply Forall_cons in H as [? _]. congruence.
    + rewrite IH. split; [by constructor|]. intros H.
      by apply Forall_cons in H as [_ ?].
Qed.

Lemma findEntryFromR_None (predR : A → result bool) l (i : nat) :
  Forall (λ x, predR x = Ok false) l → findEntryFromR predR i l = Ok None.
Proof.
  intros H. revert i. induction H as [|y l Hy _ IH]; intros i; simpl; [done|].
  rewrite Hy. simpl. apply IH.
Qed.

Lemma findEntry_None pred l :
  findEntry pred l = None ↔ Forall (λ x, pred x = false) l.
Proof. apply findEntryFrom_None. Qed.

Lemma resolveBegin_in_range (i n : nat) :
  (i ≤ n)%nat → resolveBegin (Z.of_nat i) n = i.
Proof.
  intros H. unfold resolveBegin.
  destruct (Z.ltb_spec (Z.of_nat i) 0); [lia|]. rewrite Nat2Z.id. lia.
Qed.

Lemma splice_replace l (i : nat) x :
  (i < length l)%nat → splice l (Z.of_nat i) 1 [x] = <[i := x]> l.
Proof.
  intros H. unfold splice. rewrite resolveBegin_in_range by lia.
  rewrite insert_take_drop by done.
  by replace (i + 1)%nat with (Datatypes.S i) by lia.
Qed.

Lemma splice_remove l (i : nat) :
  (i < length l)%nat →
  splice l (Z.of_nat i) 1 [] = take i l ++ drop (Datatypes.S i) l.
Proof.
  intros H. unfold splice. rewrite resolveBegin_in_range by lia.
  by replace (i + 1)%nat with (Datatypes.S i) by lia.
Qed.
End Lookup.

(** ** Activating a tab *)

Section SetActive.
Implicit Types (w : TabWindow.t) (ti : TabItem.t) (items : list TabItem.t).

Lemma tabItemRemoveActive_Ok items :
  openItemsHaveState items →
  mapR tabItemRemoveActive items = Ok (map clearActive items).
Proof.
  intros H. apply mapR_Ok. eapply Forall_impl; [exact H|].
  intros ti Hti. simpl in Hti.
  unfold tabItemRemoveActive, clearActive, TabItem.safeOpenState.
  destruct (TabItem.open ti); simpl; [|done].
  by destruct Hti as [os ->].
Qed.

Lemma clearActive_inactive items ti :
  ti ∈ map clearActive items → isActiveOpen ti = false.
Proof.
  intros H. apply list_elem_of_In, in_map_iff in H as (t0 & <- & _).
  unfold clearActive, isActiveOpen.
  destruct (TabItem.open t0) eqn:E; simpl; rewrite E; [|done].
  by destruct (TabItem.openState t0).
Qed.

Lemma findChromeTabId_Some w tabId (index : nat) ti :
  TabWindow.findChromeTabId tabId w = Some (index, ti) →
  TabWindow.tabItems w !! index = Some ti
  ∧ TabItem.open ti = true
  ∧ ∃ os, TabItem.openState ti = Some os ∧ OpenTabState.openTabId os = tabId.
Proof.
  intros H. apply findEntry_Some in H as (Hl & Hp & _).
  split; [done|]. apply andb_prop in Hp as [Ho Hp]. split; [done|].
  destruct (TabItem.openState ti) as [os|]; [|done].
  exists os. split; [done|]. by apply bool_decide_eq_true in Hp.
Qed.

(** C6: when the id identifies an open item, found at [index], and the
    open items of the window carry their open state, [setActiveTab]
    returns a window [w'] that has the fields of the given one apart from
    its item list, and whose item list, read off [w'] itself, has the same
    length; every item keeps its position and its saved and open flags,
    the open state of an open item at position [i] is its old one with
    [active] set to [i = index], and the only active open item of [w'] is
    the one at [index], whose open-tab id is the given one; when the id
    identifies no open item the window is returned as it is. *)
Theorem setActiveTab_single_active w tabId :
  (∀ (index : nat) tabItem,
     openItemsHaveState (TabWindow.tabItems w) →
     TabWindow.findChromeTabId tabId w = Some (index, tabItem) →
     ∃ w' a os,
       setActiveTab w tabId = Ok w'
       ∧ (TabWindow.saved w' = TabWindow.saved w
          ∧ TabWindow.savedTitle w' = TabWindow.savedTitle w
          ∧ TabWindow.savedFolderId w' = TabWindow.savedFolderId w
          ∧ TabWindow.open w' = TabWindow.open w
          ∧ TabWindow.openWindowId w' = TabWindow.openWindowId w
          ∧ TabWindow.windowType w' = TabWindow.windowType w
          ∧ TabWindow.width w' = TabWindow.width w
          ∧ TabWindow.height w' = TabWindow.height w
          ∧ TabWindow.snapshot w' = TabWindow.snapshot w
          ∧ TabWindow.chromeSessionId w' = TabWindow.chromeSessionId w
          ∧ TabWindow.expanded w' = TabWindow.expanded w)
       ∧ length (TabWindow.tabItems w') = length (TabWindow.tabItems w)
       ∧ (∀ (i : nat) ti, TabWindow.tabItems w !! i = Some ti →
            ∃ ti', TabWindow.tabItems w' !! i = Some ti'
              ∧ TabItem.saved ti' = TabItem.saved ti
              ∧ TabItem.savedState ti' = TabItem.savedState ti
              ∧ TabItem.open ti' = TabItem.open ti
              ∧ TabItem.openState ti'
                = (if TabItem.open ti
                   then OpenTabState.set_active (bool_decide (i = index))
                          <$> TabItem.openState ti
                   else TabItem.openState ti))
       ∧ List.filter isActiveOpen (TabWindow.tabItems w') = [a]
       ∧ TabWindow.tabItems w' !! index = Some a
       ∧ TabItem.openState a = Some os
       ∧ OpenTabState.openTabId os = tabId
       ∧ OpenTabState.active os = true)
  ∧ (TabWindow.findChromeTabId tabId w = None → setActiveTab w tabId = Ok w).
Proof.
  split.
  - intros index tabItem Hwf Hfind.
    destruct (findChromeTabId_Some _ _ _ _ Hfind) as (Hl & Ho & os & Hos & Hid).
    pose proof (lookup_lt_Some _ _ _ Hl) as Hlt.
    set (upd := TabItem.set_openState (Some (OpenTabState.set_active true os)) tabItem).
    exists (TabWindow.setTabItems
              (<[index := upd]> (map clearActive (TabWindow.tabItems w))) w),
      upd, (OpenTabState.set_active true os).
    split.
    { unfold setActiveTab. rewrite Hfind. simpl.
      rewrite tabItemRemoveActive_Ok by done. simpl.
      unfold TabItem.safeOpenState. rewrite Ho, Hos. simpl.
      rewrite splice_replace; [done|by rewrite length_map]. }
    split; [by repeat split|].
    unfold TabWindow.setTabItems, TabWindow.set_tabItems.
    cbn [TabWindow.tabItems].
    repeat split.
    + by rewrite length_insert, length_map.
    + intros i ti Hi. destruct (decide (i = index)) as [->|Hne].
      * exists upd. rewrite list_lookup_insert_eq by by rewrite length_map.
        rewrite Hl in Hi. injection Hi as <-.
        unfold upd. simpl. rewrite Ho, Hos. simpl.
        rewrite (bool_decide_eq_true_2 (index = index)); done.
      * exists (clearActive ti).
        rewrite list_lookup_insert_ne by done.
        rewrite lookup_map, Hi. rewrite (bool_decide_eq_false_2 (i = index)); [|done].
        unfold clearActive.
        destruct (TabItem.open ti) eqn:E; simpl; rewrite ?E; by repeat split.
    + rewrite insert_take_drop by by rewrite length_map.
      rewrite List.filter_app. simpl.
      rewrite !filter_nil_forall.
      * unfold isActiveOpen, upd. simpl. by rewrite Ho.
      * intros x Hx. apply (clearActive_inactive (TabWindow.tabItems w)).
        by eapply subseteq_drop.
      * intros x Hx. apply (clearActive_inactive (TabWindow.tabItems w)).
        by eapply subseteq_take.
    + apply list_lookup_insert_eq. by rewrite length_map.
    + done.
  - intros Hnone. unfold setActiveTab. by rewrite Hnone.
Qed.
End SetActive.

(** ** Lookups that miss *)

Section Misses.
Implicit Types (w : TabWindow.t) (ti : TabItem.t) (ci : ChangeInfo.t).

Lemma closeTab_miss w tabId :
  TabWindow.findChromeTabId tabId w = None → closeTab w tabId = w.
Proof. intros H. unfold closeTab. by rewrite H. Qed.

Lemma setActiveTab_miss w tabId :
  TabWindow.findChromeTabId tabId w = None → setActiveTab w tabId = Ok w.
Proof. intros H. unfold setActiveTab. by rewrite H. Qed.

Lemma updateTabItem_miss w tabId ci :
  TabWindow.findChromeTabId tabId w = None → updateTabItem w tabId ci = Ok w.
Proof. intros H. unfold updateTabItem. by rewrite H. Qed.

Lemma saveTab_miss w ti os tabNode :
  TabItem.safeOpenState ti = Ok os →
  TabWindow.findChromeTabId (OpenTabState.openTabId os) w = None →
  saveTab w ti tabNode = Ok w.
Proof. intros H1 H2. unfold saveTab. rewrite H1. simpl. by rewrite H2. Qed.

(** [unsaveTab] looks the bookmark id of its argument up among the
    saved items of the window; when no saved item has it, the window is
    returned as it is. *)
Lemma unsaveTab_miss w ti ss :
  TabItem.safeSavedState ti = Ok ss →
  Forall (λ x, TabItem.saved x = true →
               ∃ xs, TabItem.savedState x = Some xs
                     ∧ SavedTabState.bookmarkId xs ≠ SavedTabState.bookmarkId ss)
         (TabWindow.tabItems w) →
  unsaveTab w ti = Ok w.
Proof.
  intros Hti Hall. unfold unsaveTab, findEntryR.
  rewrite findEntryFromR_None; [done|].
  eapply Forall_impl; [exact Hall|]. intros x Hx. simpl in *.
  destruct (TabItem.saved x) eqn:E; [|done].
  destruct (Hx eq_refl) as (xs & Hxs & Hne).
  unfold TabItem.safeSavedState at 1. rewrite E, Hxs, Hti. simpl.
  by rewrite bool_decide_eq_false_2.
Qed.

(** A miss of the open-tab lookup: no open item of the window carries
    the id. *)
Lemma findChromeTabId_None w tabId :
  TabWindow.findChromeTabId tabId w = None
  ↔ ∀ x os, x ∈ TabWindow.tabItems w → TabItem.open x = true →
            TabItem.openState x = Some os → OpenTabState.openTabId os ≠ tabId.
Proof.
  unfold TabWindow.findChromeTabId. rewrite findEntry_None, Forall_forall.
  split.
  - intros H x os Hx Ho Hos Hid. specialize (H x Hx). simpl in H.
    rewrite Ho, Hos in H. simpl in H. by apply bool_decide_eq_false in H.
  - intros H x Hx. destruct (TabItem.open x) eqn:Ho; [|done].
    destruct (TabItem.openState x) as [os|] eqn:Hos; [|done]. simpl.
    apply bool_decide_eq_false. by apply (H x os).
Qed.

(** Closing a tab that is found: a saved item stays in place in its
    saved-only form, an unsaved one is removed. *)
Lemma closeTab_found w tabId (index : nat) ti :
  TabWindow.findChromeTabId tabId w = Some (index, ti) →
  TabWindow.tabItems (closeTab w tabId)
  = if TabItem.saved ti
    then <[index := resetSavedItem ti]> (TabWindow.tabItems w)
    else take index (TabWindow.tabItems w)
         ++ drop (Datatypes.S index) (TabWindow.tabItems w).
Proof.
  intros Hfind. destruct (findChromeTabId_Some _ _ _ _ Hfind) as (Hl & _).
  pose proof (lookup_lt_Some _ _ _ Hl) as Hlt.
  unfold closeTab. rewrite Hfind.
  destruct (TabItem.saved ti); cbn [TabWindow.setTabItems TabWindow.set_tabItems
                                     TabWindow.tabItems].
  - by apply splice_replace.
  - by apply splice_remove.
Qed.

Lemma resolveBegin_minus_one (n : nat) : resolveBegin (-1) n = pred n.
Proof. unfold resolveBegin. simpl. lia. Qed.

Lemma splice_minus_one {A} (l : list A) (x : A) :
  splice l (-1) 1 [x] = removelast l ++ [x].
Proof.
  unfold splice. rewrite resolveBegin_minus_one.
  rewrite removelast_firstn_len. destruct l as [|y l]; [done|].
  f_equal. simpl length. simpl pred.
  rewrite drop_ge; [done|]. simpl. lia.
Qed.

(** C4: [updateTabBookmark] locates its item with [indexOf] and tests
    the outcome with [!index]. A miss yields [-1], which passes the test:
    when the argument carries a saved state and the change names one of
    its fields (here without [url]), the patched argument overwrites the
    last item of the window instead of the window being returned as it
    is. The other five operations return the window on a miss
    ([closeTab_miss], [setActiveTab_miss], [updateTabItem_miss],
    [saveTab_miss], [unsaveTab_miss]). *)
Theorem updateTabBookmark_miss_overwrites_last w ti ci ss :
  TabWindow.indexOf ti w = -1 →
  TabItem.savedState ti = Some ss →
  intersection SavedTabState.keys (ChangeInfo.keys ci) ≠ [] →
  ChangeInfo.has ci "url" = false →
  updateTabBookmark w ti ci
  = Ok (TabWindow.setTabItems
          (removelast (TabWindow.tabItems w)
           ++ [TabItem.set_savedState
                 (Some (foldl (setSavedField ci) ss
                          (intersection SavedTabState.keys (ChangeInfo.keys ci))))
                 ti]) w).
Proof.
  intros Hi Hss Hk Hu. unfold updateTabBookmark. rewrite Hi, Hss, Hu.
  revert Hk. generalize (intersection SavedTabState.keys (ChangeInfo.keys ci)).
  intros [|k ks] Hk; [done|]. simpl. by rewrite splice_minus_one.
Qed.

(** C9: an item that [indexOf] finds at index 0 is treated as not
    found: [!index] is true for [0], so the window is returned as it is
    and no field of the change is applied. *)
Theorem updateTabBookmark_index_zero_ignored w ti ci :
  TabWindow.indexOf ti w = 0 → updateTabBookmark w ti ci = Ok w.
Proof. intros Hi. unfold updateTabBookmark. by rewrite Hi. Qed.
End Misses.

(** ** Closing and reopening *)

Section RoundTrip.
Implicit Types (w : TabWindow.t) (ti : TabItem.t) (items : list TabItem.t).

Lemma filter_saved_strip items :
  List.filter TabItem.saved (map stripOpenTabId items)
  = map stripOpenTabId (List.filter TabItem.saved items).
Proof.
  rewrite filter_map_swap. f_equal. apply filter_ext. intros ti.
  apply stripOpenTabId_fields.
Qed.

Lemma baseSavedItems_saved items :
  savedItemsHaveState items →
  Forall isSavedItem (map resetSavedItem (List.filter TabItem.saved items)).
Proof.
  intros H. apply Forall_forall. intros x Hx.
  apply list_elem_of_In, in_map_iff in Hx as (ti & <- & Hti).
  apply filter_In in Hti as [Hti Hs]. unfold savedItemsHaveState in H.
  rewrite Forall_forall in H. split; [done|]. simpl.
  apply H; [by apply list_elem_of_In|done].
Qed.

Lemma baseSavedItems_closed items :
  Forall (λ s, TabItem.open s = false)
         (map resetSavedItem (List.filter TabItem.saved items)).
Proof.
  apply Forall_forall. intros x Hx.
  by apply list_elem_of_In, in_map_iff in Hx as (ti & <- & _).
Qed.

Lemma savedItemsHaveState_strip items :
  savedItemsHaveState items → savedItemsHaveState (map stripOpenTabId items).
Proof.
  intros H. apply Forall_forall. intros x Hx.
  apply list_elem_of_In, in_map_iff in Hx as (ti & <- & Hti).
  destruct (stripOpenTabId_fields ti) as (-> & -> & _).
  unfold savedItemsHaveState in H.
  rewrite Forall_forall in H. apply H. by apply list_elem_of_In.
Qed.

Lemma filter_open_merged (m : gmap string TabItem.t) (tabs : list ChromeTab.t)
    (closed : list TabItem.t) :
  Forall (λ s, TabItem.open s = false) closed →
  List.filter TabItem.open (map (enrich m) (map makeOpenTabItem tabs) ++ closed)
  = map (enrich m) (map makeOpenTabItem tabs).
Proof.
  intros Hc. rewrite List.filter_app.
  rewrite (filter_nil_forall _ closed), app_nil_r.
  - apply forallb_filter_id, forallb_forall. intros x Hx.
    apply in_map_iff in Hx as (o & <- & Ho).
    apply in_map_iff in Ho as (tab & <- & _).
    by rewrite (proj1 (enrich_open _ _)).
  - intros x Hx. rewrite Forall_forall in Hc. by apply Hc.
Qed.

Lemma sameLiveTab_view (m : gmap string TabItem.t) (l : list TabItem.t)
    (tabs : list ChromeTab.t) :
  Forall (λ ti, TabItem.open ti = true) l →
  Forall2 sameLiveTab l tabs →
  map TabItem.url (map (enrich m) (map makeOpenTabItem tabs)) = map TabItem.url l
  ∧ map isActiveOpen (map (enrich m) (map makeOpenTabItem tabs))
    = map isActiveOpen l.
Proof.
  intros Ho H. induction H as [|ti tab l tabs (os & Hos & Hu & Ha) _ IH]; [done|].
  apply Forall_cons in Ho as [Hti Ho]. destruct (IH Ho) as [IH1 IH2].
  simpl. rewrite IH1, IH2. split; f_equal.
  - rewrite enrich_url by done.
    unfold TabItem.url. simpl. by rewrite Hti, Hos.
  - unfold isActiveOpen.
    destruct (enrich_open m (makeOpenTabItem tab)) as [-> ->].
    simpl. by rewrite Hti, Hos.
Qed.

Lemma updateWindow_Ok w (chromeWindow : ChromeWindow.t) (merged : list TabItem.t) :
  mergeOpenTabs (TabWindow.tabItems w) (ChromeWindow.tabs chromeWindow) = Ok merged →
  updateWindow w chromeWindow
  = Ok (TabWindow.mk (TabWindow.saved w) (TabWindow.savedTitle w)
          (TabWindow.savedFolderId w) true (ChromeWindow.id chromeWindow)
          (ChromeWindow.type chromeWindow) (TabWindow.width w) (TabWindow.height w)
          merged false None (TabWindow.expanded w)).
Proof. intros H. unfold updateWindow. by rewrite H. Qed.

(** C8: closing a window with a snapshot and then updating it from a
    live window whose tabs show, in order, the pages of the open items
    with the same active flags gives a window whose open items have the
    same URLs in the same order and the same active flags, position by
    position. *)
Theorem close_reopen_roundtrip w (chromeWindow : ChromeWindow.t)
    (tabs : list ChromeTab.t) :
  openItemsHaveState (TabWindow.tabItems w) →
  savedItemsHaveState (TabWindow.tabItems w) →
  ChromeWindow.tabs chromeWindow = Some tabs →
  Forall2 sameLiveTab (List.filter TabItem.open (TabWindow.tabItems w)) tabs →
  ∃ w1 w2,
    removeOpenWindowState w true = Ok w1
    ∧ updateWindow w1 chromeWindow = Ok w2
    ∧ TabWindow.open w2 = true
    ∧ map TabItem.url (List.filter TabItem.open (TabWindow.tabItems w2))
      = map TabItem.url (List.filter TabItem.open (TabWindow.tabItems w))
    ∧ map isActiveOpen (List.filter TabItem.open (TabWindow.tabItems w2))
      = map isActiveOpen (List.filter TabItem.open (TabWindow.tabItems w)).
Proof.
  intros Hopen Hsaved Htabs Hsame.
  set (baseSaved := map resetSavedItem
         (List.filter TabItem.saved (map stripOpenTabId (TabWindow.tabItems w)))).
  set (O := map makeOpenTabItem tabs).
  assert (Hm : mergeOpenTabs (map stripOpenTabId (TabWindow.tabItems w)) (Some tabs)
               = Ok (map (enrich (savedUrlMapOf baseSaved)) O
                     ++ List.filter (isClosedOf O) baseSaved)).
  { unfold mergeOpenTabs. apply merge_unfold.
    by apply baseSavedItems_saved, savedItemsHaveState_strip. }
  rewrite removeOpenWindowState_snapshot by done.
  eexists. eexists. split; [reflexivity|]. split.
  { apply updateWindow_Ok. cbn [TabWindow.tabItems]. rewrite Htabs. exact Hm. }
  cbn [TabWindow.open TabWindow.tabItems]. split; [reflexivity|].
  unfold O. rewrite filter_open_merged.
  - apply sameLiveTab_view; [|done].
    apply Forall_forall. intros x Hx.
    by apply list_elem_of_In, filter_In in Hx as [_ ?].
  - apply Forall_forall. intros x Hx.
    apply list_elem_of_In, filter_In in Hx as [Hx _].
    apply in_map_iff in Hx as (ti & <- & _). done.
Qed.
End RoundTrip.

(** ** A URL change on a merged tab *)

Section UrlChange.
Implicit Types (w : TabWindow.t) (ti : TabItem.t) (ci : ChangeInfo.t)
  (items : list TabItem.t).

Lemma has_url ci u : ChangeInfo.url ci = Some u → ChangeInfo.has ci "url" = true.
Proof.
  intros H. unfold ChangeInfo.has, ChangeInfo.keys. by rewrite H.
Qed.

Lemma open_updKeys_url ci u :
  ChangeInfo.url ci = Some u →
  ∃ rest, intersection OpenTabState.keys (ChangeInfo.keys ci) = "url"%string :: rest
          ∧ Forall (λ k, k ≠ "url"%string) rest.
Proof.
  intros H. exists (intersection (tail OpenTabState.keys) (ChangeInfo.keys ci)).
  split.
  - unfold intersection, OpenTabState.keys.
    simpl List.filter at 1. simpl tail.
    pose proof (has_url ci u H) as Hh. unfold ChangeInfo.has in Hh.
    by rewrite Hh.
  - apply Forall_forall. intros k Hk.
    apply list_elem_of_In, filter_In in Hk as [Hk _]. simpl in Hk.
    intros ->. repeat (destruct Hk as [Hk|Hk]; [discriminate Hk|]). done.
Qed.

Lemma setOpenField_url ci acc k :
  k ≠ "url"%string →
  OpenTabState.url (setOpenField ci acc k) = OpenTabState.url acc.
Proof.
  intros Hk. unfold setOpenField, upd.
  apply String.eqb_neq in Hk. rewrite Hk.
  repeat case_match; done.
Qed.

Lemma foldl_setOpenField_url ci acc ks :
  Forall (λ k, k ≠ "url"%string) ks →
  OpenTabState.url (foldl (setOpenField ci) acc ks) = OpenTabState.url acc.
Proof.
  intros H. revert acc. induction H as [|k ks Hk _ IH]; intros acc; simpl; [done|].
  by rewrite IH, setOpenField_url.
Qed.

Lemma applyOpenChanges_url ci os u :
  ChangeInfo.url ci = Some u → OpenTabState.url (applyOpenChanges ci os) = u.
Proof.
  intros H. unfold applyOpenChanges.
  destruct (open_updKeys_url ci u H) as (rest & -> & Hrest). simpl.
  rewrite foldl_setOpenField_url by done.
  unfold setOpenField, upd. simpl. by rewrite H.
Qed.

Lemma elem_of_insert_inv {A} (l : list A) (i : nat) (x y : A) :
  x ∈ <[i := y]> l → x = y ∨ ∃ j : nat, j ≠ i ∧ l !! j = Some x.
Proof.
  intros H. apply list_elem_of_lookup in H as [j Hj].
  destruct (decide (j = i)) as [->|Hne].
  - left. pose proof (lookup_lt_Some _ _ _ Hj) as Hlt.
    rewrite length_insert in Hlt.
    rewrite list_lookup_insert_eq in Hj by done. by injection Hj.
  - right. exists j. by rewrite list_lookup_insert_ne in Hj.
Qed.

Lemma elem_of_filter_map {A B} (f : A → B) (p : A → bool) (l : list A) (x : A) :
  x ∈ l → p x = true → f x ∈ map f (List.filter p l).
Proof.
  intros Hx Hp. apply list_elem_of_In, in_map, filter_In.
  split; [by apply list_elem_of_In|done].
Qed.

(** C5: on an item that is both open and saved, a change whose [url]
    differs from the saved URL leaves the tab in the window as an open
    item showing the new URL, carrying the patched open state and not the
    old saved state; and when no other open item of the window shows the
    old saved URL, the old saved entry is in the window as a closed,
    saved-only item. *)
Theorem updateTabItem_url_split w tabId ci (index : nat) ti os ss newUrl :
  openItemsHaveState (TabWindow.tabItems w) →
  savedItemsHaveState (TabWindow.tabItems w) →
  TabWindow.findChromeTabId tabId w = Some (index, ti) →
  TabItem.saved ti = true →
  TabItem.savedState ti = Some ss →
  TabItem.openState ti = Some os →
  OpenTabState.url os = SavedTabState.url ss →
  ChangeInfo.url ci = Some newUrl →
  newUrl ≠ SavedTabState.url ss →
  ∃ w',
    updateTabItem w tabId ci = Ok w'
    ∧ (∃ r, r ∈ TabWindow.tabItems w'
            ∧ TabItem.open r = true
            ∧ TabItem.openState r = Some (applyOpenChanges ci os)
            ∧ TabItem.url r = newUrl
            ∧ TabItem.savedState r ≠ Some ss)
    ∧ ((∀ (j : nat) other,
          j ≠ index → TabWindow.tabItems w !! j = Some other →
          TabItem.open other = true →
          TabItem.url other ≠ SavedTabState.url ss) →
       ∃ c, c ∈ TabWindow.tabItems w'
            ∧ TabItem.saved c = true
            ∧ TabItem.savedState c = Some ss
            ∧ TabItem.open c = false
            ∧ TabItem.openState c = None).
Proof.
  intros Hopen Hsaved Hfind Hs Hss Hos _ Hurl Hne.
  destruct (findChromeTabId_Some _ _ _ _ Hfind) as (Hl & Ho & _).
  pose proof (lookup_lt_Some _ _ _ Hl) as Hlt.
  set (os' := applyOpenChanges ci os).
  assert (Hos' : OpenTabState.url os' = newUrl) by by apply applyOpenChanges_url.
  set (upd := TabItem.set_openState (Some os') ti).
  set (items1 := <[index := upd]> (TabWindow.tabItems w)).
  set (baseSaved := map resetSavedItem (List.filter TabItem.saved items1)).
  set (baseOpen := map resetOpenItem (List.filter TabItem.open items1)).
  assert (Hupd : upd ∈ items1).
  { apply list_elem_of_lookup. exists index.
    by apply list_lookup_insert_eq. }
  assert (Hsaved1 : savedItemsHaveState items1).
  { apply Forall_insert; [done|]. simpl. intros _. by rewrite Hss. }
  assert (Hopen1 : openItemsHaveState items1).
  { apply Forall_insert; [done|]. simpl. intros _. by eexists. }
  assert (Hrun : updateTabItem w tabId ci
            = Ok (TabWindow.setTabItems
                    (map (enrich (savedUrlMapOf baseSaved)) baseOpen
                     ++ List.filter (isClosedOf baseOpen) baseSaved) w)).
  { unfold updateTabItem. rewrite Hfind, Hos.
    rewrite (has_url ci newUrl Hurl).
    fold (applyOpenChanges ci os). fold os'.
    destruct (open_updKeys_url ci newUrl Hurl) as (rest & -> & _).
    simpl length. simpl.
    rewrite splice_replace by done. fold upd. fold items1.
    unfold mergeTabWindowTabItems. simpl_window.
    fold baseSaved. fold baseOpen.
    rewrite merge_unfold by by apply baseSavedItems_saved. done. }
  eexists. split; [exact Hrun|]. simpl_window. split.
  - exists (enrich (savedUrlMapOf baseSaved) (resetOpenItem upd)).
    assert (Hin : resetOpenItem upd ∈ baseOpen)
      by (apply elem_of_filter_map; done).
    destruct (enrich_open (savedUrlMapOf baseSaved) (resetOpenItem upd))
      as [Eo Es].
    split; [apply elem_of_app; left; apply list_elem_of_In, in_map;
            by apply list_elem_of_In|].
    split; [by rewrite Eo|]. split; [by rewrite Es|].
    split.
    + rewrite enrich_url by done. unfold TabItem.url. simpl. by rewrite Ho.
    + unfold enrich. simpl. rewrite Hos'.
      destruct (savedUrlMapOf baseSaved !! newUrl) as [s|] eqn:E; simpl; [|done].
      apply savedUrlMapOf_Some in E as [_ E]. intros Hc.
      apply Hne. rewrite <- E. unfold savedUrl. by rewrite Hc.
  - intros Hothers. exists (resetSavedItem upd).
    split; [|by simpl].
    apply elem_of_app. right. apply list_elem_of_In, filter_In. split.
    + apply list_elem_of_In. by apply elem_of_filter_map.
    + apply isClosedOf_true. unfold savedUrl. simpl. rewrite Hss.
      intros Hin. apply list_elem_of_In, in_map_iff in Hin as (o & Hu & Hin).
      apply in_map_iff in Hin as (x & <- & Hx).
      apply filter_In in Hx as [Hx Hxo]. apply list_elem_of_In in Hx.
      assert (Hux : TabItem.url (resetOpenItem x) = TabItem.url x).
      { unfold openItemsHaveState in Hopen1.
        rewrite Forall_forall in Hopen1.
        destruct (Hopen1 x Hx Hxo) as [xs Hxs].
        unfold TabItem.url. simpl. by rewrite Hxo, Hxs. }
      rewrite Hux in Hu.
      apply elem_of_insert_inv in Hx as [->|(j & Hj & Hjx)].
      * apply Hne. rewrite <- Hu. unfold TabItem.url. simpl. by rewrite Ho.
      * by apply (Hothers j x).
Qed.
End UrlChange.

(** ** Applying a change *)

Section Changes.
Implicit Types (w : TabWindow.t) (ti : TabItem.t) (ci : ChangeInfo.t).

(** The patch overwrites exactly the fields the change names among those
    of the state, and keeps the others. *)
Lemma applySavedChanges_fields ci ss :
  applySavedChanges ci ss
  = SavedTabState.mk
      (default (SavedTabState.bookmarkId ss) (ChangeInfo.bookmarkId ci))
      (default (SavedTabState.bookmarkIndex ss) (ChangeInfo.bookmarkIndex ci))
      (default (SavedTabState.title ss) (ChangeInfo.title ci))
      (default (SavedTabState.url ss) (ChangeInfo.url ci)).
Proof.
  destruct ss.
  destruct ci as [[?|] [?|] [?|] [?|] [?|] [?|] [?|] [?|] [?|] [?|] [?|]];
    reflexivity.
Qed.

Lemma applyOpenChanges_fields ci os :
  applyOpenChanges ci os
  = OpenTabState.mk
      (default (OpenTabState.url os) (ChangeInfo.url ci))
      (default (OpenTabState.openTabId os) (ChangeInfo.openTabId ci))
      (default (OpenTabState.active os) (ChangeInfo.active ci))
      (default (OpenTabState.openTabIndex os) (ChangeInfo.openTabIndex ci))
      (default (OpenTabState.favIconUrl os) (ChangeInfo.favIconUrl ci))
      (default (OpenTabState.title os) (ChangeInfo.title ci))
      (default (OpenTabState.audible os) (ChangeInfo.audible ci))
      (default (OpenTabState.pinned os) (ChangeInfo.pinned ci)).
Proof.
  destruct os.
  destruct ci as [[?|] [?|] [?|] [?|] [?|] [?|] [?|] [?|] [?|] [?|] [?|]];
    reflexivity.
Qed.

Lemma indexOfFrom_lookup {A} `{EqDecision A} (target : A) (k : Z) (l : list A) :
  indexOfFrom target k l = -1
  ∨ ∃ i : nat, indexOfFrom target k l = k + Z.of_nat i ∧ l !! i = Some target.
Proof.
  revert k. induction l as [|x l IH]; intros k; simpl; [by left|].
  destruct (decide (x = target)) as [->|Hne].
  - right. exists 0%nat. split; [lia|done].
  - destruct (IH (k + 1)) as [E|(i & E & Hi)]; [by left|].
    right. exists (Datatypes.S i). split; [lia|done].
Qed.

Lemma indexOf_lookup w ti (i : nat) :
  TabWindow.indexOf ti w = Z.of_nat i → TabWindow.tabItems w !! i = Some ti.
Proof.
  unfold TabWindow.indexOf, listIndexOf. intros H.
  destruct (indexOfFrom_lookup ti 0 (TabWindow.tabItems w)) as [E|(j & E & Hj)];
    [lia|].
  by replace i with j by lia.
Qed.

(** An item found at a later index: the saved state of the item is
    patched in place (here for a change without [url]). *)
Lemma updateTabBookmark_found_later w ti ci ss (i : nat) :
  TabWindow.indexOf ti w = Z.of_nat i → (0 < i)%nat →
  TabItem.savedState ti = Some ss →
  intersection SavedTabState.keys (ChangeInfo.keys ci) ≠ [] →
  ChangeInfo.has ci "url" = false →
  updateTabBookmark w ti ci
  = Ok (TabWindow.setTabItems
          (<[i := TabItem.set_savedState (Some (applySavedChanges ci ss)) ti]>
             (TabWindow.tabItems w)) w).
Proof.
  intros Hi Hpos Hss Hk Hu.
  pose proof (lookup_lt_Some _ _ _ (indexOf_lookup _ _ _ Hi)) as Hlt.
  unfold updateTabBookmark, applySavedChanges. rewrite Hi, Hss, Hu.
  replace (jsNot (Z.of_nat i)) with false by (unfold jsNot; lia).
  revert Hk. generalize (intersection SavedTabState.keys (ChangeInfo.keys ci)).
  intros [|k ks] Hk; [done|]. simpl. by rewrite splice_replace.
Qed.
End Changes.

(** ** The operations on the sample data *)

Section Samples.
Local Ltac all_items := repeat constructor; simpl; try done; try by eexists.

Lemma sample_saved : Forall isSavedItem [savedA; savedB].
Proof. all_items. Defined.

Lemma sample_closed : Forall (λ s, TabItem.open s = false) [savedA; savedB].
Proof. all_items. Defined.

Lemma sample_open : Forall isOpenItem [openB; openC].
Proof. all_items. Defined.

Lemma winOpen_openItemsHaveState : openItemsHaveState (TabWindow.tabItems winOpen).
Proof. all_items. Defined.

Lemma winOpen_savedItemsHaveState : savedItemsHaveState (TabWindow.tabItems winOpen).
Proof. all_items. Defined.

(** The scenario of the specification: saved a.com and b.com, opened
    with live tabs b.com and c.com. *)
Example merge_scenario :
  mergeSavedOpenTabs [savedA; savedB] [openB; openC]
  = Ok [mergedItem savedB openB; openC; savedA].
Proof. reflexivity. Qed.

Example closeTab_scenario :
  TabWindow.tabItems (closeTab winOpen 10)
  = [savedB; openC; savedA]
  ∧ TabWindow.tabItems (closeTab winOpen 11)
    = [mergedItem savedB openB; savedA].
Proof. split; reflexivity. Qed.

Lemma mergeSavedOpenTabs_identity_witness :
  Forall isSavedItem [savedA; savedB]
  ∧ Forall (λ s, TabItem.open s = false) [savedA; savedB]
  ∧ Forall isOpenItem [openB; openC]
  ∧ ∃ merged,
      mergeSavedOpenTabs [savedA; savedB] [openB; openC] = Ok merged
      ∧ length merged = 3%nat.
Proof.
  split; [exact sample_saved|]. split; [exact sample_closed|].
  split; [exact sample_open|].
  destruct (mergeSavedOpenTabs_identity _ _ sample_saved sample_closed sample_open)
    as (merged & Hm & Hlen & _).
  exists merged. split; [exact Hm|]. rewrite Hlen. reflexivity.
Defined.

Lemma mergeSavedOpenTabs_order_witness :
  Forall isSavedItem [savedA; savedB]
  ∧ Forall isOpenItem [openB; openC]
  ∧ ∃ openPart,
      mergeSavedOpenTabs [savedA; savedB] [openB; openC]
      = Ok (openPart ++ [savedA])
      ∧ length openPart = 2%nat.
Proof.
  split; [exact sample_saved|]. split; [exact sample_open|].
  destruct (mergeSavedOpenTabs_order _ _ sample_saved sample_open)
    as (openPart & Hm & Hall).
  exists openPart. split; [exact Hm|].
  symmetry. exact (Forall2_length _ _ _ Hall).
Defined.

Lemma mergeSavedOpenTabs_safe_accessor_witness :
  (∃ msg, mergeSavedOpenTabs [savedA; openC] [openB] = Throw msg)
  ∧ (∃ merged, mergeSavedOpenTabs [savedA; savedB] [openB] = Ok merged).
Proof.
  split.
  - apply (proj1 (mergeSavedOpenTabs_safe_accessor [savedA; openC] [openB])).
    apply Exists_cons_tl, Exists_cons_hd. by left.
  - apply (proj2 (mergeSavedOpenTabs_safe_accessor [savedA; savedB] [openB])).
    all_items.
Defined.

Lemma setActiveTab_single_active_witness :
  openItemsHaveState (TabWindow.tabItems winOpen)
  ∧ TabWindow.findChromeTabId 11 winOpen = Some (1%nat, openC)
  ∧ TabWindow.findChromeTabId 99 winOpen = None
  ∧ map isActiveOpen (TabWindow.tabItems winOpen) = [true; false; false]
  ∧ (∃ w' a os,
       setActiveTab winOpen 11 = Ok w'
       ∧ length (TabWindow.tabItems w') = 3%nat
       ∧ List.filter isActiveOpen (TabWindow.tabItems w') = [a]
       ∧ TabWindow.tabItems w' !! 1%nat = Some a
       ∧ TabItem.openState a = Some os
       ∧ OpenTabState.openTabId os = 11
       ∧ OpenTabState.active os = true)
  ∧ setActiveTab winOpen 99 = Ok winOpen.
Proof.
  split; [exact winOpen_openItemsHaveState|].
  split; [reflexivity|]. split; [reflexivity|]. split; [reflexivity|].
  destruct (setActiveTab_single_active winOpen 11) as [Hfound _].
  destruct (setActiveTab_single_active winOpen 99) as [_ Hmiss].
  split; [|exact (Hmiss eq_refl)].
  destruct (Hfound 1%nat openC winOpen_openItemsHaveState eq_refl)
    as (w' & a & os & Hrun & _ & Hlen & _ & Hone & Hat & Hos & Hid & Hact).
  exists w', a, os. repeat split; assumption.
Defined.

(** The claimed prefix is not the one the code writes. *)
Lemma id_prefix_counterexample :
  TabWindow.saved winClosed = true
  ∧ TabWindow.id winClosed ≠ "saved:" +:+ TabWindow.savedFolderId winClosed.
Proof. split; [reflexivity|]. intros H. discriminate H. Qed.

Lemma id_stable_across_close_witness :
  TabWindow.saved winOpen = true
  ∧ openItemsHaveState (TabWindow.tabItems winOpen)
  ∧ TabWindow.id winOpen = "_saved42"
  ∧ ∃ w', removeOpenWindowState winOpen true = Ok w'
          ∧ TabWindow.id w' = TabWindow.id winOpen.
Proof.
  split; [reflexivity|]. split; [exact winOpen_openItemsHaveState|].
  split; [reflexivity|].
  exact (proj2 (id_stable_across_close winOpen) true eq_refl
           (λ _, winOpen_openItemsHaveState)).
Defined.

Lemma close_reopen_roundtrip_witness :
  openItemsHaveState (TabWindow.tabItems winOpen)
  ∧ savedItemsHaveState (TabWindow.tabItems winOpen)
  ∧ ChromeWindow.tabs liveWindow = Some [tabB; tabC]
  ∧ Forall2 sameLiveTab (List.filter TabItem.open (TabWindow.tabItems winOpen))
      [tabB; tabC]
  ∧ ∃ w1 w2,
      removeOpenWindowState winOpen true = Ok w1
      ∧ updateWindow w1 liveWindow = Ok w2
      ∧ map TabItem.url (List.filter TabItem.open (TabWindow.tabItems w2))
        = ["b.com"; "c.com"]%string.
Proof.
  assert (Hsame : Forall2 sameLiveTab
            (List.filter TabItem.open (TabWindow.tabItems winOpen)) [tabB; tabC]).
  { simpl. repeat constructor; eexists; repeat split. }
  split; [exact winOpen_openItemsHaveState|].
  split; [exact winOpen_savedItemsHaveState|].
  split; [reflexivity|]. split; [exact Hsame|].
  destruct (close_reopen_roundtrip winOpen liveWindow [tabB; tabC]
              winOpen_openItemsHaveState winOpen_savedItemsHaveState eq_refl Hsame)
    as (w1 & w2 & H1 & H2 & _ & Hurls & _).
  exists w1, w2. split; [exact H1|]. split; [exact H2|]. exact Hurls.
Defined.

(** Two live tabs show the bookmarked page: when one of them navigates
    away, the bookmark stays attached to the other and no closed item
    appears. *)
Lemma updateTabItem_split_counterexample :
  TabWindow.findChromeTabId 10 winTwice = Some (0%nat, mergedItem savedB openB)
  ∧ TabItem.saved (mergedItem savedB openB) = true
  ∧ TabItem.open (mergedItem savedB openB) = true
  ∧ TabItem.url (mergedItem savedB openB) = savedUrl (mergedItem savedB openB)
  ∧ ChangeInfo.url urlChange = Some "new.com"%string
  ∧ "new.com"%string ≠ savedUrl (mergedItem savedB openB)
  ∧ ∃ w', updateTabItem winTwice 10 urlChange = Ok w'
          ∧ ¬ ∃ c, c ∈ TabWindow.tabItems w' ∧ TabItem.open c = false.
Proof.
  repeat (split; [first [reflexivity | discriminate]|]).
  eexists. split; [reflexivity|].
  intros (c & Hc & Ho). apply list_elem_of_In in Hc. simpl in Hc.
  destruct Hc as [<-|[<-|[]]]; discriminate Ho.
Qed.

Lemma updateTabItem_url_split_witness :
  openItemsHaveState (TabWindow.tabItems winOpen)
  ∧ savedItemsHaveState (TabWindow.tabItems winOpen)
  ∧ TabWindow.findChromeTabId 10 winOpen = Some (0%nat, mergedItem savedB openB)
  ∧ ChangeInfo.url urlChange = Some "new.com"%string
  ∧ ∃ w', updateTabItem winOpen 10 urlChange = Ok w'
          ∧ (∃ r, r ∈ TabWindow.tabItems w' ∧ TabItem.open r = true
                  ∧ TabItem.url r = "new.com"%string)
          ∧ (∃ c, c ∈ TabWindow.tabItems w'
                  ∧ TabItem.savedState c = Some (makeSavedTabState bmB)
                  ∧ TabItem.open c = false).
Proof.
  split; [exact winOpen_openItemsHaveState|].
  split; [exact winOpen_savedItemsHaveState|].
  split; [reflexivity|]. split; [reflexivity|].
  destruct (updateTabItem_url_split winOpen 10 urlChange 0 (mergedItem savedB openB)
              (makeOpenTabState tabB) (makeSavedTabState bmB) "new.com"
              winOpen_openItemsHaveState winOpen_savedItemsHaveState
              eq_refl eq_refl eq_refl eq_refl eq_refl eq_refl)
    as (w' & Hrun & (r & Hr & Hro & _ & Hru & _) & Hsplit).
  { discriminate. }
  exists w'. split; [exact Hrun|]. split.
  - exists r. split; [exact Hr|]. split; [exact Hro|exact Hru].
  - destruct Hsplit as (c & Hc & _ & Hcs & Hco & _).
    + intros [|[|[|j]]] other Hj Hl Ho; simpl in Hl; try done.
      * injection Hl as <-. discriminate.
      * injection Hl as <-. discriminate Ho.
    + exists c. split; [exact Hc|]. split; [exact Hcs|exact Hco].
Defined.

Lemma updateTabBookmark_miss_overwrites_last_witness :
  TabWindow.indexOf savedD winOpen = -1
  ∧ updateTabBookmark winOpen savedD titleChange
    = Ok (TabWindow.setTabItems
            [mergedItem savedB openB; openC;
             TabItem.set_savedState
               (Some (SavedTabState.set_title "T" (makeSavedTabState bmD))) savedD]
            winOpen)
  ∧ updateTabBookmark winOpen savedD titleChange ≠ Ok winOpen.
Proof.
  split; [reflexivity|].
  rewrite (updateTabBookmark_miss_overwrites_last winOpen savedD titleChange
             (makeSavedTabState bmD));
    [|reflexivity|reflexivity|discriminate|reflexivity].
  split; [reflexivity|]. discriminate.
Defined.

Lemma updateTabBookmark_index_zero_ignored_witness :
  TabWindow.indexOf savedA winClosed = 0
  ∧ TabItem.savedState savedA = Some (makeSavedTabState bmA)
  ∧ ChangeInfo.title titleChange = Some "T"%string
  ∧ updateTabBookmark winClosed savedA titleChange = Ok winClosed.
Proof.
  split; [reflexivity|]. split; [reflexivity|]. split; [reflexivity|].
  apply updateTabBookmark_index_zero_ignored. reflexivity.
Defined.

(** The window with two tabs on one bookmarked page is what the merge
    makes of one bookmark and two live tabs. *)
Example winTwice_merged :
  mergeSavedOpenTabs [savedB] [openB; openB'] = Ok (TabWindow.tabItems winTwice).
Proof. reflexivity. Qed.

(** The same change on the item at index 1 is applied. *)
Example updateTabBookmark_index_one :
  updateTabBookmark winClosed savedB titleChange
  = Ok (TabWindow.setTabItems
          [savedA;
           TabItem.set_savedState
             (Some (SavedTabState.set_title "T" (makeSavedTabState bmB))) savedB]
          winClosed).
Proof. reflexivity. Qed.

(** Reverting the sample window leaves the snapshot mark set. *)
Example removeOpenWindowState_revert_sample :
  removeOpenWindowState winOpen false
  = Ok (TabWindow.mk true "Work" "42" false (-1) "" 0 0 [savedB; savedA]
          true None None).
Proof. reflexivity. Qed.
End Samples.

(** Discharges an invariant over a concrete list of items. *)
Ltac items_ok := repeat constructor; simpl; try done; try by eexists.

(** * Further properties of the merge engine *)

Section MergeEdges.
Implicit Types (S O : list TabItem.t) (s o r : TabItem.t) (u : string).

Lemma ImmutableMap_lookup_last {V} (e1 e2 : list (string * V)) (k : string) (v : V) :
  k ∉ map fst e2 → ImmutableMap (e1 ++ (k, v) :: e2) !! k = Some v.
Proof.
  induction e2 as [|[k' v'] e2 IH] using rev_ind; intros Hk.
  - by rewrite ImmutableMap_snoc, lookup_insert_eq.
  - rewrite map_app, elem_of_app in Hk. simpl in Hk.
    rewrite app_comm_cons, app_assoc, ImmutableMap_snoc.
    rewrite lookup_insert_ne.
    + apply IH. intros ?. apply Hk. by left.
    + intros ->. apply Hk. right. by apply list_elem_of_singleton.
Qed.

Lemma enrich_empty o : enrich ∅ o = o.
Proof. unfold enrich. destruct (TabItem.openState o); by rewrite ?lookup_empty. Qed.

(** With no saved items the open items come back untouched; with no open
    items the saved items come back untouched, in their order. *)
Theorem mergeSavedOpenTabs_empty_side S O :
  mergeSavedOpenTabs [] O = Ok O
  ∧ (Forall isSavedItem S → mergeSavedOpenTabs S [] = Ok S).
Proof.
  split.
  - rewrite merge_unfold by constructor. simpl. rewrite app_nil_r. f_equal.
    induction O as [|o O IH]; simpl; [done|].
    f_equal; [apply enrich_empty|apply IH].
  - intros HS. rewrite merge_unfold by done. simpl. f_equal.
    apply forallb_filter_id, forallb_forall. intros s _.
    apply isClosedOf_true. simpl. apply not_elem_of_nil.
Qed.

Lemma mergeSavedOpenTabs_empty_side_witness :
  Forall isSavedItem [savedA; savedB]
  ∧ mergeSavedOpenTabs [savedA; savedB] [] = Ok [savedA; savedB].
Proof.
  assert (H : Forall isSavedItem [savedA; savedB])
    by items_ok.
  split; [exact H|].
  exact (proj2 (mergeSavedOpenTabs_empty_side [savedA; savedB] []) H).
Defined.

(** When several saved items have the URL of an open item, the open item
    is merged with the last of them, and none of them is kept as a closed
    item. *)
Theorem mergeSavedOpenTabs_last_saved_wins S1 S2 s o :
  Forall isSavedItem (S1 ++ s :: S2) →
  isOpenItem o →
  savedUrl s = TabItem.url o →
  TabItem.url o ∉ map savedUrl S2 →
  mergeSavedOpenTabs (S1 ++ s :: S2) [o]
  = Ok (mergedItem s o
        :: List.filter (λ x, bool_decide (savedUrl x ≠ TabItem.url o))
             (S1 ++ s :: S2)).
Proof.
  intros HS Ho Hs Hlast. rewrite merge_unfold by done. simpl. f_equal. f_equal.
  - destruct (url_open o Ho) as (os & Hos & Hu).
    unfold enrich, savedUrlMapOf. rewrite Hos, <- Hu, <- Hs.
    rewrite map_app. simpl.
    rewrite ImmutableMap_lookup_last; [done|].
    rewrite map_map. simpl. by rewrite Hs.
  - apply filter_ext. intros x. unfold isClosedOf. simpl.
    apply bool_decide_ext. rewrite list_elem_of_singleton. done.
Qed.

Lemma mergeSavedOpenTabs_last_saved_wins_witness :
  Forall isSavedItem ([savedB] ++ savedB' :: [savedA])
  ∧ isOpenItem openB
  ∧ mergeSavedOpenTabs [savedB; savedB'; savedA] [openB]
    = Ok [mergedItem savedB' openB; savedA].
Proof.
  assert (HS : Forall isSavedItem ([savedB] ++ savedB' :: [savedA]))
    by items_ok.
  assert (HO : isOpenItem openB) by (split; [done|by eexists]).
  split; [exact HS|]. split; [exact HO|].
  assert (Hlast : TabItem.url openB ∉ map savedUrl [savedA]).
  { simpl. intros H. apply list_elem_of_singleton in H. discriminate H. }
  pose proof (mergeSavedOpenTabs_last_saved_wins [savedB] [savedA] savedB' openB
                HS HO eq_refl Hlast) as H.
  change ([savedB] ++ savedB' :: [savedA]) with [savedB; savedB'; savedA] in H.
  rewrite H. reflexivity.
Defined.
End MergeEdges.

(** * Re-merging a window *)

Section Remerge.
Implicit Types (w : TabWindow.t) (S O C : list TabItem.t) (s o : TabItem.t).

Lemma mapR_Ok_inv {A B} (f : A → result B) (l : list A) (ys : list B) :
  mapR f l = Ok ys → Forall (λ x, isOk (f x) = true) l.
Proof.
  revert ys. induction l as [|x l IH]; intros ys; simpl; [constructor|].
  destruct (f x) eqn:E; simpl; [|done].
  destruct (mapR f l) eqn:E'; simpl; [|done].
  intros _. constructor; [by rewrite E|by eapply IH].
Qed.

(** A merge that returns was given saved items that carry their state. *)
Lemma merge_Ok_saved S O merged :
  mergeSavedOpenTabs S O = Ok merged → Forall isSavedItem S.
Proof.
  unfold mergeSavedOpenTabs. intros H.
  match type of H with rbind ?m _ = _ => destruct m as [entries|] eqn:E end;
    [|done].
  apply mapR_Ok_inv in E. eapply Forall_impl; [exact E|].
  intros s Hs. simpl in Hs.
  unfold isSavedItem, TabItem.safeSavedState in *.
  destruct (TabItem.saved s), (TabItem.savedState s);
    first [done | split; [done|by eexists]].
Qed.

Lemma filter_all {A} (p : A → bool) (l : list A) :
  Forall (λ x, p x = true) l → List.filter p l = l.
Proof.
  intros H. apply forallb_filter_id, forallb_forall. intros x Hx.
  rewrite Forall_forall in H. by apply H, list_elem_of_In.
Qed.

Lemma filter_none {A} (p : A → bool) (l : list A) :
  Forall (λ x, p x = false) l → List.filter p l = [].
Proof.
  intros H. apply filter_nil_forall. intros x Hx.
  rewrite Forall_forall in H. by apply H.
Qed.

Lemma map_id_on {A} (f : A → A) (l : list A) :
  Forall (λ x, f x = x) l → map f l = l.
Proof. induction 1 as [|x l Hx _ IH]; simpl; [done|]. by rewrite Hx, IH. Qed.

(** The two partitions a re-merge starts from. *)
Lemma baseOpen_shape (items : list TabItem.t) :
  Forall (λ o, TabItem.saved o = false ∧ TabItem.savedState o = None
               ∧ TabItem.open o = true)
         (map resetOpenItem (List.filter TabItem.open items)).
Proof.
  apply Forall_forall. intros x Hx.
  apply list_elem_of_In, in_map_iff in Hx as (ti & <- & Hti).
  by apply filter_In in Hti as [_ ?].
Qed.

Lemma baseSaved_shape (items : list TabItem.t) :
  Forall (λ s, TabItem.saved s = true ∧ TabItem.open s = false
               ∧ TabItem.openState s = None)
         (map resetSavedItem (List.filter TabItem.saved items)).
Proof.
  apply Forall_forall. intros x Hx.
  apply list_elem_of_In, in_map_iff in Hx as (ti & <- & Hti).
  by apply filter_In in Hti as [_ ?].
Qed.

(** Merging the outcome of a merge again, partitioned as
    [mergeTabWindowTabItems] does, gives the same list. *)
Lemma remerge_stable S O :
  Forall isSavedItem S →
  Forall (λ s, TabItem.saved s = true ∧ TabItem.open s = false
               ∧ TabItem.openState s = None) S →
  Forall (λ o, TabItem.saved o = false ∧ TabItem.savedState o = None
               ∧ TabItem.open o = true) O →
  let merged := map (enrich (savedUrlMapOf S)) O ++ List.filter (isClosedOf O) S in
  mergeSavedOpenTabs
    (map resetSavedItem (List.filter TabItem.saved merged))
    (map resetOpenItem (List.filter TabItem.open merged))
  = Ok merged.
Proof.
  intros HS HSshape HO merged.
  set (m := savedUrlMapOf S). set (C := List.filter (isClosedOf O) S).
  set (P := map resetSavedItem (List.filter TabItem.saved (map (enrich m) O))).
  rewrite Forall_forall in HS, HSshape, HO.
  assert (HC : ∀ c, c ∈ C → c ∈ S ∧ savedUrl c ∉ map TabItem.url O).
  { intros c Hc. apply list_elem_of_In, filter_In in Hc as [Hc Hp].
    split; [by apply list_elem_of_In|by apply isClosedOf_true]. }
  assert (HP : ∀ p, p ∈ P →
            ∃ o os si, o ∈ O ∧ TabItem.openState o = Some os
              ∧ m !! OpenTabState.url os = Some si
              ∧ p = TabItem.mk true (TabItem.savedState si) false None).
  { intros p Hp. apply list_elem_of_In, in_map_iff in Hp as (e & <- & He).
    apply filter_In in He as [He Hsaved].
    apply in_map_iff in He as (o & <- & Ho). apply list_elem_of_In in Ho.
    destruct (HO o Ho) as (Hos & _ & _). unfold enrich in *.
    destruct (TabItem.openState o) as [os|] eqn:Eos; [|congruence].
    destruct (m !! OpenTabState.url os) as [si|] eqn:Em; [|congruence].
    by exists o, os, si. }
  assert (Hurl : ∀ o os, o ∈ O → TabItem.openState o = Some os →
            OpenTabState.url os ∈ map TabItem.url O).
  { intros o os Ho Hos. apply list_elem_of_In, in_map_iff. exists o.
    split; [|by apply list_elem_of_In].
    destruct (HO o Ho) as (_ & _ & Hopen).
    unfold TabItem.url. by rewrite Hopen, Hos. }
  assert (Eopen : map resetOpenItem (List.filter TabItem.open merged) = O).
  { unfold merged. rewrite List.filter_app. fold m. fold C.
    rewrite (filter_none _ C), app_nil_r.
    2:{ apply Forall_forall. intros c Hc. by apply HSshape, HC. }
    rewrite filter_all.
    2:{ apply Forall_forall. intros e He.
        apply list_elem_of_In, in_map_iff in He as (o & <- & Ho).
        rewrite (proj1 (enrich_open m o)). by apply HO, list_elem_of_In. }
    rewrite map_map. apply map_id_on, Forall_forall. intros o Ho.
    destruct (HO o Ho) as (Hs & Hss & _). unfold enrich, resetOpenItem.
    destruct o as [sv ss op os]; simpl in Hs, Hss. rewrite Hs, Hss. simpl.
    by repeat case_match. }
  assert (Esaved : map resetSavedItem (List.filter TabItem.saved merged) = P ++ C).
  { unfold merged. rewrite List.filter_app, map_app. fold m. fold C. fold P.
    f_equal. rewrite filter_all.
    2:{ apply Forall_forall. intros c Hc. by apply HSshape, HC. }
    apply map_id_on, Forall_forall. intros c Hc.
    destruct (HSshape c (proj1 (HC c Hc))) as (_ & Ho & Hos).
    destruct c as [sv ss op os]; simpl in Ho, Hos. by rewrite Ho, Hos. }
  rewrite Eopen, Esaved. rewrite merge_unfold.
  2:{ apply Forall_app. split; apply Forall_forall.
      - intros p Hp. destruct (HP p Hp) as (o & os & si & _ & _ & Hm & ->).
        apply savedUrlMapOf_Some in Hm as [Hsi _].
        split; [done|]. simpl. by apply HS.
      - intros c Hc. by apply HS, HC. }
  f_equal. unfold merged. fold m. fold C. f_equal.
  - apply map_ext_in. intros o Ho. apply list_elem_of_In in Ho.
    unfold enrich. destruct (TabItem.openState o) as [os|] eqn:Eos; [|done].
    set (u := OpenTabState.url os).
    destruct (savedUrlMapOf (P ++ C) !! u) as [s'|] eqn:E'.
    + apply savedUrlMapOf_Some in E' as [Hs' Hu'].
      apply elem_of_app in Hs' as [Hs'|Hs'].
      * destruct (HP s' Hs') as (o' & os' & si' & _ & _ & Hm' & ->).
        pose proof (savedUrlMapOf_Some _ _ _ Hm') as [_ Hk].
        unfold savedUrl in Hu', Hk. simpl in Hu'. rewrite Hu' in Hk.
        rewrite <- Hk in Hm'. fold u. by rewrite Hm'.
      * exfalso. apply (proj2 (HC s' Hs')). rewrite Hu'. by apply (Hurl o os).
    + apply savedUrlMapOf_None in E'.
      destruct (m !! u) as [si|] eqn:Em; [|done].
      exfalso. apply E'. apply list_elem_of_In, in_map_iff.
      exists (TabItem.mk true (TabItem.savedState si) false None). split.
      * by apply savedUrlMapOf_Some in Em as [_ ?].
      * apply in_or_app. left. apply in_map_iff.
        exists (enrich m o). unfold enrich. rewrite Eos. fold u. rewrite Em.
        split; [done|]. apply filter_In. split; [|done].
        apply in_map_iff. exists o. unfold enrich. rewrite Eos. fold u.
        rewrite Em. split; [done|by apply list_elem_of_In].
  - rewrite List.filter_app, (filter_none _ P).
    + simpl. apply filter_all, Forall_forall. intros c Hc.
      by apply isClosedOf_true, HC.
    + apply Forall_forall. intros p Hp.
      destruct (HP p Hp) as (o & os & si & Ho & Hos & Hm & ->).
      apply bool_decide_eq_false. intros Hn. apply Hn.
      apply savedUrlMapOf_Some in Hm as [_ Hk]. unfold savedUrl in *. simpl.
      rewrite Hk. by apply (Hurl o os).
Qed.

(** Re-merging is idempotent: a window that [mergeTabWindowTabItems]
    returned, with no new tab and no new bookmark, is returned unchanged
    when it is re-merged. *)
Theorem mergeTabWindowTabItems_idempotent w w1 :
  mergeTabWindowTabItems w None None = Ok w1 →
  mergeTabWindowTabItems w1 None None = Ok w1.
Proof.
  unfold mergeTabWindowTabItems at 1.
  set (S := map resetSavedItem (List.filter TabItem.saved (TabWindow.tabItems w))).
  set (O := map resetOpenItem (List.filter TabItem.open (TabWindow.tabItems w))).
  destruct (mergeSavedOpenTabs S O) as [merged|] eqn:E; simpl; [|done].
  intros [= <-].
  pose proof (merge_Ok_saved _ _ _ E) as HS.
  rewrite merge_unfold in E by done. injection E as <-.
  unfold mergeTabWindowTabItems.
  cbn [TabWindow.setTabItems TabWindow.set_tabItems TabWindow.tabItems].
  rewrite (remerge_stable S O HS (baseSaved_shape _) (baseOpen_shape _)).
  reflexivity.
Qed.

Lemma mergeTabWindowTabItems_idempotent_witness :
  ∃ w1, mergeTabWindowTabItems winUnmerged None None = Ok w1
        ∧ TabWindow.tabItems w1 = [mergedItem savedB openB; openC; savedA]
        ∧ mergeTabWindowTabItems w1 None None = Ok w1.
Proof.
  eexists. split; [reflexivity|]. split; [reflexivity|].
  apply (mergeTabWindowTabItems_idempotent winUnmerged). reflexivity.
Defined.
End Remerge.

(** * Tab lifecycle: counts, idempotence and round trips *)

Section Lifecycle.
Implicit Types (w : TabWindow.t) (ti : TabItem.t) (items : list TabItem.t).

Lemma map_insert {A B} (f : A → B) (l : list A) (i : nat) (x : A) :
  map f (<[i := x]> l) = <[i := f x]> (map f l).
Proof.
  revert i. induction l as [|y l IH]; intros [|i]; simpl; try done.
  by rewrite IH.
Qed.

Lemma filter_length_insert {A} (p : A → bool) (l : list A) (i : nat) (x y : A) :
  l !! i = Some x →
  (length (List.filter p (<[i := y]> l)) + (if p x then 1 else 0)
   = length (List.filter p l) + (if p y then 1 else 0))%nat.
Proof.
  revert i. induction l as [|z l IH]; intros [|i] H; simpl in *; try done.
  - injection H as ->. destruct (p x), (p y); simpl; lia.
  - specialize (IH i H). destruct (p z); simpl; lia.
Qed.

Lemma filter_length_remove {A} (p : A → bool) (l : list A) (i : nat) (x : A) :
  l !! i = Some x →
  (length (List.filter p (take i l ++ drop (Datatypes.S i) l))
   + (if p x then 1 else 0)
   = length (List.filter p l))%nat.
Proof.
  revert i. induction l as [|z l IH]; intros [|i] H; simpl in *; try done.
  - injection H as ->. rewrite drop_0. destruct (p x); simpl; lia.
  - specialize (IH i H). destruct (p z); simpl; lia.
Qed.

(** Closing a tab that is found takes exactly one open tab away: a saved
    item stays at its index, closed; an unsaved item leaves the list. *)
Theorem closeTab_closes_one w tabId (index : nat) ti :
  TabWindow.findChromeTabId tabId w = Some (index, ti) →
  Datatypes.S (TabWindow.openTabCount (closeTab w tabId)) = TabWindow.openTabCount w
  ∧ (if TabItem.saved ti
     then length (TabWindow.tabItems (closeTab w tabId))
          = length (TabWindow.tabItems w)
          ∧ TabWindow.tabItems (closeTab w tabId) !! index
            = Some (resetSavedItem ti)
     else Datatypes.S (length (TabWindow.tabItems (closeTab w tabId)))
          = length (TabWindow.tabItems w)).
Proof.
  intros Hfind. pose proof (closeTab_found _ _ _ _ Hfind) as Hitems.
  destruct (findChromeTabId_Some _ _ _ _ Hfind) as (Hl & Ho & _).
  pose proof (lookup_lt_Some _ _ _ Hl) as Hlt.
  unfold TabWindow.openTabCount. rewrite Hitems.
  destruct (TabItem.saved ti).
  - pose proof (filter_length_insert TabItem.open _ _ _ (resetSavedItem ti) Hl) as H.
    rewrite Ho in H. simpl in H.
    split; [lia|]. split; [apply length_insert|by apply list_lookup_insert_eq].
  - pose proof (filter_length_remove TabItem.open _ _ _ Hl) as H.
    rewrite Ho in H. split; [lia|].
    rewrite length_app, length_take, length_drop. lia.
Qed.

Lemma closeTab_closes_one_witness :
  TabWindow.findChromeTabId 11 winOpen = Some (1%nat, openC)
  ∧ TabWindow.openTabCount winOpen = 2%nat
  ∧ TabWindow.openTabCount (closeTab winOpen 11) = 1%nat.
Proof.
  split; [reflexivity|]. split; [reflexivity|].
  destruct (closeTab_closes_one winOpen 11 1 openC eq_refl) as [H _].
  apply eq_add_S. rewrite H. reflexivity.
Defined.

(** What [setActiveTab] returns for a tab that is found in a window whose
    open items carry their open state. *)
Lemma setActiveTab_Ok w tabId (index : nat) ti os :
  openItemsHaveState (TabWindow.tabItems w) →
  TabWindow.findChromeTabId tabId w = Some (index, ti) →
  TabItem.openState ti = Some os →
  setActiveTab w tabId
  = Ok (TabWindow.setTabItems
          (<[index := TabItem.set_openState
                        (Some (OpenTabState.set_active true os)) ti]>
             (map clearActive (TabWindow.tabItems w))) w).
Proof.
  intros Hwf Hfind Hos.
  destruct (findChromeTabId_Some _ _ _ _ Hfind) as (Hl & Ho & _).
  pose proof (lookup_lt_Some _ _ _ Hl) as Hlt.
  unfold setActiveTab. rewrite Hfind. simpl.
  rewrite tabItemRemoveActive_Ok by done. simpl.
  unfold TabItem.safeOpenState. rewrite Ho, Hos. simpl.
  rewrite splice_replace; [done|by rewrite length_map].
Qed.

(** A [setActiveTab] that returns was given open items with their state,
    or found nothing. *)
Lemma setActiveTab_Ok_inv w tabId w1 :
  setActiveTab w tabId = Ok w1 →
  TabWindow.findChromeTabId tabId w = None
  ∨ openItemsHaveState (TabWindow.tabItems w).
Proof.
  unfold setActiveTab.
  destruct (TabWindow.findChromeTabId tabId w) as [[index ti]|]; [|by left].
  simpl. intros H. right.
  destruct (mapR tabItemRemoveActive (TabWindow.tabItems w)) eqn:E; [|done].
  apply mapR_Ok_inv in E. eapply Forall_impl; [exact E|].
  intros x Hx Hopen. simpl in Hx.
  unfold tabItemRemoveActive, TabItem.safeOpenState in Hx. rewrite Hopen in Hx.
  destruct (TabItem.openState x); [by eexists|done].
Qed.

Lemma findEntryFrom_insert {A} (p : A → bool) (f : A → A) (l : list A)
    (k i : nat) (x y : A) :
  (∀ z, p (f z) = p z) → p y = true →
  findEntryFrom p k l = Some ((k + i)%nat, x) →
  findEntryFrom p k (<[i := y]> (map f l)) = Some ((k + i)%nat, y).
Proof.
  intros Hf Hy. revert k i.
  induction l as [|z l IH]; intros k i; [done|].
  cbn [findEntryFrom map]. destruct (p z) eqn:Ez.
  - intros [= Hk <-]. assert (i = 0%nat) as -> by lia.
    simpl. rewrite Hy. by rewrite Nat.add_0_r.
  - intros H. destruct i as [|i].
    + apply findEntryFrom_Some in H as (j & Hj & _). lia.
    + simpl. rewrite Hf, Ez.
      replace (k + Datatypes.S i)%nat with (Datatypes.S k + i)%nat in * by lia.
      by apply IH.
Qed.

Lemma clearActive_idem ti : clearActive (clearActive ti) = clearActive ti.
Proof.
  unfold clearActive. destruct (TabItem.open ti) eqn:E; simpl; rewrite E; [|done].
  by destruct (TabItem.openState ti).
Qed.

Lemma openItemsHaveState_active items (index : nat) ti os :
  openItemsHaveState items →
  openItemsHaveState
    (<[index := TabItem.set_openState (Some os) ti]> (map clearActive items)).
Proof.
  intros H. apply Forall_insert; [|intros _; by eexists].
  apply Forall_forall. intros x Hx.
  apply list_elem_of_In, in_map_iff in Hx as (y & <- & Hy).
  unfold openItemsHaveState in H. rewrite Forall_forall in H.
  specialize (H y (proj2 (list_elem_of_In _ _) Hy)).
  unfold clearActive. destruct (TabItem.open y) eqn:E; simpl; [|by rewrite E].
  intros _. destruct (H eq_refl) as [ys ->]. by eexists.
Qed.

(** [setActiveTab] is idempotent: the window it returns is returned
    unchanged when the same tab is activated again. *)
Theorem setActiveTab_idempotent w tabId w1 :
  setActiveTab w tabId = Ok w1 → setActiveTab w1 tabId = Ok w1.
Proof.
  intros H. destruct (setActiveTab_Ok_inv _ _ _ H) as [Hnone|Hwf].
  { rewrite (setActiveTab_miss _ _ Hnone) in H. injection H as <-.
    by apply setActiveTab_miss. }
  destruct (TabWindow.findChromeTabId tabId w) as [[index ti]|] eqn:Hfind.
  2:{ rewrite (setActiveTab_miss _ _ Hfind) in H. injection H as <-.
      by apply setActiveTab_miss. }
  destruct (findChromeTabId_Some _ _ _ _ Hfind) as (Hl & Ho & os & Hos & Hid).
  pose proof (lookup_lt_Some _ _ _ Hl) as Hlt.
  rewrite (setActiveTab_Ok _ _ _ _ _ Hwf Hfind Hos) in H. injection H as <-.
  set (upd := TabItem.set_openState (Some (OpenTabState.set_active true os)) ti).
  set (items1 := <[index := upd]> (map clearActive (TabWindow.tabItems w))).
  assert (Hfind1 : TabWindow.findChromeTabId tabId
                     (TabWindow.setTabItems items1 w) = Some (index, upd)).
  { unfold TabWindow.findChromeTabId, findEntry in *.
    cbn [TabWindow.setTabItems TabWindow.set_tabItems TabWindow.tabItems].
    apply (findEntryFrom_insert _ clearActive _ 0 index ti upd); [| |done].
    - intros z. unfold clearActive.
      destruct (TabItem.open z) eqn:E; simpl; rewrite ?E; [|done].
      by destruct (TabItem.openState z).
    - unfold upd. simpl. rewrite Ho. simpl. by apply bool_decide_eq_true. }
  assert (Hwf1 : openItemsHaveState
                   (TabWindow.tabItems (TabWindow.setTabItems items1 w)))
    by by apply openItemsHaveState_active.
  rewrite (setActiveTab_Ok _ _ index upd (OpenTabState.set_active true os)
             Hwf1 Hfind1 eq_refl).
  unfold TabWindow.setTabItems, TabWindow.set_tabItems. simpl.
  do 2 f_equal. unfold items1.
  rewrite map_insert, map_map, list_insert_insert_eq.
  f_equal. apply map_ext. intros z. apply clearActive_idem.
Qed.

Lemma setActiveTab_idempotent_witness :
  ∃ w1, setActiveTab winOpen 11 = Ok w1
        ∧ List.filter isActiveOpen (TabWindow.tabItems w1)
          = [TabItem.set_openState
               (Some (OpenTabState.set_active true (makeOpenTabState tabC))) openC]
        ∧ setActiveTab w1 11 = Ok w1.
Proof.
  eexists. split; [reflexivity|]. split; [reflexivity|].
  apply (setActiveTab_idempotent winOpen). reflexivity.
Defined.
End Lifecycle.

(** * The active tab and the title *)

Section ActiveTab.
Implicit Types (w : TabWindow.t) (ti : TabItem.t) (items : list TabItem.t).

Lemma findEntryFromR_pure {A} (predR : A → result bool) (p : A → bool)
    (l : list A) (i : nat) :
  Forall (λ x, predR x = Ok (p x)) l →
  findEntryFromR predR i l = Ok (findEntryFrom p i l).
Proof.
  intros H. revert i. induction H as [|x l Hx _ IH]; intros i; simpl; [done|].
  rewrite Hx. simpl. destruct (p x); [done|apply IH].
Qed.

Lemma isActiveTab_pure items :
  openItemsHaveState items →
  Forall (λ x, isActiveTab x = Ok (isActiveOpen x)) items.
Proof.
  intros H. eapply Forall_impl; [exact H|]. intros x Hx. simpl in Hx.
  unfold isActiveTab, isActiveOpen. destruct (TabItem.open x); [|done].
  by destruct (Hx eq_refl) as [os ->].
Qed.

Lemma findEntryFrom_middle {A} (p : A → bool) (l1 l2 : list A) (x : A) (k : nat) :
  Forall (λ y, p y = false) l1 → p x = true →
  findEntryFrom p k (l1 ++ x :: l2) = Some ((k + length l1)%nat, x).
Proof.
  intros H Hx. revert k. induction H as [|y l1 Hy _ IH]; intros k; simpl.
  - rewrite Hx. by rewrite Nat.add_0_r.
  - rewrite Hy, IH. do 2 f_equal. lia.
Qed.

(** The first active open item of the list [setActiveTab] builds is the
    activated one. *)
Lemma find_active_after_set items (index : nat) ti os :
  (index < length items)%nat → TabItem.open ti = true →
  findEntry isActiveOpen
    (<[index := TabItem.set_openState (Some (OpenTabState.set_active true os)) ti]>
       (map clearActive items))
  = Some (index,
          TabItem.set_openState (Some (OpenTabState.set_active true os)) ti).
Proof.
  intros Hlt Ho. rewrite insert_take_drop by by rewrite length_map.
  unfold findEntry. rewrite findEntryFrom_middle.
  - rewrite length_take, length_map. do 2 f_equal. lia.
  - apply Forall_forall. intros x Hx.
    apply (clearActive_inactive items). by eapply subseteq_take.
  - unfold isActiveOpen. simpl. by rewrite Ho.
Qed.

(** After [setActiveTab] on a tab that is found, [getActiveTabId] returns
    that tab's id, and the title of a window that is not saved is the
    title of that tab. *)
Theorem setActiveTab_then_active_tab w tabId (index : nat) ti os :
  openItemsHaveState (TabWindow.tabItems w) →
  TabWindow.findChromeTabId tabId w = Some (index, ti) →
  TabItem.openState ti = Some os →
  ∃ w1, setActiveTab w tabId = Ok w1
        ∧ getActiveTabId w1 = Ok (Some tabId)
        ∧ (TabWindow.saved w = false →
           computeTitle w1 = Ok (OpenTabState.title os)).
Proof.
  intros Hwf Hfind Hos.
  destruct (findChromeTabId_Some _ _ _ _ Hfind) as (Hl & Ho & os' & Hos' & Hid).
  rewrite Hos in Hos'. injection Hos' as <-.
  pose proof (lookup_lt_Some _ _ _ Hl) as Hlt.
  eexists. split; [by apply (setActiveTab_Ok _ _ _ _ _ Hwf Hfind Hos)|].
  assert (Hfind1 : ∀ items1,
            items1 = <[index := TabItem.set_openState
                                  (Some (OpenTabState.set_active true os)) ti]>
                       (map clearActive (TabWindow.tabItems w)) →
            findR isActiveTab items1
            = Ok (Some (TabItem.set_openState
                          (Some (OpenTabState.set_active true os)) ti))).
  { intros items1 ->. unfold findR, findEntryR.
    rewrite (findEntryFromR_pure _ isActiveOpen).
    2:{ by apply isActiveTab_pure, openItemsHaveState_active. }
    fold (findEntry isActiveOpen
            (<[index := TabItem.set_openState
                          (Some (OpenTabState.set_active true os)) ti]>
               (map clearActive (TabWindow.tabItems w)))).
    by rewrite find_active_after_set. }
  split.
  - unfold getActiveTabId.
    cbn [TabWindow.setTabItems TabWindow.set_tabItems TabWindow.tabItems].
    rewrite (Hfind1 _ eq_refl). simpl. by rewrite Hid.
  - intros Hunsaved. unfold computeTitle.
    cbn [TabWindow.setTabItems TabWindow.set_tabItems TabWindow.tabItems
         TabWindow.saved].
    rewrite Hunsaved, (Hfind1 _ eq_refl). simpl.
    unfold TabItem.title. simpl. by rewrite Ho.
Qed.

Lemma setActiveTab_then_active_tab_witness :
  openItemsHaveState (TabWindow.tabItems winLive)
  ∧ TabWindow.findChromeTabId 11 winLive = Some (1%nat, openC)
  ∧ TabWindow.saved winLive = false
  ∧ ∃ w1, setActiveTab winLive 11 = Ok w1
          ∧ getActiveTabId w1 = Ok (Some 11)
          ∧ computeTitle w1 = Ok "C"%string.
Proof.
  assert (Hwf : openItemsHaveState (TabWindow.tabItems winLive))
    by items_ok.
  split; [exact Hwf|]. split; [reflexivity|]. split; [reflexivity|].
  destruct (setActiveTab_then_active_tab winLive 11 1 openC (makeOpenTabState tabC)
              Hwf eq_refl eq_refl) as (w1 & H1 & H2 & H3).
  exists w1. split; [exact H1|]. split; [exact H2|]. exact (H3 eq_refl).
Defined.

(** The title of a saved window is its saved title, whatever its items
    are; the title of an unsaved window without open item is empty. *)
Theorem computeTitle_edges w :
  (TabWindow.saved w = true → computeTitle w = Ok (TabWindow.savedTitle w))
  ∧ (TabWindow.saved w = false →
     Forall (λ x, TabItem.open x = false) (TabWindow.tabItems w) →
     computeTitle w = Ok ""%string).
Proof.
  split; intros Hs; unfold computeTitle; rewrite Hs; [done|].
  intros Hclosed. unfold findR, findEntryR.
  rewrite (findEntryFromR_pure _ (λ _, false)).
  2:{ eapply Forall_impl; [exact Hclosed|]. intros x Hx. simpl in Hx.
      unfold isActiveTab. by rewrite Hx. }
  assert (H1 : ∀ k, findEntryFrom (λ _ : TabItem.t, false) k (TabWindow.tabItems w)
                    = None).
  { intros k. apply findEntryFrom_None. by apply Forall_true. }
  rewrite H1. simpl.
  by rewrite (proj2 (findEntry_None TabItem.open (TabWindow.tabItems w)) Hclosed).
Qed.

Lemma computeTitle_edges_witness :
  TabWindow.saved winOpen = true
  ∧ computeTitle winOpen = Ok "Work"%string
  ∧ computeTitle (removeSavedWindowState winClosed) = Ok ""%string.
Proof.
  split; [reflexivity|]. split.
  - exact (proj1 (computeTitle_edges winOpen) eq_refl).
  - apply (proj2 (computeTitle_edges (removeSavedWindowState winClosed)));
      [reflexivity|]. repeat constructor.
Defined.
End ActiveTab.

(** * Closing, reopening and growing a window *)

Section WindowOps.
Implicit Types (w : TabWindow.t) (ti : TabItem.t) (items : list TabItem.t).

Lemma cleanOpenState_Ok_inv items (l : list TabItem.t) :
  mapR cleanOpenState items = Ok l → openItemsHaveState items.
Proof.
  intros H. apply mapR_Ok_inv in H. eapply Forall_impl; [exact H|].
  intros x Hx Hopen. simpl in Hx. unfold cleanOpenState in Hx.
  rewrite Hopen in Hx. simpl in Hx.
  destruct (TabItem.openState x); [by eexists|done].
Qed.

Lemma stripOpenTabId_idem ti : stripOpenTabId (stripOpenTabId ti) = stripOpenTabId ti.
Proof.
  unfold stripOpenTabId. destruct (TabItem.open ti) eqn:E; simpl; rewrite E; [|done].
  by destruct (TabItem.openState ti).
Qed.

Lemma openItemsHaveState_strip items :
  openItemsHaveState items → openItemsHaveState (map stripOpenTabId items).
Proof.
  intros H. apply Forall_forall. intros x Hx.
  apply list_elem_of_In, in_map_iff in Hx as (y & <- & Hy).
  unfold openItemsHaveState in H. rewrite Forall_forall in H.
  specialize (H y (proj2 (list_elem_of_In _ _) Hy)).
  unfold stripOpenTabId. destruct (TabItem.open y) eqn:E; simpl; [|by rewrite E].
  intros _. destruct (H eq_refl) as [ys ->]. by eexists.
Qed.

Lemma removeOpenWindowState_revert_Ok w :
  removeOpenWindowState w false
  = Ok (TabWindow.mk (TabWindow.saved w) (TabWindow.savedTitle w)
          (TabWindow.savedFolderId w) false (-1) "" 0 0
          (map resetSavedItem (List.filter TabItem.saved (TabWindow.tabItems w)))
          true (TabWindow.chromeSessionId w) (TabWindow.expanded w)).
Proof. reflexivity. Qed.

(** Closing is idempotent in both variants: a window that
    [removeOpenWindowState] returned is returned unchanged when it is
    closed again the same way. *)
Theorem removeOpenWindowState_idempotent w (snapshot : bool) w1 :
  removeOpenWindowState w snapshot = Ok w1 →
  removeOpenWindowState w1 snapshot = Ok w1.
Proof.
  destruct snapshot.
  - intros H.
    assert (Hwf : openItemsHaveState (TabWindow.tabItems w)).
    { unfold removeOpenWindowState in H. simpl in H.
      destruct (mapR cleanOpenState (TabWindow.tabItems w)) eqn:E; [|done].
      by eapply cleanOpenState_Ok_inv. }
    rewrite removeOpenWindowState_snapshot in H by done. injection H as <-.
    rewrite removeOpenWindowState_snapshot by by apply openItemsHaveState_strip.
    simpl. do 2 f_equal. rewrite map_map. apply map_ext, stripOpenTabId_idem.
  - rewrite removeOpenWindowState_revert_Ok. intros [= <-].
    rewrite removeOpenWindowState_revert_Ok.
    cbn [TabWindow.saved TabWindow.savedTitle TabWindow.savedFolderId
         TabWindow.tabItems TabWindow.chromeSessionId TabWindow.expanded].
    do 2 f_equal. rewrite filter_all.
    + rewrite map_map. apply map_ext. by intros [].
    + apply Forall_forall. intros x Hx.
      apply list_elem_of_In, in_map_iff in Hx as (y & <- & Hy).
      by apply filter_In in Hy as [_ ?].
Qed.

Lemma removeOpenWindowState_idempotent_witness :
  ∃ w1, removeOpenWindowState winOpen true = Ok w1
        ∧ TabWindow.open w1 = false
        ∧ removeOpenWindowState w1 true = Ok w1.
Proof.
  eexists. split; [reflexivity|]. split; [reflexivity|].
  apply (removeOpenWindowState_idempotent winOpen true). reflexivity.
Defined.

(** A snapshot keeps every item and every open flag but forgets the tab
    ids: afterwards no id other than the default [-1] is found. *)
Theorem removeOpenWindowState_forgets_tab_ids w w1 tabId :
  removeOpenWindowState w true = Ok w1 →
  tabId ≠ -1 →
  TabWindow.findChromeTabId tabId w1 = None
  ∧ TabWindow.openTabCount w1 = TabWindow.openTabCount w
  ∧ length (TabWindow.tabItems w1) = length (TabWindow.tabItems w).
Proof.
  intros H Hid.
  assert (Hwf : openItemsHaveState (TabWindow.tabItems w)).
  { unfold removeOpenWindowState in H. simpl in H.
    destruct (mapR cleanOpenState (TabWindow.tabItems w)) eqn:E; [|done].
    by eapply cleanOpenState_Ok_inv. }
  rewrite removeOpenWindowState_snapshot in H by done. injection H as <-.
  unfold TabWindow.openTabCount. simpl. split; [|split].
  - apply findChromeTabId_None. simpl. intros x os Hx Ho Hos.
    apply list_elem_of_In, in_map_iff in Hx as (y & <- & _).
    unfold stripOpenTabId in *.
    destruct (TabItem.open y) eqn:E; simpl in Ho, Hos; [|congruence].
    destruct (TabItem.openState y); [|done].
    injection Hos as <-. simpl. congruence.
  - rewrite filter_map_swap, length_map. f_equal. apply filter_ext.
    intros x. apply stripOpenTabId_fields.
  - apply length_map.
Qed.

Lemma removeOpenWindowState_forgets_tab_ids_witness :
  TabWindow.findChromeTabId 10 winOpen = Some (0%nat, mergedItem savedB openB)
  ∧ ∃ w1, removeOpenWindowState winOpen true = Ok w1
          ∧ TabWindow.findChromeTabId 10 w1 = None
          ∧ TabWindow.openTabCount w1 = 2%nat.
Proof.
  split; [reflexivity|]. eexists. split; [reflexivity|].
  destruct (removeOpenWindowState_forgets_tab_ids winOpen _ 10 eq_refl)
    as (H1 & H2 & _); [discriminate|].
  split; [exact H1|]. rewrite H2. reflexivity.
Defined.

(** A revert leaves no open tab: every item of the result is saved and
    closed, the open count is zero and no tab id is found. *)
Theorem removeOpenWindowState_revert_no_open_tab w tabId :
  ∃ w1, removeOpenWindowState w false = Ok w1
        ∧ Forall (λ x, TabItem.saved x = true ∧ TabItem.open x = false
                       ∧ TabItem.openState x = None) (TabWindow.tabItems w1)
        ∧ TabWindow.openTabCount w1 = 0%nat
        ∧ TabWindow.findChromeTabId tabId w1 = None
        ∧ map TabItem.savedState (TabWindow.tabItems w1)
          = map TabItem.savedState (List.filter TabItem.saved (TabWindow.tabItems w)).
Proof.
  eexists. split; [apply removeOpenWindowState_revert_Ok|].
  cbn [TabWindow.tabItems].
  assert (Hshape := baseSaved_shape (TabWindow.tabItems w)).
  split; [exact Hshape|]. split; [|split].
  - unfold TabWindow.openTabCount. simpl. rewrite filter_none; [done|].
    eapply Forall_impl; [exact Hshape|]. by intros x (_ & ? & _).
  - apply findChromeTabId_None. simpl. intros x os Hx Ho.
    rewrite Forall_forall in Hshape. destruct (Hshape x Hx) as (_ & ? & _).
    congruence.
  - rewrite map_map. by apply map_ext.
Qed.

Lemma findEntry_is_Some {A} (p : A → bool) (l : list A) (x : A) :
  x ∈ l → p x = true → is_Some (findEntry p l).
Proof.
  intros Hx Hp. destruct (findEntry p l) eqn:E; [by eexists|].
  apply findEntry_None in E. rewrite Forall_forall in E.
  specialize (E x Hx). simpl in E. congruence.
Qed.

Lemma filter_open_enriched (m : gmap string TabItem.t) (O C : list TabItem.t) :
  Forall (λ o, TabItem.open o = true) O →
  Forall (λ s, TabItem.open s = false) C →
  List.filter TabItem.open (map (enrich m) O ++ C) = map (enrich m) O.
Proof.
  intros HO HC. rewrite List.filter_app, (filter_none _ C), app_nil_r by done.
  apply filter_all, Forall_forall. intros e He.
  apply list_elem_of_In, in_map_iff in He as (o & <- & Ho).
  rewrite (proj1 (enrich_open m o)).
  rewrite Forall_forall in HO. by apply HO, list_elem_of_In.
Qed.

Lemma closedPart_closed (O S : list TabItem.t) :
  Forall (λ s, TabItem.open s = false) S →
  Forall (λ s, TabItem.open s = false) (List.filter (isClosedOf O) S).
Proof.
  intros H. apply Forall_forall. intros x Hx.
  apply list_elem_of_In, filter_In in Hx as [Hx _].
  rewrite Forall_forall in H. by apply H, list_elem_of_In.
Qed.

(** [updateWindow] on a live window that has a [tabs] list: the window is
    open, its snapshot mark and session id are cleared, its open items
    are the live tabs in their order, and every live tab is found by its
    id. Without a [tabs] list the update throws. *)
Theorem updateWindow_open_items w (chromeWindow : ChromeWindow.t) :
  (∀ tabs,
     savedItemsHaveState (TabWindow.tabItems w) →
     ChromeWindow.tabs chromeWindow = Some tabs →
     ∃ w', updateWindow w chromeWindow = Ok w'
           ∧ TabWindow.open w' = true
           ∧ TabWindow.snapshot w' = false
           ∧ TabWindow.chromeSessionId w' = None
           ∧ TabWindow.openWindowId w' = ChromeWindow.id chromeWindow
           ∧ TabWindow.openTabCount w' = length tabs
           ∧ map TabItem.openState
               (List.filter TabItem.open (TabWindow.tabItems w'))
             = map (λ tab, Some (makeOpenTabState tab)) tabs
           ∧ ∀ tab, tab ∈ tabs →
               is_Some (TabWindow.findChromeTabId (ChromeTab.id tab) w'))
  ∧ (ChromeWindow.tabs chromeWindow = None →
     ∃ msg, updateWindow w chromeWindow = Throw msg).
Proof.
  split.
  - intros tabs Hsaved Htabs.
    set (S := map resetSavedItem (List.filter TabItem.saved (TabWindow.tabItems w))).
    set (O := map makeOpenTabItem tabs).
    assert (Hm : mergeOpenTabs (TabWindow.tabItems w) (ChromeWindow.tabs chromeWindow)
                 = Ok (map (enrich (savedUrlMapOf S)) O
                       ++ List.filter (isClosedOf O) S)).
    { rewrite Htabs. unfold mergeOpenTabs. apply merge_unfold.
      by apply baseSavedItems_saved. }
    assert (Hfilter : List.filter TabItem.open
                        (map (enrich (savedUrlMapOf S)) O
                         ++ List.filter (isClosedOf O) S)
                      = map (enrich (savedUrlMapOf S)) O).
    { apply filter_open_enriched.
      - apply Forall_forall. intros x Hx.
        by apply list_elem_of_In, in_map_iff in Hx as (? & <- & _).
      - apply closedPart_closed, baseSavedItems_closed. }
    eexists. split; [by apply updateWindow_Ok|].
    unfold TabWindow.openTabCount.
    cbn [TabWindow.open TabWindow.snapshot TabWindow.chromeSessionId
         TabWindow.openWindowId TabWindow.tabItems].
    rewrite Hfilter. repeat split.
    + unfold O. by rewrite !length_map.
    + unfold O. rewrite !map_map. apply map_ext. intros tab.
      apply enrich_open.
    + intros tab Htab. unfold TabWindow.findChromeTabId.
      cbn [TabWindow.tabItems].
      apply (findEntry_is_Some _ _ (enrich (savedUrlMapOf S) (makeOpenTabItem tab))).
      * apply elem_of_app. left. apply list_elem_of_In, in_map, in_map.
        by apply list_elem_of_In.
      * destruct (enrich_open (savedUrlMapOf S) (makeOpenTabItem tab)) as [-> ->].
        simpl. by apply bool_decide_eq_true.
  - intros Hnone. unfold updateWindow, mergeOpenTabs. rewrite Hnone. by eexists.
Qed.

Lemma updateWindow_open_items_witness :
  savedItemsHaveState (TabWindow.tabItems winClosed)
  ∧ ChromeWindow.tabs liveWindow = Some [tabB; tabC]
  ∧ ∃ w', updateWindow winClosed liveWindow = Ok w'
          ∧ TabWindow.open w' = true
          ∧ TabWindow.openTabCount w' = 2%nat.
Proof.
  assert (Hs : savedItemsHaveState (TabWindow.tabItems winClosed))
    by items_ok.
  split; [exact Hs|]. split; [reflexivity|].
  destruct (proj1 (updateWindow_open_items winClosed liveWindow) [tabB; tabC]
              Hs eq_refl) as (w' & H1 & H2 & _ & _ & _ & H3 & _).
  exists w'. split; [exact H1|]. split; [exact H2|exact H3].
Defined.
End WindowOps.

(** * New tabs and new bookmarks *)

Section Creation.
Implicit Types (w : TabWindow.t) (ti : TabItem.t) (items : list TabItem.t).

Lemma resolveBegin_le (index : Z) (n : nat) : (resolveBegin index n ≤ n)%nat.
Proof. unfold resolveBegin. destruct (Z.ltb_spec index 0); lia. Qed.

Lemma splice_insert_length {A} (l : list A) (index : Z) (x : A) :
  length (splice l index 0 [x]) = Datatypes.S (length l).
Proof.
  unfold splice. pose proof (resolveBegin_le index (length l)).
  rewrite !length_app, length_take, length_drop. simpl. lia.
Qed.

Lemma splice_insert_lookup {A} (l : list A) (index : Z) (x : A) :
  splice l index 0 [x] !! resolveBegin index (length l) = Some x.
Proof.
  unfold splice. pose proof (resolveBegin_le index (length l)).
  rewrite lookup_app_r by (rewrite length_take; lia).
  rewrite length_take. by replace (_ - _)%nat with 0%nat by lia.
Qed.

Lemma baseOpen_open (items : list TabItem.t) :
  Forall (λ o, TabItem.open o = true)
         (map resetOpenItem (List.filter TabItem.open items)).
Proof.
  eapply Forall_impl; [apply baseOpen_shape|]. by intros o (_ & _ & ?).
Qed.

Lemma baseOpen_length (items : list TabItem.t) :
  length (map resetOpenItem (List.filter TabItem.open items))
  = length (List.filter TabItem.open items).
Proof. apply length_map. Qed.

(** [createTab] adds exactly one open tab, at the live index of the tab
    among the open items (clamped to their number), and the new tab is
    found by its id. *)
Theorem createTab_inserts_open_tab w (tab : ChromeTab.t) :
  savedItemsHaveState (TabWindow.tabItems w) →
  ∃ w' r,
    createTab w tab = Ok w'
    ∧ TabWindow.openTabCount w' = Datatypes.S (TabWindow.openTabCount w)
    ∧ List.filter TabItem.open (TabWindow.tabItems w')
        !! resolveBegin (ChromeTab.index tab) (TabWindow.openTabCount w) = Some r
    ∧ TabItem.openState r = Some (makeOpenTabState tab)
    ∧ is_Some (TabWindow.findChromeTabId (ChromeTab.id tab) w').
Proof.
  intros Hsaved.
  set (S := map resetSavedItem (List.filter TabItem.saved (TabWindow.tabItems w))).
  set (O := map resetOpenItem (List.filter TabItem.open (TabWindow.tabItems w))).
  set (O' := splice O (ChromeTab.index tab) 0 [makeOpenTabItem tab]).
  set (m := savedUrlMapOf S).
  assert (HO' : Forall (λ o, TabItem.open o = true) O').
  { unfold O', splice. apply Forall_app. split; [apply Forall_take, baseOpen_open|].
    apply Forall_app. split; [by repeat constructor|apply Forall_drop, baseOpen_open]. }
  assert (Hrun : createTab w tab
                 = Ok (TabWindow.setTabItems
                         (map (enrich m) O' ++ List.filter (isClosedOf O') S) w)).
  { unfold createTab, mergeTabWindowTabItems. fold S. fold O. fold O'.
    by rewrite merge_unfold by by apply baseSavedItems_saved. }
  assert (Hfilter : List.filter TabItem.open
                      (map (enrich m) O' ++ List.filter (isClosedOf O') S)
                    = map (enrich m) O').
  { apply filter_open_enriched; [done|].
    apply closedPart_closed, baseSavedItems_closed. }
  assert (Hlen : length O = TabWindow.openTabCount w) by apply baseOpen_length.
  exists (TabWindow.setTabItems
            (map (enrich m) O' ++ List.filter (isClosedOf O') S) w),
    (enrich m (makeOpenTabItem tab)).
  split; [exact Hrun|].
  unfold TabWindow.openTabCount at 1.
  cbn [TabWindow.setTabItems TabWindow.set_tabItems TabWindow.tabItems].
  rewrite Hfilter. split; [|split; [|split]].
  - rewrite length_map. unfold O'. by rewrite splice_insert_length, Hlen.
  - rewrite lookup_map, <- Hlen. unfold O'. by rewrite splice_insert_lookup.
  - apply enrich_open.
  - unfold TabWindow.findChromeTabId. cbn [TabWindow.tabItems].
    apply (findEntry_is_Some _ _ (enrich m (makeOpenTabItem tab))).
    + apply elem_of_app. left. apply list_elem_of_In, in_map.
      apply list_elem_of_In, (list_elem_of_lookup_2 _ _ _ (splice_insert_lookup _ _ _)).
    + destruct (enrich_open m (makeOpenTabItem tab)) as [-> ->].
      simpl. by apply bool_decide_eq_true.
Qed.

Lemma createTab_inserts_open_tab_witness :
  savedItemsHaveState (TabWindow.tabItems winOpen)
  ∧ ∃ w', createTab winOpen tabD = Ok w'
          ∧ TabWindow.openTabCount w' = 3%nat
          ∧ is_Some (TabWindow.findChromeTabId 13 w').
Proof.
  assert (Hs : savedItemsHaveState (TabWindow.tabItems winOpen))
    by items_ok.
  split; [exact Hs|].
  destruct (createTab_inserts_open_tab winOpen tabD Hs)
    as (w' & r & H1 & H2 & _ & _ & H3).
  exists w'. split; [exact H1|]. split; [exact H2|exact H3].
Defined.

Lemma createBookmark_attached w (bm : Bookmark.t) :
  openItemsHaveState (TabWindow.tabItems w) →
  savedItemsHaveState (TabWindow.tabItems w) →
  ∃ w' r,
    createBookmark w bm = Ok w'
    ∧ TabWindow.openTabCount w' = TabWindow.openTabCount w
    ∧ r ∈ TabWindow.tabItems w'
    ∧ TabItem.saved r = true
    ∧ TabItem.savedState r = Some (makeSavedTabState bm)
    ∧ (TabItem.open r = true
       ↔ SavedTabState.url (makeSavedTabState bm)
         ∈ map TabItem.url (List.filter TabItem.open (TabWindow.tabItems w))).
Proof.
  intros Hopen Hsaved.
  set (S := map resetSavedItem (List.filter TabItem.saved (TabWindow.tabItems w))).
  set (O := map resetOpenItem (List.filter TabItem.open (TabWindow.tabItems w))).
  set (new := makeBookmarkedTabItem bm).
  set (u := SavedTabState.url (makeSavedTabState bm)).
  set (m := savedUrlMapOf (S ++ [new])).
  assert (HS' : Forall isSavedItem (S ++ [new])).
  { apply Forall_app. split; [by apply baseSavedItems_saved|].
    repeat constructor. by eexists. }
  assert (HC' : Forall (λ s, TabItem.open s = false) (S ++ [new])).
  { apply Forall_app. split; [apply baseSavedItems_closed|by repeat constructor]. }
  assert (Hrun : createBookmark w bm
                 = Ok (TabWindow.setTabItems
                         (map (enrich m) O
                          ++ List.filter (isClosedOf O) (S ++ [new])) w)).
  { unfold createBookmark, mergeTabWindowTabItems. fold S. fold O. fold new.
    by rewrite merge_unfold. }
  assert (Hfilter : List.filter TabItem.open
                      (map (enrich m) O ++ List.filter (isClosedOf O) (S ++ [new]))
                    = map (enrich m) O).
  { apply filter_open_enriched; [apply baseOpen_open|by apply closedPart_closed]. }
  assert (Hm : m !! u = Some new).
  { unfold m, savedUrlMapOf. rewrite map_app. simpl.
    apply ImmutableMap_lookup_last. apply not_elem_of_nil. }
  assert (Hurls : map TabItem.url O
                  = map TabItem.url (List.filter TabItem.open (TabWindow.tabItems w))).
  { unfold O. rewrite map_map. apply map_ext_in. intros x Hx.
    apply filter_In in Hx as [Hx Hxo].
    unfold openItemsHaveState in Hopen. rewrite Forall_forall in Hopen.
    destruct (Hopen x (proj2 (list_elem_of_In _ _) Hx) Hxo) as [os Hos].
    unfold TabItem.url. simpl. by rewrite Hxo, Hos. }
  destruct (decide (u ∈ map TabItem.url O)) as [Hin|Hout].
  - apply list_elem_of_In, in_map_iff in Hin as (o & Hu & Ho).
    assert (Hoo : TabItem.open o = true).
    { pose proof (baseOpen_open (TabWindow.tabItems w)) as H.
      rewrite Forall_forall in H. by apply H, list_elem_of_In. }
    assert (∃ os, TabItem.openState o = Some os ∧ OpenTabState.url os = u)
      as (os & Hos & Huos).
    { apply in_map_iff in Ho as (x & <- & Hx). apply filter_In in Hx as [Hx Hxo].
      unfold openItemsHaveState in Hopen. rewrite Forall_forall in Hopen.
      destruct (Hopen x (proj2 (list_elem_of_In _ _) Hx) Hxo) as [os Hos].
      exists os. split; [done|]. rewrite <- Hu. unfold TabItem.url. simpl.
      by rewrite Hxo, Hos. }
    exists (TabWindow.setTabItems
              (map (enrich m) O ++ List.filter (isClosedOf O) (S ++ [new])) w),
      (enrich m o).
    split; [exact Hrun|]. unfold TabWindow.openTabCount.
    cbn [TabWindow.setTabItems TabWindow.set_tabItems TabWindow.tabItems].
    rewrite Hfilter, length_map, <- Hurls.
    split; [apply baseOpen_length|].
    split; [apply elem_of_app; left; by apply list_elem_of_In, in_map|].
    unfold enrich. rewrite Hos, Huos, Hm. simpl.
    split; [done|]. split; [done|]. split; [intros _|done].
    apply list_elem_of_In, in_map_iff. by exists o.
  - exists (TabWindow.setTabItems
              (map (enrich m) O ++ List.filter (isClosedOf O) (S ++ [new])) w),
      new.
    split; [exact Hrun|]. unfold TabWindow.openTabCount.
    cbn [TabWindow.setTabItems TabWindow.set_tabItems TabWindow.tabItems].
    rewrite Hfilter, length_map, <- Hurls.
    split; [apply baseOpen_length|]. split.
    + apply elem_of_app. right. apply list_elem_of_In, filter_In. split.
      * apply in_or_app. right. by left.
      * by apply isClosedOf_true.
    + split; [done|]. split; [done|]. split; [done|]. intros H. by destruct Hout.
Qed.

(** [createBookmark] never opens or closes a tab, and the saved state of
    the new bookmark is in the window afterwards, on an open item when an
    open tab shows its URL and on a closed item otherwise; the bookmark is
    then found by its id. *)
Theorem createBookmark_attaches_bookmark w (bm : Bookmark.t) :
  openItemsHaveState (TabWindow.tabItems w) →
  savedItemsHaveState (TabWindow.tabItems w) →
  ∃ w' r,
    createBookmark w bm = Ok w'
    ∧ TabWindow.openTabCount w' = TabWindow.openTabCount w
    ∧ r ∈ TabWindow.tabItems w'
    ∧ TabItem.saved r = true
    ∧ TabItem.savedState r = Some (makeSavedTabState bm)
    ∧ (TabItem.open r = true
       ↔ SavedTabState.url (makeSavedTabState bm)
         ∈ map TabItem.url (List.filter TabItem.open (TabWindow.tabItems w)))
    ∧ is_Some (TabWindow.findChromeBookmarkId (Bookmark.id bm) w').
Proof.
  intros Hopen Hsaved.
  destruct (createBookmark_attached w bm Hopen Hsaved)
    as (w' & r & H1 & H2 & H3 & H4 & H5 & H6).
  exists w', r. repeat (split; [done|]).
  apply (findEntry_is_Some _ _ r); [done|].
  rewrite H4, H5. simpl. by apply bool_decide_eq_true.
Qed.

Lemma createBookmark_attaches_bookmark_witness :
  openItemsHaveState (TabWindow.tabItems winOpen)
  ∧ savedItemsHaveState (TabWindow.tabItems winOpen)
  ∧ ∃ w' r, createBookmark winOpen bmD = Ok w'
            ∧ TabWindow.openTabCount w' = 2%nat
            ∧ r ∈ TabWindow.tabItems w'
            ∧ TabItem.savedState r = Some (makeSavedTabState bmD).
Proof.
  assert (Ho : openItemsHaveState (TabWindow.tabItems winOpen))
    by items_ok.
  assert (Hs : savedItemsHaveState (TabWindow.tabItems winOpen))
    by items_ok.
  split; [exact Ho|]. split; [exact Hs|].
  destruct (createBookmark_attaches_bookmark winOpen bmD Ho Hs)
    as (w' & r & H1 & H2 & H3 & _ & H4 & _).
  exists w', r. split; [exact H1|]. split; [exact H2|]. split; [exact H3|exact H4].
Defined.
End Creation.

(** * Saving and unsaving a tab *)

Section SaveUnsave.
Implicit Types (w : TabWindow.t) (ti : TabItem.t) (items : list TabItem.t).

Lemma findEntryFromR_middle {A} (predR : A → result bool) (l1 l2 : list A)
    (x : A) (k : nat) :
  Forall (λ y, predR y = Ok false) l1 → predR x = Ok true →
  findEntryFromR predR k (l1 ++ x :: l2) = Ok (Some ((k + length l1)%nat, x)).
Proof.
  intros H Hx. revert k. induction H as [|y l1 Hy _ IH]; intros k; simpl.
  - rewrite Hx. simpl. by rewrite Nat.add_0_r.
  - rewrite Hy. simpl. rewrite IH. do 3 f_equal. lia.
Qed.

Lemma unsaveTab_lookup items (index : nat) arg ss x :
  TabItem.safeSavedState arg = Ok ss →
  items !! index = Some x →
  sameBookmark ss x →
  Forall (otherBookmark ss) (take index items) →
  findEntryR (λ ti,
                if TabItem.saved ti then
                  a ←! TabItem.safeSavedState ti;
                  b ←! TabItem.safeSavedState arg;
                  Ok (bool_decide (SavedTabState.bookmarkId a
                                   = SavedTabState.bookmarkId b))
                else Ok false) items
  = Ok (Some (index, x)).
Proof.
  intros Harg Hl (Hs & xs & Hxs & Hid) Hbefore.
  pose proof (lookup_lt_Some _ _ _ Hl) as Hlt.
  rewrite <- (take_drop_middle _ _ _ Hl) at 1. unfold findEntryR.
  rewrite findEntryFromR_middle.
  - rewrite length_take. do 3 f_equal. lia.
  - eapply Forall_impl; [exact Hbefore|]. intros y Hy. simpl.
    destruct (TabItem.saved y) eqn:E; [|done].
    destruct (Hy E) as (ys & Hys & Hne).
    unfold TabItem.safeSavedState at 1. rewrite E, Hys, Harg. simpl.
    by rewrite bool_decide_eq_false_2.
  - simpl. unfold TabItem.safeSavedState at 1. rewrite Hs, Hxs, Harg. simpl.
    by rewrite bool_decide_eq_true_2.
Qed.

(** [unsaveTab] on a bookmark that is found takes exactly one saved item
    away and no open tab: an open item stays at its index as an open-only
    item, a closed item leaves the list. *)
Theorem unsaveTab_unsaves_one w arg ss (index : nat) x :
  TabItem.safeSavedState arg = Ok ss →
  TabWindow.tabItems w !! index = Some x →
  sameBookmark ss x →
  Forall (otherBookmark ss) (take index (TabWindow.tabItems w)) →
  ∃ w',
    unsaveTab w arg = Ok w'
    ∧ TabWindow.tabItems w'
      = (if TabItem.open x
         then <[index := resetOpenItem x]> (TabWindow.tabItems w)
         else take index (TabWindow.tabItems w)
              ++ drop (Datatypes.S index) (TabWindow.tabItems w))
    ∧ TabWindow.openTabCount w' = TabWindow.openTabCount w
    ∧ Datatypes.S (length (List.filter TabItem.saved (TabWindow.tabItems w')))
      = length (List.filter TabItem.saved (TabWindow.tabItems w)).
Proof.
  intros Harg Hl Hsame Hbefore.
  pose proof (lookup_lt_Some _ _ _ Hl) as Hlt.
  pose proof Hsame as (Hs & _).
  eexists. split.
  { unfold unsaveTab.
    rewrite (unsaveTab_lookup _ _ _ _ _ Harg Hl Hsame Hbefore). simpl.
    reflexivity. }
  unfold TabWindow.openTabCount.
  cbn [TabWindow.setTabItems TabWindow.set_tabItems TabWindow.tabItems].
  destruct (TabItem.open x) eqn:Ho.
  - rewrite splice_replace by done. split; [done|].
    pose proof (filter_length_insert TabItem.open _ _ _ (resetOpenItem x) Hl) as H1.
    pose proof (filter_length_insert TabItem.saved _ _ _ (resetOpenItem x) Hl) as H2.
    simpl in H1, H2. rewrite Ho in H1. rewrite Hs in H2. simpl in H2. lia.
  - rewrite splice_remove by done. split; [done|].
    pose proof (filter_length_remove TabItem.open _ _ _ Hl) as H1.
    pose proof (filter_length_remove TabItem.saved _ _ _ Hl) as H2.
    rewrite Ho in H1. rewrite Hs in H2. lia.
Qed.

Lemma unsaveTab_unsaves_one_witness :
  TabItem.safeSavedState savedA = Ok (makeSavedTabState bmA)
  ∧ TabWindow.tabItems winOpen !! 2%nat = Some savedA
  ∧ ∃ w', unsaveTab winOpen savedA = Ok w'
          ∧ TabWindow.tabItems w' = [mergedItem savedB openB; openC].
Proof.
  split; [reflexivity|]. split; [reflexivity|].
  destruct (unsaveTab_unsaves_one winOpen savedA (makeSavedTabState bmA) 2 savedA
              eq_refl eq_refl) as (w' & H1 & H2 & _).
  - split; [reflexivity|]. by eexists.
  - repeat constructor.
    + intros _. eexists. split; [reflexivity|]. discriminate.
    + intros H. discriminate H.
  - exists w'. split; [exact H1|]. rewrite H2. reflexivity.
Defined.

(** An argument without saved state makes [unsaveTab] throw as soon as
    the window holds a saved item; with no saved item in the window the
    window is returned as it is. *)
Theorem unsaveTab_unsaved_argument w arg :
  isOk (TabItem.safeSavedState arg) = false →
  savedItemsHaveState (TabWindow.tabItems w) →
  if existsb TabItem.saved (TabWindow.tabItems w)
  then isOk (unsaveTab w arg) = false
  else unsaveTab w arg = Ok w.
Proof.
  intros Harg Hwf. unfold unsaveTab, findEntryR.
  match goal with |- context [findEntryFromR ?p 0 _] =>
    assert (Hfind : ∀ k,
              if existsb TabItem.saved (TabWindow.tabItems w)
              then isOk (findEntryFromR p k (TabWindow.tabItems w)) = false
              else findEntryFromR p k (TabWindow.tabItems w) = Ok None)
  end.
  { induction Hwf as [|x l Hx _ IH]; intros k; [done|]. simpl.
    destruct (TabItem.saved x) eqn:E; simpl; [|apply IH].
    destruct (Hx eq_refl) as [xs Hxs].
    unfold TabItem.safeSavedState at 1. rewrite E, Hxs. simpl.
    by destruct (TabItem.safeSavedState arg). }
  specialize (Hfind 0%nat).
  destruct (existsb TabItem.saved (TabWindow.tabItems w)).
  - by destruct (findEntryFromR _ 0 (TabWindow.tabItems w)).
  - by rewrite Hfind.
Qed.

Lemma unsaveTab_unsaved_argument_witness :
  isOk (TabItem.safeSavedState openC) = false
  ∧ savedItemsHaveState (TabWindow.tabItems winOpen)
  ∧ isOk (unsaveTab winOpen openC) = false
  ∧ unsaveTab winLive openC = Ok winLive.
Proof.
  assert (Hs : savedItemsHaveState (TabWindow.tabItems winOpen))
    by items_ok.
  assert (Hl : savedItemsHaveState (TabWindow.tabItems winLive))
    by items_ok.
  split; [reflexivity|]. split; [exact Hs|]. split.
  - exact (unsaveTab_unsaved_argument winOpen openC eq_refl Hs).
  - exact (unsaveTab_unsaved_argument winLive openC eq_refl Hl).
Defined.

(** Saving the open, unsaved item that the lookup finds and unsaving the
    resulting item gives the window back, provided no saved item before
    it carries the bookmark id of the new saved state. *)
Theorem saveTab_unsaveTab_roundtrip w ti os (tabNode : Bookmark.t) (index : nat) :
  TabItem.safeOpenState ti = Ok os →
  TabWindow.findChromeTabId (OpenTabState.openTabId os) w = Some (index, ti) →
  TabItem.saved ti = false →
  TabItem.savedState ti = None →
  Forall (otherBookmark (newSavedTabState tabNode))
         (take index (TabWindow.tabItems w)) →
  ∃ w1 ti1,
    saveTab w ti tabNode = Ok w1
    ∧ TabWindow.tabItems w1 = <[index := ti1]> (TabWindow.tabItems w)
    ∧ ti1 = TabItem.mk true (Some (newSavedTabState tabNode))
              (TabItem.open ti) (TabItem.openState ti)
    ∧ unsaveTab w1 ti1 = Ok w.
Proof.
  intros Hos Hfind Hs Hss Hbefore.
  destruct (findChromeTabId_Some _ _ _ _ Hfind) as (Hl & Ho & _).
  pose proof (lookup_lt_Some _ _ _ Hl) as Hlt.
  set (ti1 := TabItem.mk true (Some (newSavedTabState tabNode))
                (TabItem.open ti) (TabItem.openState ti)).
  exists (TabWindow.setTabItems (<[index := ti1]> (TabWindow.tabItems w)) w), ti1.
  split.
  { unfold saveTab. rewrite Hos. simpl. rewrite Hfind.
    by rewrite splice_replace. }
  split; [done|]. split; [done|].
  unfold unsaveTab.
  cbn [TabWindow.setTabItems TabWindow.set_tabItems TabWindow.tabItems].
  rewrite (unsaveTab_lookup _ index ti1 (newSavedTabState tabNode) ti1).
  - simpl. rewrite Ho. rewrite splice_replace by by rewrite length_insert.
    rewrite list_insert_insert_eq.
    replace (resetOpenItem ti1) with ti.
    2:{ destruct ti as [sv ss op ost]. simpl in Hs, Hss. by rewrite Hs, Hss. }
    rewrite list_insert_id by done. by destruct w.
  - done.
  - by apply list_lookup_insert_eq.
  - split; [done|]. by eexists.
  - by rewrite take_insert_ge.
Qed.

Lemma saveTab_unsaveTab_roundtrip_witness :
  TabItem.safeOpenState openC = Ok (makeOpenTabState tabC)
  ∧ TabWindow.findChromeTabId 11 winOpen = Some (1%nat, openC)
  ∧ ∃ w1 ti1, saveTab winOpen openC bmD = Ok w1
              ∧ TabItem.saved ti1 = true
              ∧ unsaveTab w1 ti1 = Ok winOpen.
Proof.
  split; [reflexivity|]. split; [reflexivity|].
  destruct (saveTab_unsaveTab_roundtrip winOpen openC (makeOpenTabState tabC) bmD 1
              eq_refl eq_refl eq_refl eq_refl) as (w1 & ti1 & H1 & _ & H2 & H3).
  - repeat constructor. intros _. eexists. split; [reflexivity|]. discriminate.
  - exists w1, ti1. split; [exact H1|]. split; [by rewrite H2|exact H3].
Defined.

(** [saveTab] reads the open state of its argument before anything else:
    an argument that is not open makes it throw, whatever the window. *)
Lemma saveTab_closed_argument w ti (tabNode : Bookmark.t) :
  isOk (TabItem.safeOpenState ti) = false → isOk (saveTab w ti tabNode) = false.
Proof. intros H. unfold saveTab. by destruct (TabItem.safeOpenState ti). Qed.
End SaveUnsave.

(** * Initial ordering and construction *)

Section Construction.
Implicit Types (w : TabWindow.t) (ti : TabItem.t) (items : list TabItem.t).

(** The comparator is antisymmetric on all items, and puts every open
    item before every item that is not open. *)
Theorem tabItemCompare_antisymmetric (tiA tiB : TabItem.t) :
  tabItemCompare tiB tiA = - tabItemCompare tiA tiB
  ∧ (TabItem.open tiA = true → TabItem.open tiB = false →
     tabItemCompare tiA tiB < 0 ∧ 0 < tabItemCompare tiB tiA).
Proof.
  unfold tabItemCompare.
  destruct (TabItem.open tiA), (TabItem.open tiB); simpl;
    (split; [|first [by intros; lia | by intros; discriminate]]);
    repeat case_match; lia.
Qed.

Lemma tabItemCompare_antisymmetric_witness :
  TabItem.open openC = true ∧ TabItem.open savedA = false
  ∧ tabItemCompare openC savedA < 0 ∧ 0 < tabItemCompare savedA openC.
Proof.
  split; [reflexivity|]. split; [reflexivity|].
  exact (proj2 (tabItemCompare_antisymmetric openC savedA) eq_refl eq_refl).
Defined.

Lemma insertBy_perm {A} (cmp : A → A → Z) (x : A) (l : list A) :
  Permutation (insertBy cmp x l) (x :: l).
Proof.
  induction l as [|y l IH]; simpl; [done|].
  destruct (cmp x y <=? 0); [done|].
  rewrite IH. apply perm_swap.
Qed.

Lemma sortBy_perm {A} (cmp : A → A → Z) (l : list A) :
  Permutation (sortBy cmp l) l.
Proof.
  induction l as [|x l IH]; simpl; [done|].
  rewrite insertBy_perm. by constructor.
Qed.

Lemma insertBy_sorted {A} (key : A → Z) (cmp : A → A → Z) (x : A) (l : list A) :
  Forall (λ y, cmp x y = key x - key y) l →
  StronglySorted (λ a b, key a ≤ key b) l →
  StronglySorted (λ a b, key a ≤ key b) (insertBy cmp x l).
Proof.
  intros Hc Hs. induction Hs as [|y l Hs IH Hy]; simpl.
  - repeat constructor.
  - apply Forall_cons in Hc as [Hxy Hc]. specialize (IH Hc).
    destruct (Z.leb_spec (cmp x y) 0) as [Hle|Hgt].
    + constructor; [by constructor|]. constructor; [lia|].
      eapply Forall_impl; [exact Hy|]. intros z Hz. simpl in *. lia.
    + constructor; [done|].
      rewrite (insertBy_perm cmp x l). constructor; [lia|done].
Qed.

Lemma sortBy_sorted {A} (key : A → Z) (cmp : A → A → Z) (l : list A) :
  (∀ a b, a ∈ l → b ∈ l → cmp a b = key a - key b) →
  StronglySorted (λ a b, key a ≤ key b) (sortBy cmp l).
Proof.
  induction l as [|x l IH]; intros H; simpl; [constructor|].
  apply insertBy_sorted.
  - apply Forall_forall. intros y Hy. apply H; [by left|].
    right. by rewrite <- (sortBy_perm cmp l).
  - apply IH. intros a b Ha Hb. apply H; by right.
Qed.

(** A window built from a bookmark folder holds one saved, closed item
    per child that has a URL, ordered by bookmark index; it is saved, not
    open, and identified by the folder; children without URL are left out,
    and a folder without title takes the title of its first child with a
    URL. *)
Theorem makeFolderTabWindow_sorted_saved (bookmarkFolder : BookmarkFolder.t) :
  let w := makeFolderTabWindow bookmarkFolder in
  let nodes := List.filter hasUrl (default [] (BookmarkFolder.children bookmarkFolder)) in
  TabWindow.saved w = true
  ∧ TabWindow.open w = false
  ∧ TabWindow.id w = "_saved" +:+ BookmarkFolder.id bookmarkFolder
  ∧ Permutation (TabWindow.tabItems w) (map makeBookmarkedTabItem nodes)
  ∧ StronglySorted (λ a b, bookmarkIndexOf a ≤ bookmarkIndexOf b) (TabWindow.tabItems w)
  ∧ Forall (λ x, isSavedItem x ∧ TabItem.open x = false) (TabWindow.tabItems w)
  ∧ TabWindow.openTabCount w = 0%nat
  ∧ computeTitle w
    = Ok (match BookmarkFolder.title bookmarkFolder, nodes with
          | Some t, _ => t
          | None, bm :: _ => default (default "" (Bookmark.url bm)) (Bookmark.title bm)
          | None, [] => ""
          end).
Proof.
  intros w nodes.
  assert (Hitems : TabWindow.tabItems w
                   = sortBy tabItemCompare (map makeBookmarkedTabItem nodes)).
  { unfold w, makeFolderTabWindow, nodes. simpl.
    by destruct (BookmarkFolder.children bookmarkFolder). }
  assert (Hall : Forall (λ x, isSavedItem x ∧ TabItem.open x = false)
                   (TabWindow.tabItems w)).
  { rewrite Hitems, sortBy_perm. apply Forall_forall. intros x Hx.
    apply list_elem_of_In, in_map_iff in Hx as (bm & <- & _).
    split; [|done]. split; [done|by eexists]. }
  split; [done|]. split; [done|]. split; [done|].
  split; [by rewrite Hitems, sortBy_perm|]. split; [|split; [done|split]].
  - rewrite Hitems. apply sortBy_sorted. intros a b Ha Hb.
    apply list_elem_of_In, in_map_iff in Ha as (bma & <- & _).
    apply list_elem_of_In, in_map_iff in Hb as (bmb & <- & _). done.
  - unfold TabWindow.openTabCount. rewrite filter_none; [done|].
    eapply Forall_impl; [exact Hall|]. by intros x [_ ?].
  - unfold computeTitle, w, makeFolderTabWindow, nodes. simpl. f_equal.
    destruct (BookmarkFolder.title bookmarkFolder); [done|]. simpl.
    destruct (BookmarkFolder.children bookmarkFolder) as [l|]; [|done]. simpl.
    by destruct (List.filter hasUrl l).
Qed.

(** A window built from a live window holds one open item per live tab,
    ordered by tab index; it is open and not saved, and a live window
    without [tabs] gives a window without items. *)
Theorem makeChromeTabWindow_sorted_open (chromeWindow : ChromeWindow.t) :
  let w := makeChromeTabWindow chromeWindow in
  let tabs := default [] (ChromeWindow.tabs chromeWindow) in
  TabWindow.open w = true
  ∧ TabWindow.saved w = false
  ∧ TabWindow.id w = "_open" +:+ pretty (ChromeWindow.id chromeWindow)
  ∧ Permutation (TabWindow.tabItems w) (map makeOpenTabItem tabs)
  ∧ StronglySorted (λ a b, openTabIndexOf a ≤ openTabIndexOf b) (TabWindow.tabItems w)
  ∧ Forall (λ x, isOpenItem x ∧ TabItem.saved x = false) (TabWindow.tabItems w)
  ∧ TabWindow.openTabCount w = length tabs
  ∧ (ChromeWindow.tabs chromeWindow = None → TabWindow.tabItems w = []).
Proof.
  intros w tabs.
  assert (Hitems : TabWindow.tabItems w
                   = sortBy tabItemCompare (map makeOpenTabItem tabs)) by done.
  assert (Hall : Forall (λ x, isOpenItem x ∧ TabItem.saved x = false)
                   (TabWindow.tabItems w)).
  { rewrite Hitems, sortBy_perm. apply Forall_forall. intros x Hx.
    apply list_elem_of_In, in_map_iff in Hx as (tab & <- & _).
    split; [|done]. split; [done|by eexists]. }
  split; [done|]. split; [done|]. split; [done|].
  split; [by rewrite Hitems, sortBy_perm|]. split; [|split; [done|split]].
  - rewrite Hitems. apply sortBy_sorted. intros a b Ha Hb.
    apply list_elem_of_In, in_map_iff in Ha as (ta & <- & _).
    apply list_elem_of_In, in_map_iff in Hb as (tb & <- & _). done.
  - unfold TabWindow.openTabCount. rewrite filter_all.
    + rewrite Hitems. rewrite (Permutation_length (sortBy_perm _ _)).
      apply length_map.
    + eapply Forall_impl; [exact Hall|]. by intros x [[? _] _].
  - intros Hnone. rewrite Hitems. unfold tabs. by rewrite Hnone.
Qed.

Lemma makeChromeTabWindow_sorted_open_witness :
  ChromeWindow.tabs (ChromeWindow.mk 9 "normal" 0 0 None) = None
  ∧ TabWindow.tabItems (makeChromeTabWindow (ChromeWindow.mk 9 "normal" 0 0 None)) = []
  ∧ TabWindow.tabItems
      (makeChromeTabWindow (ChromeWindow.mk 9 "normal" 0 0 (Some [tabC; tabB])))
    = [openB; openC].
Proof.
  split; [reflexivity|]. split; [|reflexivity].
  destruct (makeChromeTabWindow_sorted_open (ChromeWindow.mk 9 "normal" 0 0 None))
    as (_ & _ & _ & _ & _ & _ & _ & H).
  exact (H eq_refl).
Defined.
End Construction.

(** * Export *)

Section ExportTable.
Implicit Types (s t : string).

Lemma indexOfChar_bounds (c : Ascii.ascii) s : -1 ≤ indexOfChar c s.
Proof.
  induction s as [|a s IH]; simpl; [lia|].
  destruct (Ascii.eqb a c); [lia|]. destruct (Z.ltb_spec (indexOfChar c s) 0); lia.
Qed.

Lemma indexOfChar_none_count (c : Ascii.ascii) s :
  indexOfChar c s = -1 ↔ countChar c s = 0%nat.
Proof.
  induction s as [|a s IH]; simpl; [done|].
  pose proof (indexOfChar_bounds c s).
  destruct (Ascii.eqb a c); simpl; [split; [lia|done]|].
  destruct (Z.ltb_spec (indexOfChar c s) 0); rewrite <- IH; lia.
Qed.

Lemma replacePipes_no_pipe s : countChar pipe (replacePipes s) = 0%nat.
Proof.
  induction s as [|a s IH]; simpl; [done|]. rewrite IH.
  destruct (Ascii.eqb a pipe) eqn:E; [done|]. by rewrite E.
Qed.

Lemma replacePipes_length s : String.length (replacePipes s) = String.length s.
Proof. induction s as [|a s IH]; simpl; [done|]. by rewrite IH. Qed.

Lemma replacePipes_id s : countChar pipe s = 0%nat → replacePipes s = s.
Proof.
  induction s as [|a s IH]; simpl; [done|].
  destruct (Ascii.eqb a pipe); simpl; [done|]. intros H. by rewrite IH.
Qed.

Lemma countChar_app (c : Ascii.ascii) s t :
  countChar c (s +:+ t) = (countChar c s + countChar c t)%nat.
Proof. induction s as [|a s IH]; simpl; [done|]. rewrite IH. lia. Qed.

(** An escaped cell never contains a pipe, has the length of the text it
    comes from, and is that text when the text has no pipe; a missing text
    gives the empty cell. *)
Theorem escapeTableCell_no_pipe s :
  indexOfChar pipe (escapeTableCell (Some s)) = -1
  ∧ String.length (escapeTableCell (Some s)) = String.length s
  ∧ (indexOfChar pipe s = -1 → escapeTableCell (Some s) = s)
  ∧ escapeTableCell None = ""%string.
Proof.
  unfold escapeTableCell.
  destruct (negb (String.eqb s "") && (0 <=? indexOfChar pipe s)) eqn:E.
  - split; [apply indexOfChar_none_count, replacePipes_no_pipe|].
    split; [apply replacePipes_length|]. split; [|done].
    intros H. apply replacePipes_id. by apply indexOfChar_none_count.
  - split; [|done]. apply andb_false_iff in E as [E|E].
    + apply negb_false_iff, String.eqb_eq in E. by subst.
    + pose proof (indexOfChar_bounds pipe s). apply Z.leb_gt in E. lia.
Qed.

Lemma escapeTableCell_no_pipe_witness :
  indexOfChar pipe "a|b|c" = 1
  ∧ escapeTableCell (Some "a|b|c"%string) = "a-b-c"%string
  ∧ indexOfChar pipe "plain" = -1
  ∧ escapeTableCell (Some "plain"%string) = "plain"%string.
Proof.
  split; [reflexivity|]. split; [reflexivity|]. split; [reflexivity|].
  exact (proj1 (proj2 (proj2 (escapeTableCell_no_pipe "plain"))) eq_refl).
Defined.

(** A row of the exported table has one column separator, plus the pipes
    of the URL, which is written unescaped; the title never adds one. *)
Theorem fmtTabItem_separators (ti : TabItem.t) :
  countChar pipe (fmtTabItem ti) = Datatypes.S (countChar pipe (TabItem.url ti)).
Proof.
  unfold fmtTabItem. rewrite !countChar_app.
  destruct (escapeTableCell_no_pipe (TabItem.title ti)) as [H _].
  apply indexOfChar_none_count in H. rewrite H. simpl. lia.
Qed.
End ExportTable.

(** * Tab attribute changes *)

Section TabChanges.
Implicit Types (w : TabWindow.t) (ti : TabItem.t) (ci : ChangeInfo.t).

Lemma has_url_None ci : ChangeInfo.url ci = None → ChangeInfo.has ci "url" = false.
Proof.
  destruct ci as [u [?|] [?|] [?|] [?|] [?|] [?|] [?|] [?|] [?|] [?|]];
    simpl; intros ->; reflexivity.
Qed.

(** A change without [url] patches the open state of the tab in place:
    the item list keeps its length and every other item, the item keeps
    its saved state, each open-state field the change names takes the new
    value and each other field keeps its value; nothing is re-merged. *)
Theorem updateTabItem_patches_in_place w tabId ci (index : nat) ti os :
  TabWindow.findChromeTabId tabId w = Some (index, ti) →
  TabItem.openState ti = Some os →
  ChangeInfo.url ci = None →
  updateTabItem w tabId ci
  = Ok (TabWindow.setTabItems
          (<[index :=
               TabItem.mk (TabItem.saved ti) (TabItem.savedState ti) true
                 (Some (OpenTabState.mk
                          (OpenTabState.url os)
                          (default (OpenTabState.openTabId os) (ChangeInfo.openTabId ci))
                          (default (OpenTabState.active os) (ChangeInfo.active ci))
                          (default (OpenTabState.openTabIndex os)
                                   (ChangeInfo.openTabIndex ci))
                          (default (OpenTabState.favIconUrl os)
                                   (ChangeInfo.favIconUrl ci))
                          (default (OpenTabState.title os) (ChangeInfo.title ci))
                          (default (OpenTabState.audible os) (ChangeInfo.audible ci))
                          (default (OpenTabState.pinned os) (ChangeInfo.pinned ci))))]>
             (TabWindow.tabItems w)) w).
Proof.
  intros Hfind Hos Hurl.
  destruct (findChromeTabId_Some _ _ _ _ Hfind) as (Hl & Ho & _).
  pose proof (lookup_lt_Some _ _ _ Hl) as Hlt.
  pose proof (applyOpenChanges_fields ci os) as Hf. rewrite Hurl in Hf. simpl in Hf.
  rewrite <- Hf. unfold applyOpenChanges.
  unfold updateTabItem. rewrite Hfind, Hos, (has_url_None ci Hurl).
  generalize (intersection OpenTabState.keys (ChangeInfo.keys ci)).
  intros [|k ks].
  - simpl. f_equal. rewrite list_insert_id; [by destruct w|].
    rewrite Hl. f_equal. destruct ti as [sv ss op ost]. simpl in *. by subst.
  - simpl. rewrite splice_replace by done. do 3 f_equal.
    destruct ti as [sv ss op ost]. simpl in *. by subst.
Qed.

Lemma updateTabItem_patches_in_place_witness :
  TabWindow.findChromeTabId 11 winOpen = Some (1%nat, openC)
  ∧ ChangeInfo.url titleChange = None
  ∧ ∃ w', updateTabItem winOpen 11 titleChange = Ok w'
          ∧ TabItem.title <$> (TabWindow.tabItems w' !! 1%nat) = Some "T"%string
          ∧ length (TabWindow.tabItems w') = 3%nat.
Proof.
  split; [reflexivity|]. split; [reflexivity|].
  eexists. split.
  - exact (updateTabItem_patches_in_place winOpen 11 titleChange 1 openC
             (makeOpenTabState tabC) eq_refl eq_refl eq_refl).
  - split; reflexivity.
Defined.
(** A bookmark change without [url] on an item that [indexOf] finds at an
    index other than 0 patches the saved state of that item in place:
    each saved-state field the change names takes the new value, the
    others and the other items stay. *)
Theorem updateTabBookmark_patches_later_item w ti ci ss (index : nat) :
  TabWindow.indexOf ti w = Z.of_nat index → (0 < index)%nat →
  TabItem.savedState ti = Some ss →
  ChangeInfo.url ci = None →
  updateTabBookmark w ti ci
  = Ok (TabWindow.setTabItems
          (<[index :=
               TabItem.mk (TabItem.saved ti)
                 (Some (SavedTabState.mk
                          (default (SavedTabState.bookmarkId ss)
                                   (ChangeInfo.bookmarkId ci))
                          (default (SavedTabState.bookmarkIndex ss)
                                   (ChangeInfo.bookmarkIndex ci))
                          (default (SavedTabState.title ss) (ChangeInfo.title ci))
                          (SavedTabState.url ss)))
                 (TabItem.open ti) (TabItem.openState ti)]>
             (TabWindow.tabItems w)) w).
Proof.
  intros Hi Hpos Hss Hurl.
  pose proof (indexOf_lookup _ _ _ Hi) as Hl.
  pose proof (lookup_lt_Some _ _ _ Hl) as Hlt.
  pose proof (applySavedChanges_fields ci ss) as Hf. rewrite Hurl in Hf. simpl in Hf.
  rewrite <- Hf. unfold applySavedChanges.
  unfold updateTabBookmark. rewrite Hi, Hss, (has_url_None ci Hurl).
  replace (jsNot (Z.of_nat index)) with false by (unfold jsNot; lia).
  generalize (intersection SavedTabState.keys (ChangeInfo.keys ci)).
  intros [|k ks].
  - simpl. f_equal. rewrite list_insert_id; [by destruct w|].
    rewrite Hl. f_equal. destruct ti as [sv sst op ost]. simpl in *. by subst.
  - simpl. by rewrite splice_replace.
Qed.

Lemma updateTabBookmark_patches_later_item_witness :
  TabWindow.indexOf savedB winClosed = 1
  ∧ ChangeInfo.url titleChange = None
  ∧ ∃ w', updateTabBookmark winClosed savedB titleChange = Ok w'
          ∧ TabItem.title <$> (TabWindow.tabItems w' !! 1%nat) = Some "T"%string
          ∧ TabWindow.tabItems w' !! 0%nat = Some savedA.
Proof.
  split; [reflexivity|]. split; [reflexivity|].
  eexists. split.
  - apply (updateTabBookmark_patches_later_item winClosed savedB titleChange
             (makeSavedTabState bmB) 1); [reflexivity|lia|reflexivity|reflexivity].
  - split; reflexivity.
Defined.
End TabChanges.

(** * The item invariant across the lifecycle *)

Section Invariant.
Implicit Types (w : TabWindow.t) (ti : TabItem.t) (items S O : list TabItem.t).

Lemma splice_Forall {A} (P : A → Prop) (l : list A) (index : Z) (n : nat)
    (values : list A) :
  Forall P l → Forall P values → Forall P (splice l index n values).
Proof.
  intros Hl Hv. unfold splice. apply Forall_app. split; [by apply Forall_take|].
  apply Forall_app. split; [done|by apply Forall_drop].
Qed.

Lemma merged_invariant S O :
  Forall isSavedItem S → openItemsHaveState S →
  openItemsHaveState O → savedItemsHaveState O →
  openItemsHaveState (map (enrich (savedUrlMapOf S)) O ++ List.filter (isClosedOf O) S)
  ∧ savedItemsHaveState
      (map (enrich (savedUrlMapOf S)) O ++ List.filter (isClosedOf O) S).
Proof.
  intros HS HSo HOo HOs.
  unfold openItemsHaveState, savedItemsHaveState in *.
  rewrite Forall_forall in HS, HSo, HOo, HOs.
  split; apply Forall_app; split; apply Forall_forall; intros x Hx.
  - apply list_elem_of_In, in_map_iff in Hx as (o & <- & Ho).
    destruct (enrich_open (savedUrlMapOf S) o) as [-> ->].
    by apply HOo, list_elem_of_In.
  - apply list_elem_of_In, filter_In in Hx as [Hx _].
    by apply HSo, list_elem_of_In.
  - apply list_elem_of_In, in_map_iff in Hx as (o & <- & Ho).
    apply list_elem_of_In in Ho. unfold enrich.
    destruct (TabItem.openState o) as [os|]; [|by apply HOs].
    destruct (savedUrlMapOf S !! OpenTabState.url os) as [si|] eqn:E;
      [|by apply HOs].
    intros _. simpl. apply savedUrlMapOf_Some in E as [Hsi _].
    by apply HS.
  - apply list_elem_of_In, filter_In in Hx as [Hx _]. intros _.
    by apply HS, list_elem_of_In.
Qed.

Lemma all_closed_openItemsHaveState S :
  Forall (λ s, TabItem.open s = false) S → openItemsHaveState S.
Proof.
  intros H. eapply Forall_impl; [exact H|]. intros x Hx Ho. simpl in Hx. congruence.
Qed.

Lemma baseOpen_invariant items :
  openItemsHaveState items →
  openItemsHaveState (map resetOpenItem (List.filter TabItem.open items))
  ∧ savedItemsHaveState (map resetOpenItem (List.filter TabItem.open items)).
Proof.
  intros H. unfold openItemsHaveState, savedItemsHaveState in *.
  rewrite Forall_forall in H.
  split; apply Forall_forall; intros x Hx;
    apply list_elem_of_In, in_map_iff in Hx as (y & <- & Hy);
    apply filter_In in Hy as [Hy Hopen]; [|done].
  intros _. simpl. apply H; [by apply list_elem_of_In|done].
Qed.

(** A merge of the window with an optional new tab and an optional new
    bookmark returns a window that satisfies the invariant. *)
Lemma mergeTabWindowTabItems_invariant w (optChromeTab : option ChromeTab.t)
    (optBookmark : option Bookmark.t) :
  wellFormed w →
  ∃ w', mergeTabWindowTabItems w optChromeTab optBookmark = Ok w' ∧ wellFormed w'.
Proof.
  intros [Hopen Hsaved]. unfold mergeTabWindowTabItems.
  set (S := map resetSavedItem (List.filter TabItem.saved (TabWindow.tabItems w))).
  set (O := map resetOpenItem (List.filter TabItem.open (TabWindow.tabItems w))).
  set (S' := match optBookmark with
             | Some bm => S ++ [makeBookmarkedTabItem bm] | None => S end).
  set (O' := match optChromeTab with
             | Some tab => splice O (ChromeTab.index tab) 0 [makeOpenTabItem tab]
             | None => O end).
  assert (HS : Forall isSavedItem S') .
  { unfold S'. destruct optBookmark; [|by apply baseSavedItems_saved].
    apply Forall_app. split; [by apply baseSavedItems_saved|].
    repeat constructor. by eexists. }
  assert (HSo : openItemsHaveState S').
  { apply all_closed_openItemsHaveState. unfold S'.
    destruct optBookmark; [|apply baseSavedItems_closed].
    apply Forall_app. split; [apply baseSavedItems_closed|by repeat constructor]. }
  destruct (baseOpen_invariant _ Hopen) as [HOo HOs]. fold O in HOo, HOs.
  assert (HO' : openItemsHaveState O' ∧ savedItemsHaveState O').
  { unfold O'. destruct optChromeTab; [|done].
    split; apply splice_Forall; try done;
      (apply Forall_cons; split; [|constructor]); simpl.
    - intros _. by eexists.
    - intros H. discriminate H. }
  destruct HO' as [HOo' HOs'].
  rewrite merge_unfold by done. simpl. eexists. split; [done|].
  unfold wellFormed.
  cbn [TabWindow.setTabItems TabWindow.set_tabItems TabWindow.tabItems].
  by apply merged_invariant.
Qed.

Lemma closeTab_invariant w tabId : wellFormed w → wellFormed (closeTab w tabId).
Proof.
  intros [Hopen Hsaved].
  destruct (TabWindow.findChromeTabId tabId w) as [[index ti]|] eqn:Hfind.
  2:{ by rewrite closeTab_miss. }
  destruct (findChromeTabId_Some _ _ _ _ Hfind) as (Hl & _).
  unfold wellFormed. rewrite (closeTab_found _ _ _ _ Hfind).
  unfold openItemsHaveState, savedItemsHaveState in *.
  destruct (TabItem.saved ti) eqn:Hs.
  - split; apply Forall_insert; try done.
    intros _. simpl. rewrite Forall_forall in Hsaved.
    apply Hsaved; [by eapply list_elem_of_lookup_2|done].
  - split; apply Forall_app; split;
      first [by apply Forall_take | by apply Forall_drop].
Qed.

Lemma setActiveTab_invariant w tabId :
  wellFormed w → ∃ w', setActiveTab w tabId = Ok w' ∧ wellFormed w'.
Proof.
  intros [Hopen Hsaved].
  destruct (TabWindow.findChromeTabId tabId w) as [[index ti]|] eqn:Hfind.
  2:{ exists w. split; [by apply setActiveTab_miss|done]. }
  destruct (findChromeTabId_Some _ _ _ _ Hfind) as (Hl & Ho & os & Hos & _).
  eexists. split; [by apply (setActiveTab_Ok _ _ _ _ _ Hopen Hfind Hos)|].
  split; cbn [TabWindow.setTabItems TabWindow.set_tabItems TabWindow.tabItems].
  - by apply openItemsHaveState_active.
  - unfold savedItemsHaveState in *. rewrite Forall_forall in Hsaved.
    apply Forall_insert.
    + apply Forall_forall. intros x Hx.
      apply list_elem_of_In, in_map_iff in Hx as (y & <- & Hy).
      replace (TabItem.saved (clearActive y)) with (TabItem.saved y)
        by (unfold clearActive; by destruct (TabItem.open y)).
      replace (TabItem.savedState (clearActive y)) with (TabItem.savedState y)
        by (unfold clearActive; by destruct (TabItem.open y)).
      by apply Hsaved, list_elem_of_In.
    + simpl. apply Hsaved. by eapply list_elem_of_lookup_2.
Qed.

Lemma updateTabItem_invariant w tabId (ci : ChangeInfo.t) :
  wellFormed w → ∃ w', updateTabItem w tabId ci = Ok w' ∧ wellFormed w'.
Proof.
  intros Hwf. pose proof Hwf as [Hopen Hsaved]. unfold updateTabItem.
  destruct (TabWindow.findChromeTabId tabId w) as [[index ti]|] eqn:Hfind;
    [|by exists w].
  destruct (findChromeTabId_Some _ _ _ _ Hfind) as (Hl & Ho & os & Hos & _).
  rewrite Hos.
  generalize (intersection OpenTabState.keys (ChangeInfo.keys ci)).
  intros [|k ks]; [by exists w|]. simpl length. cbn [Nat.eqb Nat.ltb Nat.leb].
  cbv zeta.
  match goal with
  | |- context [TabWindow.setTabItems ?l w] =>
      assert (Hwf1 : wellFormed (TabWindow.setTabItems l w))
  end.
  { rewrite splice_replace by by eapply lookup_lt_Some.
    unfold wellFormed, openItemsHaveState, savedItemsHaveState in *.
    cbn [TabWindow.setTabItems TabWindow.set_tabItems TabWindow.tabItems].
    split; apply Forall_insert; try done; simpl.
    rewrite Forall_forall in Hsaved. apply Hsaved.
    by eapply list_elem_of_lookup_2. }
  destruct (ChangeInfo.has ci "url").
  - by apply mergeTabWindowTabItems_invariant.
  - by eexists.
Qed.

Lemma removeOpenWindowState_invariant w (snapshot : bool) :
  wellFormed w → ∃ w', removeOpenWindowState w snapshot = Ok w' ∧ wellFormed w'.
Proof.
  intros [Hopen Hsaved]. destruct snapshot.
  - eexists. split; [by apply removeOpenWindowState_snapshot|].
    split; cbn [TabWindow.tabItems];
      [by apply openItemsHaveState_strip|by apply savedItemsHaveState_strip].
  - eexists. split; [apply removeOpenWindowState_revert_Ok|].
    split; cbn [TabWindow.tabItems].
    + apply all_closed_openItemsHaveState, baseSavedItems_closed.
    + eapply Forall_impl; [by apply baseSavedItems_saved|].
      by intros x [_ ?] _.
Qed.

Lemma updateWindow_invariant w (chromeWindow : ChromeWindow.t)
    (tabs : list ChromeTab.t) :
  wellFormed w → ChromeWindow.tabs chromeWindow = Some tabs →
  ∃ w', updateWindow w chromeWindow = Ok w' ∧ wellFormed w'.
Proof.
  intros [Hopen Hsaved] Htabs.
  eexists. split.
  { apply updateWindow_Ok. rewrite Htabs. unfold mergeOpenTabs.
    apply merge_unfold. by apply baseSavedItems_saved. }
  unfold wellFormed. cbn [TabWindow.tabItems]. apply merged_invariant.
  - by apply baseSavedItems_saved.
  - apply all_closed_openItemsHaveState, baseSavedItems_closed.
  - apply Forall_forall. intros x Hx.
    apply list_elem_of_In, in_map_iff in Hx as (tab & <- & _). intros _. by eexists.
  - apply Forall_forall. intros x Hx.
    by apply list_elem_of_In, in_map_iff in Hx as (tab & <- & _).
Qed.

Lemma saveTab_invariant w ti (tabNode : Bookmark.t) :
  wellFormed w → isOpenItem ti →
  ∃ w', saveTab w ti tabNode = Ok w' ∧ wellFormed w'.
Proof.
  intros Hwf [Ho [os Hos]]. pose proof Hwf as [Hopen Hsaved].
  unfold saveTab, TabItem.safeOpenState. rewrite Ho, Hos. simpl.
  destruct (TabWindow.findChromeTabId _ w) as [[index x]|]; [|by exists w].
  eexists. split; [done|].
  unfold wellFormed, openItemsHaveState, savedItemsHaveState in *.
  cbn [TabWindow.setTabItems TabWindow.set_tabItems TabWindow.tabItems].
  split; apply splice_Forall; try done;
    (apply Forall_cons; split; [|constructor]); simpl; intros _; by eexists.
Qed.

Lemma findEntryFrom_lookup {A} (p : A → bool) (l : list A) (k i : nat) (x : A) :
  findEntryFrom p k l = Some (i, x) → ∃ j : nat, i = (k + j)%nat ∧ l !! j = Some x.
Proof.
  intros H. apply findEntryFrom_Some in H as (j & -> & Hj & _). by exists j.
Qed.

Lemma unsaveTab_invariant w arg :
  wellFormed w → isSavedItem arg →
  ∃ w', unsaveTab w arg = Ok w' ∧ wellFormed w'.
Proof.
  intros Hwf [Hs [ss Hss]]. pose proof Hwf as [Hopen Hsaved].
  unfold unsaveTab, findEntryR.
  rewrite (findEntryFromR_pure _
             (λ x, TabItem.saved x
                   && bool_decide (SavedTabState.bookmarkId
                                     <$> TabItem.savedState x
                                   = Some (SavedTabState.bookmarkId ss)))).
  2:{ eapply Forall_impl; [exact Hsaved|]. intros x Hx. simpl in Hx.
      destruct (TabItem.saved x) eqn:E; [|done].
      destruct (Hx eq_refl) as [xs Hxs].
      unfold TabItem.safeSavedState. rewrite E, Hxs, Hs, Hss. simpl. f_equal.
      apply bool_decide_ext. split; congruence. }
  simpl.
  destruct (findEntryFrom _ 0 (TabWindow.tabItems w)) as [[index x]|] eqn:E;
    [|by exists w].
  apply findEntryFrom_lookup in E as (j & -> & Hj). simpl in *.
  eexists. split; [done|].
  unfold wellFormed, openItemsHaveState, savedItemsHaveState in *.
  cbn [TabWindow.setTabItems TabWindow.set_tabItems TabWindow.tabItems].
  destruct (TabItem.open x) eqn:Hxo.
  - split; apply splice_Forall; try done;
      (apply Forall_cons; split; [|constructor]); simpl.
    + intros _. rewrite Forall_forall in Hopen.
      apply Hopen; [by eapply list_elem_of_lookup_2|done].
    + intros H. discriminate H.
  - split; apply splice_Forall; try done; constructor.
Qed.

(** The lifecycle operations keep the item invariant and, on a window
    that satisfies it, never throw: each returns a window in which every
    open item carries its open state and every saved item its saved
    state. [saveTab] and [unsaveTab] need an argument that is open,
    respectively saved, with its state. *)
Theorem lifecycle_keeps_invariant w :
  wellFormed w →
  (∀ tabId, wellFormed (closeTab w tabId))
  ∧ (∀ tabId, ∃ w', setActiveTab w tabId = Ok w' ∧ wellFormed w')
  ∧ (∀ tabId ci, ∃ w', updateTabItem w tabId ci = Ok w' ∧ wellFormed w')
  ∧ (∀ tab, ∃ w', createTab w tab = Ok w' ∧ wellFormed w')
  ∧ (∀ tab bmNode, ∃ w', createSavedTab w tab bmNode = Ok w' ∧ wellFormed w')
  ∧ (∀ bm, ∃ w', createBookmark w bm = Ok w' ∧ wellFormed w')
  ∧ (∀ snapshot, ∃ w', removeOpenWindowState w snapshot = Ok w' ∧ wellFormed w')
  ∧ (∀ chromeWindow tabs,
       ChromeWindow.tabs chromeWindow = Some tabs →
       ∃ w', updateWindow w chromeWindow = Ok w' ∧ wellFormed w')
  ∧ (∀ ti tabNode, isOpenItem ti →
       ∃ w', saveTab w ti tabNode = Ok w' ∧ wellFormed w')
  ∧ (∀ arg, isSavedItem arg → ∃ w', unsaveTab w arg = Ok w' ∧ wellFormed w')
  ∧ wellFormed (removeSavedWindowState w).
Proof.
  intros Hwf.
  split; [intros; by apply closeTab_invariant|].
  split; [intros; by apply setActiveTab_invariant|].
  split; [intros; by apply updateTabItem_invariant|].
  split; [intros; by apply mergeTabWindowTabItems_invariant|].
  split; [intros; by apply mergeTabWindowTabItems_invariant|].
  split; [intros; by apply mergeTabWindowTabItems_invariant|].
  split; [intros; by apply removeOpenWindowState_invariant|].
  split; [intros; by eapply updateWindow_invariant|].
  split; [intros; by apply saveTab_invariant|].
  split; [intros; by apply unsaveTab_invariant|].
  exact Hwf.
Qed.

Lemma lifecycle_keeps_invariant_witness :
  wellFormed winOpen
  ∧ wellFormed (closeTab winOpen 10)
  ∧ ∃ w', createTab winOpen tabD = Ok w' ∧ wellFormed w'.
Proof.
  assert (Hwf : wellFormed winOpen) by (split; items_ok).
  split; [exact Hwf|].
  destruct (lifecycle_keeps_invariant winOpen Hwf) as (H1 & _ & _ & H4 & _).
  split; [exact (H1 10)|exact (H4 tabD)].
Defined.

(** The constructors establish the invariant. *)
Theorem constructors_establish_invariant (bookmarkFolder : BookmarkFolder.t)
    (chromeWindow : ChromeWindow.t) :
  wellFormed (makeFolderTabWindow bookmarkFolder)
  ∧ wellFormed (makeChromeTabWindow chromeWindow).
Proof.
  unfold wellFormed, openItemsHaveState, savedItemsHaveState.
  split; split.
  - set (w := makeFolderTabWindow bookmarkFolder).
    assert (Forall (λ x, TabItem.open x = false ∧ is_Some (TabItem.savedState x))
              (TabWindow.tabItems w)) as H.
    { unfold w, makeFolderTabWindow. cbn [TabWindow.tabItems].
      rewrite sortBy_perm. apply Forall_forall. intros x Hx.
      by apply list_elem_of_In, in_map_iff in Hx as (bm & <- & _). }
    eapply Forall_impl; [exact H|]. intros x [Hx _] Ho. congruence.
  - unfold makeFolderTabWindow. cbn [TabWindow.tabItems].
    rewrite sortBy_perm. apply Forall_forall. intros x Hx.
    by apply list_elem_of_In, in_map_iff in Hx as (bm & <- & _).
  - unfold makeChromeTabWindow. cbn [TabWindow.tabItems].
    rewrite sortBy_perm. apply Forall_forall. intros x Hx.
    by apply list_elem_of_In, in_map_iff in Hx as (tab & <- & _).
  - unfold makeChromeTabWindow. cbn [TabWindow.tabItems].
    rewrite sortBy_perm. apply Forall_forall. intros x Hx.
    by apply list_elem_of_In, in_map_iff in Hx as (tab & <- & _).
Qed.

(** The reads never throw on a window whose open items carry their open
    state, and [updateTabBookmark] never throws on a window whose saved
    items carry their saved state, whatever item and change it is given. *)
Theorem reads_and_bookmark_update_total w :
  (openItemsHaveState (TabWindow.tabItems w) →
   isOk (computeTitle w) = true
   ∧ isOk (getActiveTabId w) = true
   ∧ isOk (exportStr w) = true)
  ∧ (savedItemsHaveState (TabWindow.tabItems w) →
     ∀ ti ci, isOk (updateTabBookmark w ti ci) = true).
Proof.
  split.
  - intros Hopen.
    assert (Hfind : findR isActiveTab (TabWindow.tabItems w)
                    = Ok (snd <$> findEntry isActiveOpen (TabWindow.tabItems w))).
    { unfold findR, findEntryR.
      by rewrite (findEntryFromR_pure _ isActiveOpen) by by apply isActiveTab_pure. }
    assert (Ht : isOk (computeTitle w) = true).
    { unfold computeTitle. destruct (TabWindow.saved w); [done|].
      rewrite Hfind. simpl. by repeat case_match. }
    split; [done|]. split.
    + unfold getActiveTabId. by rewrite Hfind.
    + unfold exportStr. by destruct (computeTitle w).
  - intros Hsaved ti ci. unfold updateTabBookmark.
    destruct (jsNot _); [done|].
    destruct (TabItem.savedState ti) as [ss|]; [|done].
    generalize (intersection SavedTabState.keys (ChangeInfo.keys ci)).
    intros [|k ks]; [done|]. simpl length. cbn [Nat.eqb Nat.ltb Nat.leb]. cbv zeta.
    destruct (ChangeInfo.has ci "url"); [|done].
    unfold mergeTabWindowTabItems.
    cbn [TabWindow.setTabItems TabWindow.set_tabItems TabWindow.tabItems].
    rewrite merge_unfold; [done|].
    apply baseSavedItems_saved, splice_Forall; [done|].
    apply Forall_cons. split; [|constructor]. intros _. by eexists.
Qed.

Lemma reads_and_bookmark_update_total_witness :
  openItemsHaveState (TabWindow.tabItems winLive)
  ∧ savedItemsHaveState (TabWindow.tabItems winOpen)
  ∧ isOk (computeTitle winLive) = true
  ∧ isOk (updateTabBookmark winOpen savedD urlChange) = true.
Proof.
  assert (Ho : openItemsHaveState (TabWindow.tabItems winLive)) by items_ok.
  assert (Hs : savedItemsHaveState (TabWindow.tabItems winOpen)) by items_ok.
  split; [exact Ho|]. split; [exact Hs|]. split.
  - exact (proj1 (proj1 (reads_and_bookmark_update_total winLive) Ho)).
  - exact (proj2 (reads_and_bookmark_update_total winOpen) Hs savedD urlChange).
Defined.
End Invariant.
